(** * Luna network objects: address bookkeeping of a subnet

    A shallow embedding of [luna/network.py] (class [Network]) and the
    properties its specification states about it.

    The Python methods read and write a MongoDB collection, log errors and
    raise exceptions.  They are embedded in a state-and-exception monad over
    an explicit [World]: the collection, the journal of the writes issued to
    it, the outcome the store will give to the coming writes, and the error
    log.  The helpers of [luna.utils] and the sibling entity classes are not
    part of [network.py]; the methods are embedded over interfaces for them
    ([IpUtils], [FreelistUtils], [Entities]), and an instance following the
    specification is given in [SpecModel] for running the scenarios. *)

From Stdlib Require Import ZArith String Ascii List Lia Bool.
From stdpp Require Import base option gmap strings list.

Local Open Scope string_scope.
Local Open Scope list_scope.
Local Open Scope Z_scope.

(** ** Python values, exceptions *)

(** The values the methods receive as arguments and store in the scalar
    fields of a document: [None], an [int]/[long], or a [str]. *)
Inductive PyVal : Type :=
| VNone
| VInt (z : Z)
| VStr (s : string).

#[global] Instance PyVal_eq_dec : EqDecision PyVal.
Proof. solve_decision. Defined.

Definition PyVal_enc (v : PyVal) : option (Z + string) :=
  match v with
  | VNone => None
  | VInt z => Some (inl z)
  | VStr s => Some (inr s)
  end.

Definition PyVal_dec (o : option (Z + string)) : PyVal :=
  match o with
  | None => VNone
  | Some (inl z) => VInt z
  | Some (inr s) => VStr s
  end.

#[global] Instance PyVal_countable : Countable PyVal.
Proof.
  apply (inj_countable' PyVal_enc PyVal_dec).
  intros []; reflexivity.
Defined.

(** [bool(v)] *)
Definition truthy (v : PyVal) : bool :=
  match v with
  | VNone => false
  | VInt z => negb (z =? 0)
  | VStr s => negb (String.eqb s EmptyString)
  end.

(** [type(v) is str] *)
Definition is_str (v : PyVal) : bool :=
  match v with
  | VStr _ => true
  | _ => false
  end.

(** [v == 'lit'] for a string literal *)
Definition key_is (v : PyVal) (lit : string) : bool :=
  match v with
  | VStr s => String.eqb s lit
  | _ => false
  end.

(** [bool(x)] for a value that is [None] or a number *)
Definition truthy_num (x : option Z) : bool :=
  match x with
  | None => false
  | Some z => negb (z =? 0)
  end.

(** [a <= b] of Python 2 for [a] a number and [b] a number or [None]:
    [None] sorts below every number. *)
Definition py_le (a : Z) (b : option Z) : bool :=
  match b with
  | None => false
  | Some z => a <=? z
  end.

Inductive PyExc : Type :=
| TypeError
| ValueError
| UnboundLocalError (var : string)
| RuntimeError (why : string).

Inductive Result (A : Type) : Type :=
| Val (a : A)
| Raise (e : PyExc).
Arguments Val {A} a.
Arguments Raise {A} e.

Definition result_map {A B} (f : A -> B) (r : Result A) : Result B :=
  match r with
  | Val a => Val (f a)
  | Raise e => Raise e
  end.

(** [a << n]: a negative shift count raises [ValueError]. *)
Definition py_lshift (a n : Z) : Result Z :=
  if n <? 0 then Raise ValueError else Val (Z.shiftl a n).

(** ** [int(s)] on a string: surrounding blanks, an optional sign, digits *)

Definition is_blank (c : ascii) : bool :=
  let n := nat_of_ascii c in
  (Nat.eqb n 32 || (Nat.leb 9 n && Nat.leb n 13))%bool.

Definition digit_of (c : ascii) : option Z :=
  let n := nat_of_ascii c in
  if (Nat.leb 48 n && Nat.leb n 57)%bool then Some (Z.of_nat n - 48) else None.

Fixpoint drop_blanks (s : string) : string :=
  match s with
  | String c s' => if is_blank c then drop_blanks s' else s
  | EmptyString => EmptyString
  end.

(** digits of [s] up to its end or to trailing blanks *)
Fixpoint digits_acc (s : string) (seen : bool) (acc : Z) : option Z :=
  match s with
  | EmptyString => if seen then Some acc else None
  | String c s' =>
      match digit_of c with
      | Some d => digits_acc s' true (10 * acc + d)
      | None =>
          if (seen && is_blank c)%bool
          then match drop_blanks s' with
               | EmptyString => Some acc
               | _ => None
               end
          else None
      end
  end.

Definition int_of_string (s : string) : option Z :=
  match drop_blanks s with
  | String "-" s' => option_map Z.opp (digits_acc s' false 0)
  | String "+" s' => digits_acc s' false 0
  | s' => digits_acc s' false 0
  end.

(** [int(v)] *)
Definition py_int (v : PyVal) : Result Z :=
  match v with
  | VNone => Raise TypeError
  | VInt z => Val z
  | VStr s =>
      match int_of_string s with
      | Some z => Val z
      | None => Raise ValueError
      end
  end.

(** [a - v] for an [int] [a]: only a number can be subtracted. *)
Definition py_rsub (a : Z) (v : PyVal) : Result Z :=
  match v with
  | VInt z => Val (a - z)
  | _ => Raise TypeError
  end.

(** ** Documents of the [network] collection *)

(** The [_id] of a document. *)
Abbreviation ObjectId := nat (only parsing).

(** One [{'start': s, 'end': e}] entry of a free list. *)
Record Range : Type := mkRange { r_start : Z; r_end : Z }.

#[global] Instance Range_eq_dec : EqDecision Range.
Proof. solve_decision. Defined.

(** The reverse links [net[usedby_key]]: the kinds in the iteration order
    of the dictionary, each with the ids recorded under it. *)
Definition RevLinks := list (string * list string).

Record NetDoc : Type := mkNetDoc {
  name : string;
  NETWORK : Z;
  PREFIX : PyVal;
  freelist : list Range;
  ns_hostname : PyVal;
  ns_ip : option Z;
  usedby : option RevLinks
}.

Definition set_freelist (fl : list Range) (d : NetDoc) : NetDoc :=
  mkNetDoc (name d) (NETWORK d) (PREFIX d) fl (ns_hostname d) (ns_ip d) (usedby d).
Definition set_ns_ip (r : option Z) (d : NetDoc) : NetDoc :=
  mkNetDoc (name d) (NETWORK d) (PREFIX d) (freelist d) (ns_hostname d) r (usedby d).
Definition set_ns_hostname (v : PyVal) (d : NetDoc) : NetDoc :=
  mkNetDoc (name d) (NETWORK d) (PREFIX d) (freelist d) v (ns_ip d) (usedby d).
Definition set_NETWORK (n : Z) (d : NetDoc) : NetDoc :=
  mkNetDoc (name d) n (PREFIX d) (freelist d) (ns_hostname d) (ns_ip d) (usedby d).
Definition set_PREFIX (p : PyVal) (d : NetDoc) : NetDoc :=
  mkNetDoc (name d) (NETWORK d) p (freelist d) (ns_hostname d) (ns_ip d) (usedby d).

(** ** The world: store, journal, log *)

(** A write issued to the collection. *)
Inductive WriteOp : Type :=
| WInsert (d : NetDoc)
| WSetFreelist (oid : option ObjectId) (fl : list Range)
| WSetDoc (oid : option ObjectId) (d : NetDoc).

(** [self.log.error(...)] messages *)
Inductive LogMsg : Type :=
| ErrFieldShouldBeSpecified
| ErrCannotChange (key : PyVal)
| ErrWasItDeleted
| ErrUpdatingFreelist (fl : list Range)
| ErrWrongRange
| ErrNoIPsConfigured (net : string)
| ErrDuplicateName (nm : PyVal) (net : string).

Record World : Type := mkWorld {
  coll : gmap nat NetDoc;      (* the documents of the collection, by _id *)
  next_oid : ObjectId;         (* the _id the next insert is given *)
  faults : list bool;          (* whether the coming writes are rejected *)
  journal : list WriteOp;      (* the writes issued, oldest first *)
  errlog : list LogMsg;        (* the errors logged, oldest first *)
  has_cluster : bool;          (* a cluster document is there *)
  linked : list ObjectId       (* networks linked to the cluster *)
}.

Definition M (A : Type) : Type := World -> Result A * World.

Definition ret {A} (a : A) : M A := fun w => (Val a, w).
Definition raise {A} (e : PyExc) : M A := fun w => (Raise e, w).
Definition bind {A B} (m : M A) (k : A -> M B) : M B :=
  fun w => match m w with
           | (Val a, w') => k a w'
           | (Raise e, w') => (Raise e, w')
           end.
(** [try: m  except: h] with a bare [except] *)
Definition catch {A} (m : M A) (h : M A) : M A :=
  fun w => match m w with
           | (Val a, w') => (Val a, w')
           | (Raise _, w') => h w'
           end.
Definition lift {A} (r : Result A) : M A := fun w => (r, w).

Notation "x <- c1 ;; c2" := (bind c1 (fun x => c2))
  (at level 100, c1 at next level, right associativity).
Notation "c1 ;; c2" := (bind c1 (fun _ => c2))
  (at level 100, right associativity).

Definition log_error (m : LogMsg) : M unit :=
  fun w => (Val tt, mkWorld (coll w) (next_oid w) (faults w) (journal w)
                            (errlog w ++ [m]) (has_cluster w) (linked w)).

(** The store's verdict on the next write. *)
Definition next_fault (w : World) : bool :=
  match faults w with
  | f :: _ => f
  | [] => false
  end.

Definition written (op : WriteOp) (c : gmap nat NetDoc) (w : World) : World :=
  mkWorld c (next_oid w) (tail (faults w)) (journal w ++ [op])
          (errlog w) (has_cluster w) (linked w).

(** [collection.find_one({'_id': oid})] *)
Definition find_one (oid : option ObjectId) : M (option NetDoc) :=
  fun w => (Val (match oid with
                 | Some i => coll w !! i
                 | None => None
                 end), w).

(** [collection.update({'_id': oid}, {'$set': {'freelist': fl}},
    multi=False, upsert=False)]; the result is [bool(res['err'])].  A
    rejected write leaves the collection as it was; a write that matches no
    document changes nothing and is no error. *)
Definition update_freelist (oid : option ObjectId) (fl : list Range) : M bool :=
  fun w =>
    let op := WSetFreelist oid fl in
    if next_fault w then (Val true, written op (coll w) w)
    else match oid with
         | Some i => (Val false, written op (alter (set_freelist fl) i (coll w)) w)
         | None => (Val false, written op (coll w) w)
         end.

(** [collection.update({'_id': oid}, {'$set': net}, multi=False,
    upsert=False)] with [net] the whole document *)
Definition update_doc (oid : option ObjectId) (net : NetDoc) : M bool :=
  fun w =>
    let op := WSetDoc oid net in
    if next_fault w then (Val true, written op (coll w) w)
    else match oid with
         | Some i => (Val false, written op (alter (fun _ => net) i (coll w)) w)
         | None => (Val false, written op (coll w) w)
         end.

(** [collection.insert(net)]: a rejected insert raises. *)
Definition insert_doc (net : NetDoc) : M ObjectId :=
  fun w =>
    let op := WInsert net in
    if next_fault w then (Raise (RuntimeError "insert"), written op (coll w) w)
    else (Val (next_oid w),
          mkWorld (<[next_oid w := net]> (coll w)) (S (next_oid w))
                  (tail (faults w)) (journal w ++ [op]) (errlog w)
                  (has_cluster w) (linked w)).

(** ** The collaborators of [network.py] *)

(** [luna.utils.ip]: conversions between dotted-quad addresses, numbers and
    offsets relative to the base of a network.  [atorel] and
    [get_num_subnet] are handed the arguments as the callers have them. *)
Class IpUtils : Type := {
  ntoa : Z -> Result string;
  reltoa : Z -> option Z -> Result string;
  atorel : PyVal -> Z -> PyVal -> Result Z;
  get_num_subnet : PyVal -> PyVal -> Result Z;
  guess_ns_hostname : PyVal
}.

(** [luna.utils.freelist]: each function returns the new list and a report,
    whose types are the helper's own. *)
Class FreelistUtils : Type := {
  Unfreed : Type;
  Freed : Type;
  unfree_range : list Range -> Z -> option Z -> Result (list Range * Unfreed);
  next_free : list Range -> Result (list Range * Unfreed);
  free_range : list Range -> option Z -> option Z -> Result (list Range * Freed);
  set_upper_limit : list Range -> Z -> Result (list Range)
}.

(** The entities that claim addresses of a network ([luna.node.Group],
    [luna.switch.Switch], [luna.otherdev.OtherDev]) and [Base.get]. *)
Class Entities : Type := {
  (* Group(id).get_rel_ips_for_net(net_id), in the iteration order *)
  group_rel_ips : string -> option ObjectId -> Result (list (string * option Z));
  (* Switch(id): .name and .get_rel_ip() *)
  switch_rel_ip : string -> Result (string * option Z);
  (* OtherDev(id): .name and .get_ip(net_id) *)
  otherdev_ip : string -> option ObjectId -> Result (string * option Z);
  (* Base.get(key) on the loaded document *)
  base_get : NetDoc -> PyVal -> Result PyVal
}.

(** A [Network] object: the attributes the methods read. *)
Record Self : Type := mkSelf { _id : option ObjectId; _name : string }.

(** Modelled from the spec: [Base._get_json] is not part of network.py; it
    loads the record of the object, and a record that vanished since the
    load is the failure NotFound. *)
Definition _get_json (self : Self) : M NetDoc :=
  o <- find_one (_id self) ;;
  match o with
  | Some net => ret net
  | None => raise (RuntimeError "NotFound")
  end.

(** Modelled from the spec: [Base._check_name] is not part of network.py;
    the spec says that [name] is the unique identifier of a subnet, so a
    create under a name the collection already has is refused. *)
Definition _check_name (nm : string) : M unit :=
  fun w =>
    if forallb (fun p => negb (String.eqb (name (snd p)) nm)) (map_to_list (coll w))
    then (Val tt, w)
    else (Raise (RuntimeError "name exists"), w).

(** Modelled from the spec: [Cluster(mongo_db)] is not part of network.py;
    the cluster registry is an external collaborator, and a network is
    created in a store that has its cluster. *)
Definition Cluster : M unit :=
  fun w => if has_cluster w then (Val tt, w)
           else (Raise (RuntimeError "no cluster"), w).

(** Modelled from the spec: [Base.link] is not part of network.py;
    linkSubnet records the network with its cluster. *)
Definition link (self : Self) : M unit :=
  fun w => (Val tt,
            mkWorld (coll w) (next_oid w) (faults w) (journal w) (errlog w)
                    (has_cluster w)
                    (linked w ++ match _id self with Some i => [i] | None => [] end)).

(** ** class Network *)

Section Network.
Context {IP : IpUtils} {FL : FreelistUtils} {EN : Entities}.

(** the keys of [self._keylist] *)
Definition in_keylist (key : PyVal) : bool :=
  (key_is key "NETWORK" || key_is key "PREFIX"
   || key_is key "ns_hostname" || key_is key "ns_ip")%bool.

(** [if type(ip) is str: ip = utils.ip.atorel(ip, net['NETWORK'],
    net['PREFIX'])]: afterwards the argument is [None] or a number. *)
Definition rel_of_arg (ip : PyVal) (net : NetDoc) : Result (option Z) :=
  match ip with
  | VStr _ => result_map Some (atorel ip (NETWORK net) (PREFIX net))
  | VInt z => Val (Some z)
  | VNone => Val None
  end.

(** [bool(ip2) and ip2 <= ip1] *)
Definition wrong_range (ip1 ip2 : option Z) : bool :=
  match ip2 with
  | Some z2 => (negb (z2 =? 0) && py_le z2 ip1)%bool
  | None => false
  end.

Definition get (self : Self) (key : PyVal) : M PyVal :=
  if (negb (truthy key) || negb (is_str key))%bool then ret VNone
  else
    net <- _get_json self ;;
    if key_is key "NETWORK" then
      a <- lift (ntoa (NETWORK net)) ;; ret (VStr a)
    else if key_is key "NETMASK" then
      prefix <- lift (py_int (PREFIX net)) ;;
      full <- lift (py_lshift 1 32) ;;
      low <- lift (py_lshift 1 (33 - prefix - 1)) ;;
      let num_mask := Z.lxor (full - 1) (low - 1) in
      a <- lift (ntoa num_mask) ;; ret (VStr a)
    else if key_is key "PREFIX" then ret (PREFIX net)
    else if key_is key "ns_ip" then
      a <- lift (reltoa (NETWORK net) (ns_ip net)) ;; ret (VStr a)
    else lift (base_get net key).

(** The result is [None] when the object has no [_id], else
    [not res['err']]. *)
Definition _save_free_list (self : Self) (flist : list Range) : M (option bool) :=
  match _id self with
  | None => log_error ErrWasItDeleted ;; ret None
  | Some _ =>
      err <- update_freelist (_id self) flist ;;
      (if err then log_error (ErrUpdatingFreelist flist) else ret tt) ;;
      ret (Some (negb err))
  end.

(** The result is [None] after the range error, else [Some unfreed]. *)
Definition reserve_ip (self : Self) (ip1 ip2 : PyVal) (ignore_errors : bool)
  : M (option Unfreed) :=
  net <- _get_json self ;;
  ip1 <- lift (rel_of_arg ip1 net) ;;
  ip2 <- lift (rel_of_arg ip2 net) ;;
  if wrong_range ip1 ip2 then
    log_error ErrWrongRange ;; ret None
  else
    p <- (if truthy_num ip1 then
            (* a truthy [ip1] is a number *)
            lift (unfree_range (freelist net) (default 0 ip1) ip2)
          else if ignore_errors then
            lift (next_free (freelist net))
          else
            raise (UnboundLocalError "flist")) ;;
    _save_free_list self (fst p) ;;
    ret (Some (snd p)).

(** The result is [None] after the range error, else [Some true]. *)
Definition release_ip (self : Self) (ip1 ip2 : PyVal) : M (option bool) :=
  net <- _get_json self ;;
  ip1 <- lift (rel_of_arg ip1 net) ;;
  ip2 <- lift (rel_of_arg ip2 net) ;;
  if wrong_range ip1 ip2 then
    log_error ErrWrongRange ;; ret None
  else
    p <- lift (free_range (freelist net) ip1 ip2) ;;
    _save_free_list self (fst p) ;;
    ret (Some true).

(** The result is [None] after a key error, else [not ret['err']]. *)
Definition set (self : Self) (key value : PyVal) : M (option bool) :=
  if (negb (truthy key) || negb (is_str key))%bool then
    log_error ErrFieldShouldBeSpecified ;; ret None
  else if negb (in_keylist key) then
    log_error (ErrCannotChange key) ;; ret None
  else
    net <- _get_json self ;;
    net <- (if key_is key "ns_ip" then
              rel_ns_ip <- lift (atorel value (NETWORK net) (PREFIX net)) ;;
              old_ip <- catch (get self (VStr "ns_ip")) (ret VNone) ;;
              (if truthy old_ip then release_ip self old_ip VNone ;; ret tt
               else ret tt) ;;
              reserve_ip self (VInt rel_ns_ip) VNone true ;;
              net <- _get_json self ;;
              ret (set_ns_ip (Some rel_ns_ip) net)
            else if key_is key "ns_hostname" then
              ret (set_ns_hostname value net)
            else if key_is key "NETWORK" then
              let prefix := PREFIX net in
              num_subnet <- lift (get_num_subnet value prefix) ;;
              ret (set_NETWORK num_subnet net)
            else if key_is key "PREFIX" then
              let num_subnet := NETWORK net in
              new_num_subnet <- lift (get_num_subnet (VInt num_subnet) value) ;;
              width <- lift (py_rsub 32 value) ;;
              top <- lift (py_lshift 1 width) ;;
              let limit := top - 1 in
              fl <- lift (set_upper_limit (freelist net) limit) ;;
              ret (set_PREFIX value (set_NETWORK new_num_subnet (set_freelist fl net)))
            else ret net) ;;
    err <- update_doc (_id self) net ;;
    ret (Some (negb err)).

(** [Network(name, create=True, NETWORK, PREFIX, ns_hostname, ns_ip)] *)
Definition create (nm : string) (network prefix hostname ip : PyVal) : M Self :=
  _check_name nm ;;
  Cluster ;;
  num_subnet <- lift (get_num_subnet network prefix) ;;
  p <- lift (py_int prefix) ;;
  top <- lift (py_lshift 1 (32 - p)) ;;
  let flist0 := mkRange 1 (top - 2) in
  let flist := [flist0] in
  let hostname := if negb (truthy hostname) then guess_ns_hostname else hostname in
  let net := mkNetDoc nm num_subnet prefix flist hostname None None in
  oid <- insert_doc net ;;
  let self := mkSelf (Some oid) nm in
  link self ;;
  ip <- (match ip with
         | VNone => a <- lift (reltoa num_subnet (Some (r_end flist0))) ;; ret (VStr a)
         | _ => ret ip
         end) ;;
  set self (VStr "ns_ip") ip ;;
  ret self.

(** [add_to_out_dict(name, relative_ip)]: the closure's [out_dict] is
    passed and returned. *)
Definition add_to_out_dict (self : Self) (net : NetDoc)
    (out_dict : gmap PyVal string) (nm : PyVal) (relative_ip : option Z)
  : M (gmap PyVal string) :=
  match out_dict !! nm with
  | Some _ => log_error (ErrDuplicateName nm (_name self)) ;; ret out_dict
  | None =>
      a <- lift (reltoa (NETWORK net) relative_ip) ;;
      ret (<[nm := a]> out_dict)
  end.

(** [for x in xs: acc = body(acc, x)] *)
Fixpoint for_each {A B} (xs : list A) (body : B -> A -> M B) (acc : B) : M B :=
  match xs with
  | [] => ret acc
  | x :: xs' => acc' <- body acc x ;; for_each xs' body acc'
  end.

Definition add_all (self : Self) (net : NetDoc)
    (out_dict : gmap PyVal string) (items : list (string * option Z))
  : M (gmap PyVal string) :=
  for_each items
    (fun out it => add_to_out_dict self net out (VStr (fst it)) (snd it))
    out_dict.

(** one turn of [for elem in rev_links] *)
Definition resolve_elem (self : Self) (net : NetDoc)
    (out_dict : gmap PyVal string) (elem : string * list string)
  : M (gmap PyVal string) :=
  out1 <- (if String.eqb (fst elem) "group" then
             for_each (snd elem)
               (fun out gid =>
                  tmp_dict <- lift (group_rel_ips gid (_id self)) ;;
                  add_all self net out tmp_dict)
               out_dict
           else ret out_dict) ;;
  out2 <- (if String.eqb (fst elem) "switch" then
             for_each (snd elem)
               (fun out sid =>
                  sw <- lift (switch_rel_ip sid) ;;
                  add_to_out_dict self net out (VStr (fst sw)) (snd sw))
               out1
           else ret out1) ;;
  (if String.eqb (fst elem) "otherdev" then
     for_each (snd elem)
       (fun out oid =>
          od <- lift (otherdev_ip oid (_id self)) ;;
          add_to_out_dict self net out (VStr (fst od)) (snd od))
       out2
   else ret out2).

Definition resolve_used_ips (self : Self) : M (gmap PyVal string) :=
  net <- _get_json self ;;
  match usedby net with
  | None =>
      log_error (ErrNoIPsConfigured (_name self)) ;; ret ∅
  | Some rev_links =>
      out_dict <- for_each rev_links (resolve_elem self net) ∅ ;;
      add_to_out_dict self net out_dict (ns_hostname net) (ns_ip net)
  end.

End Network.

(** ** The helpers as the specification describes them *)

Module SpecModel.

(** *** AddressMath *)

Definition digit_char (d : Z) : ascii := ascii_of_nat (48 + Z.to_nat d).

Definition octet_str (n : Z) : string :=
  let u := String (digit_char (n mod 10)) EmptyString in
  if n <? 10 then u
  else
    let t := String (digit_char ((n / 10) mod 10)) u in
    if n <? 100 then t else String (digit_char (n / 100)) t.

Definition dotted (n : Z) : string :=
  octet_str (Z.shiftr n 24 mod 256) +:+ "." +:+
  octet_str (Z.shiftr n 16 mod 256) +:+ "." +:+
  octet_str (Z.shiftr n 8 mod 256) +:+ "." +:+
  octet_str (n mod 256).

Fixpoint parse_octets (s : string) (cur : option Z) (acc : list Z)
  : option (list Z) :=
  match s with
  | EmptyString =>
      match cur with
      | Some n => Some (acc ++ [n])
      | None => None
      end
  | String c s' =>
      if Ascii.eqb c "." then
        match cur with
        | Some n => parse_octets s' None (acc ++ [n])
        | None => None
        end
      else
        match digit_of c with
        | Some d =>
            let n := 10 * default 0 cur + d in
            if n <=? 255 then parse_octets s' (Some n) acc else None
        | None => None
        end
  end.

(** dotted quad to number *)
Definition aton (s : string) : option Z :=
  match parse_octets s None [] with
  | Some [a; b; c; d] =>
      Some (Z.shiftl a 24 + Z.shiftl b 16 + Z.shiftl c 8 + d)
  | _ => None
  end.

(** Modelled from the spec: [utils.ip.ntoa] is not part of network.py; the
    absolute dotted-quad form of a 32-bit address. *)
Definition ntoa (n : Z) : Result string :=
  if ((0 <=? n) && (n <? 2 ^ 32))%bool then Val (dotted n)
  else Raise (RuntimeError "ntoa").

(** Modelled from the spec: netmask(prefix) -> mask. *)
Definition netmask (prefix : Z) : Result Z :=
  result_map (fun low => Z.lxor (2 ^ 32 - 1) (low - 1)) (py_lshift 1 (32 - prefix)).

(** Modelled from the spec: [utils.ip.get_num_subnet] is not part of
    network.py; numSubnet(addr, prefix) masks an address down to its
    network base for the given prefix. *)
Definition get_num_subnet (ip prefix : PyVal) : Result Z :=
  match py_int prefix with
  | Raise e => Raise e
  | Val p =>
      match (match ip with
             | VInt z => Val z
             | VStr s => match aton s with
                         | Some z => Val z
                         | None => Raise (RuntimeError "aton")
                         end
             | VNone => Raise TypeError
             end) with
      | Raise e => Raise e
      | Val num_ip => result_map (Z.land num_ip) (netmask p)
      end
  end.

(** Modelled from the spec: [utils.ip.atorel] is not part of network.py;
    toOffset(absoluteAddr, base, prefix) fails with OutOfRange if the
    address is outside [base, base + 2^(32-prefix) - 1]. *)
Definition atorel (ip : PyVal) (num_net : Z) (prefix : PyVal) : Result Z :=
  match ip, py_int prefix with
  | VStr s, Val p =>
      match aton s, py_lshift 1 (32 - p) with
      | Some num_ip, Val size =>
          if ((num_net <=? num_ip) && (num_ip <=? num_net + size - 1))%bool
          then Val (num_ip - num_net)
          else Raise (RuntimeError "OutOfRange")
      | None, _ => Raise (RuntimeError "aton")
      | _, Raise e => Raise e
      end
  | _, Raise e => Raise e
  | _, _ => Raise TypeError
  end.

(** Modelled from the spec: [utils.ip.reltoa] is not part of network.py;
    toAbsolute(offset, base). *)
Definition reltoa (num_net : Z) (rel_ip : option Z) : Result string :=
  match rel_ip with
  | Some r => ntoa (num_net + r)
  | None => Raise TypeError
  end.

Definition ip_utils (hostname : string) : IpUtils :=
  Build_IpUtils ntoa reltoa atorel get_num_subnet (VStr hostname).

(** *** FreeList *)

Definition range_size (r : Range) : Z := r_end r - r_start r + 1.
Definition total_free (fl : list Range) : Z :=
  fold_right (fun r n => range_size r + n) 0 fl.

(** What is left of one free range once [s, e] is taken out of it. *)
Definition cut (s e : Z) (r : Range) : list Range :=
  if ((r_end r <? s) || (e <? r_start r))%bool then [r]
  else
    ((if r_start r <? s then [mkRange (r_start r) (s - 1)] else [])
     ++ (if e <? r_end r then [mkRange (e + 1) (r_end r)] else []))%list.

(** Modelled from the spec: reserveRange(flist, start, end) ->
    (newFlist, fullyReserved) removes the intersection of [start, end]
    with every free range. *)
Definition reserveRange (fl : list Range) (s e : Z) : list Range * bool :=
  let fl' := flat_map (cut s e) fl in
  (fl', total_free fl - total_free fl' =? e - s + 1).

(** Modelled from the spec: reserveNext(flist) -> (newFlist, offset|none)
    selects the lowest offset of the first free range. *)
Definition reserveNext (fl : list Range) : list Range * option Z :=
  match fl with
  | [] => ([], None)
  | r :: rest =>
      (if r_start r =? r_end r then rest
       else mkRange (r_start r + 1) (r_end r) :: rest,
       Some (r_start r))
  end.

Fixpoint merge_in (fl : list Range) (s e : Z) : list Range :=
  match fl with
  | [] => [mkRange s e]
  | r :: rest =>
      if r_end r + 1 <? s then r :: merge_in rest s e
      else if e + 1 <? r_start r then mkRange s e :: r :: rest
      else merge_in rest (Z.min s (r_start r)) (Z.max e (r_end r))
  end.

(** Modelled from the spec: releaseRange(flist, start, end) ->
    (newFlist, freedCount) inserts [start, end], merging with adjacent
    or overlapping free ranges. *)
Definition releaseRange (fl : list Range) (s e : Z) : list Range * Z :=
  let fl' := merge_in fl s e in
  (fl', total_free fl' - total_free fl).

(** Modelled from the spec: rebound(flist, newUpperBound) drops a free
    range wholly above the bound and truncates one that crosses it. *)
Definition rebound (fl : list Range) (upper : Z) : list Range :=
  flat_map (fun r => if upper <? r_start r then []
                     else [mkRange (r_start r) (Z.min (r_end r) upper)]) fl.

(** A free list in order: every range is not empty and starts at least
    two above the end of the one before it (disjoint, not adjacent). *)
Fixpoint ascending (lo : Z) (fl : list Range) : Prop :=
  match fl with
  | [] => True
  | r :: rest => lo <= r_start r /\ r_start r <= r_end r /\ ascending (r_end r + 2) rest
  end.

(** the offset [o] is free *)
Definition is_free (o : Z) (fl : list Range) : Prop :=
  Exists (fun r => r_start r <= o <= r_end r) fl.

Inductive Report : Type :=
| FullyReserved (b : bool)
| Offset (o : option Z).

(** The end of the range [ip1, ip2 or ip1] the callers mean; start > end
    is the caller error InvalidRange. *)
Definition range_end (s : Z) (e : option Z) : Result Z :=
  let e' := if truthy_num e then default s e else s in
  if e' <? s then Raise (RuntimeError "InvalidRange") else Val e'.

(** Modelled from the spec: [utils.freelist.unfree_range] is not part of
    network.py; reserve reserves [ip1, ip2 or ip1] with reserveRange and
    reports whether the range was fully reserved. *)
Definition unfree_range (fl : list Range) (s : Z) (e : option Z)
  : Result (list Range * Report) :=
  result_map (fun e' => let p := reserveRange fl s e' in
                        (fst p, FullyReserved (snd p)))
             (range_end s e).

(** Modelled from the spec: [utils.freelist.next_free] is not part of
    network.py; reserveNext, reporting the offset or none. *)
Definition next_free (fl : list Range) : Result (list Range * Report) :=
  let p := reserveNext fl in Val (fst p, Offset (snd p)).

(** Modelled from the spec: [utils.freelist.free_range] is not part of
    network.py; release releases the range with releaseRange and reports
    the count of the addresses freed. *)
Definition free_range (fl : list Range) (s e : option Z)
  : Result (list Range * Z) :=
  match s with
  | None => Raise TypeError
  | Some s' => result_map (releaseRange fl s') (range_end s' e)
  end.

(** Modelled from the spec: [utils.freelist.set_upper_limit] is not part
    of network.py; rebound. *)
Definition set_upper_limit (fl : list Range) (upper : Z) : Result (list Range) :=
  Val (rebound fl upper).

Definition freelist_utils : FreelistUtils :=
  Build_FreelistUtils Report Z unfree_range next_free free_range set_upper_limit.

(** Modelled from the spec: the entity classes are not part of network.py;
    the lookups groupRelativeIPs, switchRelativeIP and otherDevIP are given
    as tables by id, and an id that is not there is NotFound.  [Base.get]
    returns the raw stored value. *)
Definition table_lookup {A} (t : list (string * A)) (k : string) : Result A :=
  match find (fun p => String.eqb (fst p) k) t with
  | Some p => Val (snd p)
  | None => Raise (RuntimeError "NotFound")
  end.

Definition entities (groups : list (string * list (string * option Z)))
    (switches otherdevs : list (string * (string * option Z))) : Entities :=
  Build_Entities
    (fun gid _ => table_lookup groups gid)
    (fun sid => table_lookup switches sid)
    (fun oid _ => table_lookup otherdevs oid)
    (fun net key =>
       if key_is key "ns_hostname" then Val (ns_hostname net)
       else if key_is key "name" then Val (VStr (name net))
       else Raise (RuntimeError "UnsupportedField")).

Definition no_entities : Entities := entities [] [] [].

(** An empty store with a cluster. *)
Definition world0 (faults : list bool) : World :=
  mkWorld ∅ 0%nat faults [] [] true [].

End SpecModel.

(** ** What the properties are stated with *)

Section Specs.
Context {IP : IpUtils} {FL : FreelistUtils} {EN : Entities}.

(** The number [get('NETMASK')] converts for a prefix [p]. *)
Definition num_mask (p : Z) : Z :=
  Z.lxor (Z.shiftl 1 32 - 1) (Z.shiftl 1 (33 - p - 1) - 1).

(** The collection after an update of document [oid] by [f]. *)
Definition updated (f : NetDoc -> NetDoc) (oid : option ObjectId) (w : World)
  : gmap nat NetDoc :=
  if next_fault w then coll w
  else match oid with
       | Some i => alter f i (coll w)
       | None => coll w
       end.

(** The world after [_save_free_list] of an object with an [_id]. *)
Definition saved (i : nat) (fl : list Range) (w : World) : World :=
  let w1 := written (WSetFreelist (Some i) fl) (updated (set_freelist fl) (Some i) w) w in
  if next_fault w
  then mkWorld (coll w1) (next_oid w1) (faults w1) (journal w1)
               (errlog w1 ++ [ErrUpdatingFreelist fl]) (has_cluster w1) (linked w1)
  else w1.

(** The world after one [log.error]. *)
Definition logged (m : LogMsg) (w : World) : World :=
  mkWorld (coll w) (next_oid w) (faults w) (journal w) (errlog w ++ [m])
          (has_cluster w) (linked w).

(** The world after several errors are logged. *)
Definition logs (ms : list LogMsg) (w : World) : World :=
  mkWorld (coll w) (next_oid w) (faults w) (journal w) (errlog w ++ ms)
          (has_cluster w) (linked w).

(** A computation that changes nothing of the world but its error log. *)
Definition only_logs {A} (m : M A) : Prop :=
  forall w, exists ms, snd (m w) = logs ms w.

(** The property in the words of the specification: a [set] that
    succeeds has issued exactly one write, and a [set] that reports a
    persistence failure has left the collection as it was. *)
Definition one_update_per_set (self : Self) (key value : PyVal) (w : World) : Prop :=
  forall b w', set self key value w = (Val (Some b), w') ->
    (b = true -> exists op, journal w' = journal w ++ [op])
    /\ (b = false -> coll w' = coll w).

(** The rule in the words of the specification: an entry whose name the
    mapping already has is not written and is reported; any other entry
    is written in absolute form [ab r].  The result is the mapping and
    the names reported, in order. *)
Fixpoint first_wins (ab : option Z -> string) (items : list (PyVal * option Z))
    (out : gmap PyVal string) : gmap PyVal string * list PyVal :=
  match items with
  | [] => (out, [])
  | it :: rest =>
      match out !! fst it with
      | Some _ => let p := first_wins ab rest out in (fst p, fst it :: snd p)
      | None => first_wins ab rest (<[fst it := ab (snd it)]> out)
      end
  end.

(** The offset of the first entry of [items] under the name [nm]. *)
Definition first_claim (nm : PyVal) (items : list (PyVal * option Z))
  : option (option Z) :=
  snd <$> find (fun it => bool_decide (fst it = nm)) items.

(** The names of the entries of [items] that come after an entry of the
    same name, or whose name is in [seen]. *)
Fixpoint later_claims (seen : gset PyVal) (items : list (PyVal * option Z))
  : list PyVal :=
  match items with
  | [] => []
  | it :: rest =>
      if bool_decide (fst it ∈ seen) then fst it :: later_claims seen rest
      else later_claims ({[fst it]} ∪ seen) rest
  end.

Definition duplicate_msg (self : Self) (nm : PyVal) : LogMsg :=
  ErrDuplicateName nm (_name self).

Section LoopSpecs.
Variables (self : Self) (net : NetDoc) (ab : option Z -> string).

Definition converts (items : list (PyVal * option Z)) : Prop :=
  forall it, In it items -> reltoa (NETWORK net) (snd it) = Val (ab (snd it)).

Definition after (items : list (PyVal * option Z)) (out : gmap PyVal string)
    (w : World) : Result (gmap PyVal string) * World :=
  (Val (fst (first_wins ab items out)),
   logs (map (duplicate_msg self) (snd (first_wins ab items out))) w).

Definition named (it : string * option Z) : PyVal * option Z :=
  (VStr (fst it), snd it).

(** The entries an id contributes, and those a list of ids does, when
    every lookup succeeds. *)
Fixpoint collect {A} (f : A -> Result (list (PyVal * option Z))) (xs : list A)
  : Result (list (PyVal * option Z)) :=
  match xs with
  | [] => Val []
  | x :: xs' =>
      match f x, collect f xs' with
      | Val l, Val ls => Val (l ++ ls)
      | Raise e, _ => Raise e
      | _, Raise e => Raise e
      end
  end.

Definition group_claims (gid : string) : Result (list (PyVal * option Z)) :=
  result_map (map named) (group_rel_ips gid (_id self)).
Definition switch_claims (sid : string) : Result (list (PyVal * option Z)) :=
  result_map (fun sw => [named sw]) (switch_rel_ip sid).
Definition otherdev_claims (oid : string) : Result (list (PyVal * option Z)) :=
  result_map (fun od => [named od]) (otherdev_ip oid (_id self)).

(** what one kind of the links contributes *)
Definition elem_claims (elem : string * list string)
  : Result (list (PyVal * option Z)) :=
  match (if String.eqb (fst elem) "group" then collect group_claims (snd elem)
         else Val []),
        (if String.eqb (fst elem) "switch" then collect switch_claims (snd elem)
         else Val []),
        (if String.eqb (fst elem) "otherdev" then collect otherdev_claims (snd elem)
         else Val []) with
  | Val g, Val s, Val o => Val (g ++ s ++ o)
  | Raise e, _, _ => Raise e
  | _, Raise e, _ => Raise e
  | _, _, Raise e => Raise e
  end.

End LoopSpecs.

End Specs.

(** ** The network of the scenarios: 10.0.0.0/24 *)

Module Scenario.
Import SpecModel.

Definition ip : IpUtils := ip_utils "controller".
Definition fl : FreelistUtils := freelist_utils.

(** 10.0.0.0 *)
Definition base : Z := 167772160.

Definition cluster0 : Self := mkSelf (Some 0%nat) "cluster0".

Definition doc (free : list Range) (links : option RevLinks) : NetDoc :=
  mkNetDoc "cluster0" base (VInt 24) free (VStr "controller") (Some 254) links.

(** the store holding the network 10.0.0.0/24 as [create] leaves it *)
Definition world1 (faults : list bool) (links : option RevLinks) : World :=
  mkWorld {[ 0%nat := doc [mkRange 1 253] links ]} 1%nat faults [] [] true [0%nat].

(** node1 is claimed by a group and by a switch *)
Definition en : Entities :=
  entities [("g1", [("node1", Some 10); ("node2", Some 11)])]
           [("s1", ("node1", Some 20))]
           [("o1", ("pdu1", Some 30))].

Definition links1 : RevLinks :=
  [("group", ["g1"]); ("switch", ["s1"]); ("otherdev", ["o1"])].

(** the record before a name-server address is assigned to it *)
Definition doc_new : NetDoc :=
  mkNetDoc "cluster0" base (VInt 24) [mkRange 1 254] (VStr "controller") None None.

Definition world_new (faults : list bool) : World :=
  mkWorld {[ 0%nat := doc_new ]} 1%nat faults [] [] true [0%nat].

(** the same network with another stored prefix *)
Definition world_prefix (p : PyVal) : World :=
  mkWorld {[ 0%nat := mkNetDoc "cluster0" base p [mkRange 1 253] (VStr "controller")
                               (Some 254) None ]}
          1%nat [] [] [] true [0%nat].

(** a switch that goes by the host name of the name server *)
Definition en_shadow : Entities :=
  entities [] [("s1", ("controller", Some 20))] [].

Definition links_shadow : RevLinks := [("switch", ["s1"])].

Definition absolute (r : option Z) : string :=
  match reltoa base r with
  | Val a => a
  | Raise _ => EmptyString
  end.

End Scenario.

(** ** Facts about the helpers of the specification *)

Module SpecModelFacts.
Import SpecModel.

Lemma ascending_lower_bound (lo o : Z) (fl : list Range) :
  ascending lo fl -> is_free o fl -> lo <= o.
Proof.
  revert lo. induction fl as [| r rest IH]; intros lo Hasc Hfree.
  - inversion Hfree.
  - destruct Hasc as (Hlo & Hne & Hrest).
    apply Exists_cons in Hfree as [Hin | Hin]; [lia |].
    specialize (IH _ Hrest Hin). lia.
Qed.

(** reserveNext yields the lowest free offset, and none only when
    nothing is free. *)
Lemma reserveNext_lowest (lo : Z) (fl : list Range) :
  ascending lo fl ->
  match snd (reserveNext fl) with
  | Some o => is_free o fl /\ forall o', is_free o' fl -> o <= o'
  | None => fl = []
  end.
Proof.
  destruct fl as [| r rest]; [reflexivity |].
  intros (Hlo & Hne & Hrest). cbn [reserveNext snd]. split.
  - apply Exists_cons_hd. lia.
  - intros o' Hfree. apply Exists_cons in Hfree as [Hin | Hin]; [lia |].
    pose proof (ascending_lower_bound _ _ _ Hrest Hin). lia.
Qed.

(** The offset reserveNext yields is no longer free afterwards. *)
Lemma reserveNext_removes (lo z : Z) (fl : list Range) :
  ascending lo fl -> snd (reserveNext fl) = Some z ->
  ~ is_free z (fst (reserveNext fl)).
Proof.
  destruct fl as [| r rest]; [discriminate |].
  intros (Hlo & Hne & Hrest). cbn [reserveNext fst snd]. intros Hz. inversion Hz. subst z.
  destruct (r_start r =? r_end r) eqn:E.
  - intros Hfree. pose proof (ascending_lower_bound _ _ _ Hrest Hfree). lia.
  - intros Hfree. apply Exists_cons in Hfree as [Hin | Hin]; [cbn in Hin; lia |].
    pose proof (ascending_lower_bound _ _ _ Hrest Hin). lia.
Qed.

End SpecModelFacts.

(** ** Properties of the methods *)

Section NetworkProperties.
Context {IP : IpUtils} {FL : FreelistUtils} {EN : Entities}.

Lemma shiftl_1_pow2 (n : Z) : 0 <= n -> Z.shiftl 1 n = 2 ^ n.
Proof. intros Hn. rewrite Z.shiftl_mul_pow2 by assumption. lia. Qed.

Lemma py_lshift_1 (n : Z) : 0 <= n -> py_lshift 1 n = Val (2 ^ n).
Proof.
  intros Hn. unfold py_lshift.
  destruct (n <? 0) eqn:E; [lia |]. now rewrite shiftl_1_pow2.
Qed.

(** *** Reading the record *)

Lemma _get_json_found (self : Self) (i : nat) (d : NetDoc) (w : World) :
  _id self = Some i -> coll w !! i = Some d ->
  _get_json self w = (Val d, w).
Proof.
  intros Hid Hd. unfold _get_json, bind, find_one. rewrite Hid, Hd. reflexivity.
Qed.

Lemma _get_json_inv (self : Self) (w w' : World) (d : NetDoc) :
  _get_json self w = (Val d, w') ->
  w' = w /\ exists i, _id self = Some i /\ coll w !! i = Some d.
Proof.
  unfold _get_json, bind, find_one, ret, raise.
  destruct (_id self) as [i|]; [destruct (coll w !! i) eqn:E |];
    intros H; inversion H; subst; eauto.
Qed.

Lemma _get_json_world (self : Self) (w : World) : snd (_get_json self w) = w.
Proof.
  unfold _get_json, bind, find_one, ret, raise.
  destruct (_id self) as [i|]; [destruct (coll w !! i) |]; reflexivity.
Qed.

(** [get] writes nothing and logs nothing. *)
Lemma get_world (self : Self) (key : PyVal) (w : World) :
  snd (get self key w) = w.
Proof.
  unfold get. destruct (negb (truthy key) || negb (is_str key))%bool; [reflexivity |].
  unfold bind. pose proof (_get_json_world self w) as Hw.
  destruct (_get_json self w) as [[net|e] w0]; simpl in Hw; subst w0; [| reflexivity].
  unfold lift, ret.
  repeat match goal with
         | |- context [if ?b then _ else _] => destruct b
         | |- context [match ?r with Val _ => _ | Raise _ => _ end] => destruct r
         end; reflexivity.
Qed.

(** *** The netmask *)

Lemma num_mask_pow2 (p : Z) :
  p <= 32 -> num_mask p = Z.lxor (2 ^ 32 - 1) (2 ^ (32 - p) - 1).
Proof.
  intros Hp. unfold num_mask.
  replace (33 - p - 1) with (32 - p) by lia.
  rewrite !shiftl_1_pow2 by lia. reflexivity.
Qed.

Lemma ones_testbit (n i : Z) :
  0 <= n -> 0 <= i -> Z.testbit (2 ^ n - 1) i = (i <? n).
Proof.
  intros Hn Hi. replace (2 ^ n - 1) with (Z.ones n).
  - destruct (i <? n) eqn:E.
    + apply Z.ones_spec_low. lia.
    + apply Z.ones_spec_high. lia.
  - rewrite Z.ones_equiv. lia.
Qed.

Lemma num_mask_testbit (p i : Z) :
  0 <= p <= 32 -> 0 <= i ->
  Z.testbit (num_mask p) i = ((32 - p <=? i) && (i <? 32))%bool.
Proof.
  intros Hp Hi. rewrite num_mask_pow2 by lia.
  rewrite Z.lxor_spec, !ones_testbit by lia.
  destruct (i <? 32) eqn:E1, (i <? 32 - p) eqn:E2, (32 - p <=? i) eqn:E3;
    simpl; try reflexivity; lia.
Qed.

(** C6: for a stored prefix p in [1, 32], get('NETMASK') is the
    dotted-quad conversion of the number ((2^32)-1) XOR ((2^(32-p))-1),
    whose bits 32-p .. 31 (the top p bits) are set and whose low 32-p
    bits are clear; the call changes nothing. *)
Theorem get_NETMASK_spec (self : Self) (i : nat) (d : NetDoc) (w : World) (p : Z) :
  _id self = Some i -> coll w !! i = Some d ->
  py_int (PREFIX d) = Val p -> 1 <= p <= 32 ->
  get self (VStr "NETMASK") w
    = (result_map VStr (ntoa (Z.lxor (2 ^ 32 - 1) (2 ^ (32 - p) - 1))), w)
  /\ (forall k, 0 <= k ->
        Z.testbit (Z.lxor (2 ^ 32 - 1) (2 ^ (32 - p) - 1)) k
        = ((32 - p <=? k) && (k <? 32))%bool).
Proof.
  intros Hid Hd Hp Hr. split.
  - unfold get. cbn [truthy is_str negb orb String.eqb key_is].
    unfold bind. rewrite (_get_json_found self i d w Hid Hd).
    cbn [key_is]. cbv [String.eqb Ascii.eqb Bool.eqb].
    unfold lift. rewrite Hp.
    rewrite (py_lshift_1 32) by lia.
    replace (33 - p - 1) with (32 - p) by lia.
    rewrite (py_lshift_1 (32 - p)) by lia.
    destruct (ntoa _); reflexivity.
  - intros k Hk. rewrite <- num_mask_pow2 by lia.
    apply num_mask_testbit; lia.
Qed.

(** *** Writing the record *)

Lemma update_doc_eq (oid : option ObjectId) (net : NetDoc) (w : World) :
  update_doc oid net w
  = (Val (next_fault w), written (WSetDoc oid net) (updated (fun _ => net) oid w) w).
Proof.
  unfold update_doc, updated. destruct (next_fault w); [| destruct oid]; reflexivity.
Qed.

Lemma update_freelist_eq (oid : option ObjectId) (fl : list Range) (w : World) :
  update_freelist oid fl w
  = (Val (next_fault w), written (WSetFreelist oid fl) (updated (set_freelist fl) oid w) w).
Proof.
  unfold update_freelist, updated. destruct (next_fault w); [| destruct oid]; reflexivity.
Qed.

Lemma updated_lookup (f : NetDoc -> NetDoc) (i : nat) (w : World) (d : NetDoc) :
  coll w !! i = Some d -> next_fault w = false ->
  updated f (Some i) w !! i = Some (f d).
Proof.
  intros Hd Hf. unfold updated. rewrite Hf.
  rewrite lookup_alter_eq, Hd. reflexivity.
Qed.

Lemma updated_fault (f : NetDoc -> NetDoc) (oid : option ObjectId) (w : World) :
  next_fault w = true -> updated f oid w = coll w.
Proof. intros Hf. unfold updated. now rewrite Hf. Qed.

Lemma _save_free_list_eq (self : Self) (i : nat) (fl : list Range) (w : World) :
  _id self = Some i ->
  _save_free_list self fl w = (Val (Some (negb (next_fault w))), saved i fl w).
Proof.
  intros Hid. unfold _save_free_list, saved. rewrite Hid.
  unfold bind. rewrite update_freelist_eq.
  destruct (next_fault w); reflexivity.
Qed.

Lemma saved_journal (i : nat) (fl : list Range) (w : World) :
  journal (saved i fl w) = journal w ++ [WSetFreelist (Some i) fl].
Proof. unfold saved. destruct (next_fault w); reflexivity. Qed.

Lemma saved_coll (i : nat) (fl : list Range) (w : World) :
  coll (saved i fl w) = updated (set_freelist fl) (Some i) w.
Proof. unfold saved. destruct (next_fault w); reflexivity. Qed.

(** *** [set], key by key *)

Lemma set_NETWORK_eq (self : Self) (value : PyVal) :
  set self (VStr "NETWORK") value
  = (net <- _get_json self ;;
     net' <- (num_subnet <- lift (get_num_subnet value (PREFIX net)) ;;
              ret (set_NETWORK num_subnet net)) ;;
     err <- update_doc (_id self) net' ;;
     ret (Some (negb err))).
Proof. reflexivity. Qed.

Lemma set_PREFIX_eq (self : Self) (value : PyVal) :
  set self (VStr "PREFIX") value
  = (net <- _get_json self ;;
     net' <- (new_num_subnet <- lift (get_num_subnet (VInt (NETWORK net)) value) ;;
              width <- lift (py_rsub 32 value) ;;
              top <- lift (py_lshift 1 width) ;;
              fl <- lift (set_upper_limit (freelist net) (top - 1)) ;;
              ret (set_PREFIX value (set_NETWORK new_num_subnet (set_freelist fl net)))) ;;
     err <- update_doc (_id self) net' ;;
     ret (Some (negb err))).
Proof. reflexivity. Qed.

Lemma set_ns_hostname_eq (self : Self) (value : PyVal) :
  set self (VStr "ns_hostname") value
  = (net <- _get_json self ;;
     net' <- ret (set_ns_hostname value net) ;;
     err <- update_doc (_id self) net' ;;
     ret (Some (negb err))).
Proof. reflexivity. Qed.

Lemma set_ns_ip_eq (self : Self) (value : PyVal) :
  set self (VStr "ns_ip") value
  = (net <- _get_json self ;;
     net' <- (rel_ns_ip <- lift (atorel value (NETWORK net) (PREFIX net)) ;;
              old_ip <- catch (get self (VStr "ns_ip")) (ret VNone) ;;
              (if truthy old_ip then release_ip self old_ip VNone ;; ret tt
               else ret tt) ;;
              reserve_ip self (VInt rel_ns_ip) VNone true ;;
              net <- _get_json self ;;
              ret (set_ns_ip (Some rel_ns_ip) net)) ;;
     err <- update_doc (_id self) net' ;;
     ret (Some (negb err))).
Proof. reflexivity. Qed.

(** Whatever [set('NETWORK', value)] does, no document's free list
    changes. *)
Lemma set_NETWORK_freelist_frame (self : Self) (value : PyVal) (w : World) (j : nat) :
  freelist <$> (coll (snd (set self (VStr "NETWORK") value w)) !! j)
  = freelist <$> (coll w !! j).
Proof.
  rewrite set_NETWORK_eq. unfold bind at 1.
  destruct (_get_json self w) as [[net|e] w0] eqn:Hg; [| pose proof (_get_json_world self w) as Hw; rewrite Hg in Hw; simpl in *; now subst].
  apply _get_json_inv in Hg as [-> (i & Hid & Hd)].
  unfold bind, lift, ret.
  destruct (get_num_subnet value (PREFIX net)) as [n|e]; [| reflexivity].
  rewrite update_doc_eq. cbn [snd coll written]. rewrite Hid.
  unfold updated. destruct (next_fault w); [reflexivity |].
  destruct (decide (i = j)) as [->|Hne].
  - rewrite lookup_alter_eq, Hd. reflexivity.
  - rewrite lookup_alter_ne by assumption. reflexivity.
Qed.

(** C8: set('NETWORK', value) recomputes the masked base of [value]
    against the stored prefix and sends one update of the record, in which
    the base is the recomputed one and every other field, the free list
    among them, is as stored; an accepted update leaves exactly that
    record in the store and a rejected one leaves the collection as it
    was; the free list of the record and of every other one is as before
    in both cases. *)
Theorem set_NETWORK_spec (self : Self) (i : nat) (d : NetDoc) (value : PyVal)
    (n : Z) (w : World) :
  _id self = Some i -> coll w !! i = Some d ->
  get_num_subnet value (PREFIX d) = Val n ->
  exists w',
    set self (VStr "NETWORK") value w = (Val (Some (negb (next_fault w))), w')
    /\ journal w' = journal w
         ++ [WSetDoc (Some i) (mkNetDoc (name d) n (PREFIX d) (freelist d)
                                        (ns_hostname d) (ns_ip d) (usedby d))]
    /\ (next_fault w = false ->
        coll w' !! i = Some (mkNetDoc (name d) n (PREFIX d) (freelist d)
                                      (ns_hostname d) (ns_ip d) (usedby d)))
    /\ (next_fault w = true -> coll w' = coll w)
    /\ (forall j, freelist <$> (coll w' !! j) = freelist <$> (coll w !! j)).
Proof.
  intros Hid Hd Hn.
  assert (Heq : set self (VStr "NETWORK") value w
                = (Val (Some (negb (next_fault w))),
                   written (WSetDoc (Some i) (set_NETWORK n d))
                           (updated (fun _ => set_NETWORK n d) (Some i) w) w)).
  { rewrite set_NETWORK_eq.
    unfold bind at 1. rewrite (_get_json_found self i d w Hid Hd).
    unfold bind, lift, ret. rewrite Hn, update_doc_eq, Hid. reflexivity. }
  eexists. split; [exact Heq |].
  cbn [journal coll written]. split; [reflexivity |]. split; [| split].
  - intros Hf. exact (updated_lookup (fun _ => set_NETWORK n d) i w d Hd Hf).
  - intros Hf. now apply updated_fault.
  - intros j. pose proof (set_NETWORK_freelist_frame self value w j) as H.
    rewrite Heq in H. exact H.
Qed.

(** C4: set('PREFIX', P) computes the limit 2^(32-P)-1, rebounds the free
    list to it, recomputes the masked base against P, and one update of
    the record persists the new prefix, the new base and the rebounded
    free list. *)
Theorem set_PREFIX_spec (self : Self) (i : nat) (d : NetDoc) (P n : Z)
    (fl : list Range) (w : World) :
  _id self = Some i -> coll w !! i = Some d ->
  P <= 32 ->
  get_num_subnet (VInt (NETWORK d)) (VInt P) = Val n ->
  set_upper_limit (freelist d) (2 ^ (32 - P) - 1) = Val fl ->
  next_fault w = false ->
  exists w',
    set self (VStr "PREFIX") (VInt P) w = (Val (Some true), w')
    /\ coll w' !! i = Some (mkNetDoc (name d) n (VInt P) fl (ns_hostname d) (ns_ip d) (usedby d))
    /\ journal w' = journal w
         ++ [WSetDoc (Some i) (mkNetDoc (name d) n (VInt P) fl (ns_hostname d) (ns_ip d) (usedby d))].
Proof.
  intros Hid Hd HP Hn Hfl Hf.
  rewrite set_PREFIX_eq.
  unfold bind at 1. rewrite (_get_json_found self i d w Hid Hd).
  unfold bind, lift, ret. rewrite Hn. cbn [py_rsub].
  rewrite py_lshift_1 by lia. rewrite Hfl, update_doc_eq, Hid, Hf.
  eexists. split; [reflexivity |]. cbn [journal coll written]. split; [| reflexivity].
  rewrite (updated_lookup _ i w d Hd Hf). reflexivity.
Qed.

(** *** Ranges given to [reserve_ip] and [release_ip] *)

(** [reserve_ip] and [release_ip] once the record is loaded and the
    arguments are converted. *)
Lemma reserve_ip_conv (self : Self) (i : nat) (d : NetDoc)
    (ip1 ip2 : PyVal) (r1 r2 : option Z) (ie : bool) (w : World) :
  _id self = Some i -> coll w !! i = Some d ->
  rel_of_arg ip1 d = Val r1 -> rel_of_arg ip2 d = Val r2 ->
  reserve_ip self ip1 ip2 ie w
  = (if wrong_range r1 r2 then log_error ErrWrongRange ;; ret None
     else
       p <- (if truthy_num r1 then
               lift (unfree_range (freelist d) (default 0 r1) r2)
             else if ie then lift (next_free (freelist d))
             else raise (UnboundLocalError "flist")) ;;
       _save_free_list self (fst p) ;;
       ret (Some (snd p))) w.
Proof.
  intros Hid Hd H1 H2. unfold reserve_ip.
  unfold bind at 1. rewrite (_get_json_found self i d w Hid Hd).
  unfold bind at 1. unfold lift at 1. rewrite H1.
  unfold bind at 1. unfold lift at 1. rewrite H2. reflexivity.
Qed.

Lemma release_ip_conv (self : Self) (i : nat) (d : NetDoc)
    (ip1 ip2 : PyVal) (r1 r2 : option Z) (w : World) :
  _id self = Some i -> coll w !! i = Some d ->
  rel_of_arg ip1 d = Val r1 -> rel_of_arg ip2 d = Val r2 ->
  release_ip self ip1 ip2 w
  = (if wrong_range r1 r2 then log_error ErrWrongRange ;; ret None
     else
       p <- lift (free_range (freelist d) r1 r2) ;;
       _save_free_list self (fst p) ;;
       ret (Some true)) w.
Proof.
  intros Hid Hd H1 H2. unfold release_ip.
  unfold bind at 1. rewrite (_get_json_found self i d w Hid Hd).
  unfold bind at 1. unfold lift at 1. rewrite H1.
  unfold bind at 1. unfold lift at 1. rewrite H2. reflexivity.
Qed.

(** When the range test fires, [reserve_ip] logs the error and returns
    [None] without calling a helper or the store. *)
Lemma reserve_ip_wrong_range (self : Self) (i : nat) (d : NetDoc)
    (ip1 ip2 : PyVal) (r1 r2 : option Z) (ie : bool) (w : World) :
  _id self = Some i -> coll w !! i = Some d ->
  rel_of_arg ip1 d = Val r1 -> rel_of_arg ip2 d = Val r2 ->
  wrong_range r1 r2 = true ->
  reserve_ip self ip1 ip2 ie w = (Val None, logged ErrWrongRange w).
Proof.
  intros Hid Hd H1 H2 Hr.
  rewrite (reserve_ip_conv self i d ip1 ip2 r1 r2 ie w Hid Hd H1 H2), Hr.
  reflexivity.
Qed.

Lemma release_ip_wrong_range (self : Self) (i : nat) (d : NetDoc)
    (ip1 ip2 : PyVal) (r1 r2 : option Z) (w : World) :
  _id self = Some i -> coll w !! i = Some d ->
  rel_of_arg ip1 d = Val r1 -> rel_of_arg ip2 d = Val r2 ->
  wrong_range r1 r2 = true ->
  release_ip self ip1 ip2 w = (Val None, logged ErrWrongRange w).
Proof.
  intros Hid Hd H1 H2 Hr.
  rewrite (release_ip_conv self i d ip1 ip2 r1 r2 w Hid Hd H1 H2), Hr.
  reflexivity.
Qed.

(** The range test fires exactly for a second offset that is not zero
    and not above the first. *)
Lemma wrong_range_iff (z1 z2 : Z) :
  wrong_range (Some z1) (Some z2) = true <-> z2 <> 0 /\ z2 <= z1.
Proof.
  unfold wrong_range, py_le.
  destruct (z2 =? 0) eqn:E0, (z2 <=? z1) eqn:E1; simpl; split;
    try discriminate; try lia; intros; split; lia.
Qed.

(** A second offset 0 never makes the range test fire, whatever the
    first one is. *)
Lemma wrong_range_second_zero (r1 : option Z) : wrong_range r1 (Some 0) = false.
Proof. reflexivity. Qed.

(** Nor does a second offset, when it is not negative, against a first
    offset 0 or no first offset. *)
Lemma wrong_range_first_zero (r2 : option Z) :
  (forall z, r2 = Some z -> 0 <= z) -> wrong_range (Some 0) r2 = false.
Proof.
  intros Hpos. destruct r2 as [z|]; [| reflexivity].
  specialize (Hpos z eq_refl). unfold wrong_range, py_le.
  destruct (z =? 0) eqn:E0; [reflexivity |].
  destruct (z <=? 0) eqn:E1; [lia | reflexivity].
Qed.

Lemma wrong_range_first_None (r2 : option Z) : wrong_range None r2 = false.
Proof.
  destruct r2 as [z|]; [| reflexivity].
  unfold wrong_range, py_le. now rewrite andb_false_r.
Qed.

(** C10: with a valid range ordering, release_ip returns True whatever
    free_range reports as freed and whatever the store answers to the
    write of the free list: a rejected write is logged, the record stays
    as it was, and the result is True all the same. *)
Theorem release_ip_returns_True (self : Self) (i : nat) (d : NetDoc)
    (ip1 ip2 : PyVal) (r1 r2 : option Z) (fl : list Range) (freed : Freed)
    (w : World) :
  _id self = Some i -> coll w !! i = Some d ->
  rel_of_arg ip1 d = Val r1 -> rel_of_arg ip2 d = Val r2 ->
  wrong_range r1 r2 = false ->
  free_range (freelist d) r1 r2 = Val (fl, freed) ->
  release_ip self ip1 ip2 w = (Val (Some true), saved i fl w)
  /\ (next_fault w = true ->
      coll (saved i fl w) = coll w
      /\ errlog (saved i fl w) = errlog w ++ [ErrUpdatingFreelist fl]).
Proof.
  intros Hid Hd H1 H2 Hr Hfree. split.
  - rewrite (release_ip_conv self i d ip1 ip2 r1 r2 w Hid Hd H1 H2), Hr.
    unfold bind, lift. rewrite Hfree. cbn [fst].
    rewrite (_save_free_list_eq self i fl w Hid). reflexivity.
  - intros Hf. rewrite saved_coll. split; [now apply updated_fault |].
    unfold saved. rewrite Hf. reflexivity.
Qed.

(** For every free-list helper: when the first address is, or converts
    to, offset 0 (and the second, if given, is an offset), reserve_ip does
    what it does without a first address: unfree_range is not called on
    offset 0; with ignore_errors it allocates what next_free yields and
    saves the list, and without it the unbound [flist] is reached before
    anything is saved. *)
Theorem reserve_ip_offset_zero (self : Self) (i : nat) (d : NetDoc)
    (ip1 ip2 : PyVal) (r2 : option Z) (w : World) :
  _id self = Some i -> coll w !! i = Some d ->
  rel_of_arg ip1 d = Val (Some 0) ->
  rel_of_arg ip2 d = Val r2 -> (forall z, r2 = Some z -> 0 <= z) ->
  (forall ie, reserve_ip self ip1 ip2 ie w = reserve_ip self VNone ip2 ie w)
  /\ reserve_ip self ip1 ip2 false w = (Raise (UnboundLocalError "flist"), w)
  /\ reserve_ip self ip1 ip2 true w
     = (p <- lift (next_free (freelist d)) ;;
        _save_free_list self (fst p) ;;
        ret (Some (snd p))) w
  /\ (forall fl u, next_free (freelist d) = Val (fl, u) ->
      reserve_ip self ip1 ip2 true w = (Val (Some u), saved i fl w)).
Proof.
  intros Hid Hd H1 H2 Hpos.
  pose proof (wrong_range_first_zero r2 Hpos) as Hr0.
  pose proof (wrong_range_first_None r2) as HrN.
  assert (Hgen : forall ie, reserve_ip self ip1 ip2 ie w
            = (p <- (if ie then lift (next_free (freelist d))
                     else raise (UnboundLocalError "flist")) ;;
               _save_free_list self (fst p) ;;
               ret (Some (snd p))) w).
  { intros ie.
    rewrite (reserve_ip_conv self i d ip1 ip2 (Some 0) r2 ie w Hid Hd H1 H2), Hr0.
    reflexivity. }
  repeat split.
  - intros ie. rewrite Hgen.
    rewrite (reserve_ip_conv self i d VNone ip2 None r2 ie w Hid Hd eq_refl H2), HrN.
    reflexivity.
  - rewrite Hgen. reflexivity.
  - rewrite Hgen. reflexivity.
  - intros fl u Hnf. rewrite Hgen. unfold bind, lift. rewrite Hnf. cbn [fst snd].
    rewrite (_save_free_list_eq self i fl w Hid). reflexivity.
Qed.

(** *** Resolving the used addresses *)

Lemma for_each_no_ids (self : Self) (net : NetDoc) (rev_links : RevLinks)
    (out : gmap PyVal string) (w : World) :
  Forall (fun e => snd e = []) rev_links ->
  for_each rev_links (resolve_elem self net) out w = (Val out, w).
Proof.
  induction 1 as [| [kind ids] rest Hids _ IH]; [reflexivity |].
  simpl in Hids. subst ids. cbn [for_each]. unfold bind at 1.
  replace (resolve_elem self net out (kind, []) w) with (Val out, w : World).
  - exact IH.
  - unfold resolve_elem. cbn [fst snd for_each]. unfold bind, ret.
    repeat match goal with |- context [if ?b then _ else _] => destruct b end;
      reflexivity.
Qed.

(** C7: without the links field, resolve_used_ips logs that no addresses
    are configured and returns the empty mapping; with a links field all
    of whose kinds are empty it logs nothing and returns the mapping that
    has the name-server entry only, which is not the empty one. *)
Theorem resolve_used_ips_no_usage (self : Self) (i : nat) (d : NetDoc) (w : World) :
  _id self = Some i -> coll w !! i = Some d ->
  (usedby d = None ->
   resolve_used_ips self w
   = (Val ∅, logged (ErrNoIPsConfigured (_name self)) w))
  /\ (forall rev_links a,
        usedby d = Some rev_links ->
        Forall (fun e => snd e = []) rev_links ->
        reltoa (NETWORK d) (ns_ip d) = Val a ->
        resolve_used_ips self w = (Val {[ ns_hostname d := a ]}, w)
        /\ ({[ ns_hostname d := a ]} : gmap PyVal string) <> ∅).
Proof.
  intros Hid Hd. split.
  - intros Hu. unfold resolve_used_ips.
    unfold bind at 1. rewrite (_get_json_found self i d w Hid Hd), Hu.
    reflexivity.
  - intros rev_links a Hu Hall Ha. split.
    + unfold resolve_used_ips.
      unfold bind at 1. rewrite (_get_json_found self i d w Hid Hd), Hu.
      unfold bind at 1. rewrite (for_each_no_ids self d rev_links ∅ w Hall).
      unfold add_to_out_dict. rewrite lookup_empty.
      unfold bind, lift, ret. rewrite Ha. reflexivity.
    + apply insert_non_empty.
Qed.

(** *** How many writes a [set] issues *)

Lemma release_ip_one_write (self : Self) (ip : PyVal) (r : option bool)
    (w w1 : World) :
  release_ip self ip VNone w = (Val r, w1) ->
  exists i fl, _id self = Some i /\ w1 = saved i fl w.
Proof.
  unfold release_ip. unfold bind at 1.
  destruct (_get_json self w) as [[net|e] w0] eqn:Hg; [| discriminate].
  apply _get_json_inv in Hg as [-> (i & Hid & Hd)].
  unfold bind at 1. unfold lift at 1.
  destruct (rel_of_arg ip net) as [r1|e]; [| discriminate].
  unfold bind at 1. unfold lift at 1. cbn [rel_of_arg wrong_range].
  unfold bind at 1. unfold lift at 1.
  destruct (free_range (freelist net) r1 None) as [p|e]; [| discriminate].
  unfold bind. rewrite (_save_free_list_eq self i (fst p) w Hid).
  intros H. inversion H. eauto.
Qed.

Lemma reserve_ip_one_write (self : Self) (ip : PyVal) (ie : bool)
    (r : option Unfreed) (w w1 : World) :
  reserve_ip self ip VNone ie w = (Val r, w1) ->
  exists i fl, _id self = Some i /\ w1 = saved i fl w.
Proof.
  unfold reserve_ip. unfold bind at 1.
  destruct (_get_json self w) as [[net|e] w0] eqn:Hg; [| discriminate].
  apply _get_json_inv in Hg as [-> (i & Hid & Hd)].
  unfold bind at 1. unfold lift at 1.
  destruct (rel_of_arg ip net) as [r1|e]; [| discriminate].
  unfold bind at 1. unfold lift at 1. cbn [rel_of_arg wrong_range].
  unfold bind at 1.
  destruct ((if truthy_num r1
             then lift (unfree_range (freelist net) (default 0 r1) None)
             else if ie then lift (next_free (freelist net))
                  else raise (UnboundLocalError "flist")) w)
    as [[p|e] w0] eqn:Hp; [| discriminate].
  assert (w0 = w) as ->.
  { revert Hp. unfold lift, raise.
    destruct (truthy_num r1); [| destruct ie]; intros H; now inversion H. }
  unfold bind. rewrite (_save_free_list_eq self i (fst p) w Hid).
  intros H. inversion H. eauto.
Qed.

(** For a key other than 'ns_ip', a [set] that reaches the store issues
    one update of the whole record; when the store rejects it the
    collection is as before. *)
Lemma set_other_one_write (self : Self) (key value : PyVal) (b : bool)
    (w w' : World) :
  key_is key "ns_ip" = false ->
  set self key value w = (Val (Some b), w') ->
  exists net,
    journal w' = journal w ++ [WSetDoc (_id self) net]
    /\ b = negb (next_fault w)
    /\ coll w' = updated (fun _ => net) (_id self) w.
Proof.
  intros Hk. unfold set.
  destruct (negb (truthy key) || negb (is_str key))%bool; [discriminate |].
  destruct (negb (in_keylist key)); [discriminate |].
  unfold bind at 1.
  destruct (_get_json self w) as [[net|e] w0] eqn:Hg; [| discriminate].
  apply _get_json_inv in Hg as [-> (i & Hid & Hd)].
  rewrite Hk. unfold bind at 1.
  match goal with
  | |- context [match ?m w with _ => _ end] =>
      destruct (m w) as [[net'|e] w0] eqn:Hm
  end; [| discriminate].
  assert (w0 = w) as ->.
  { revert Hm. unfold bind, lift, ret.
    repeat match goal with
           | |- context [if ?c then _ else _] => destruct c
           | |- context [match ?r with Val _ => _ | Raise _ => _ end] => destruct r
           end; intros H; now inversion H. }
  unfold bind, ret. rewrite update_doc_eq.
  intros H. inversion H. exists net'. repeat split.
Qed.

(** Setting 'ns_ip' issues the free-list write of [release_ip] when an
    old address is stored, then the free-list write of [reserve_ip], then
    the update of the whole record. *)
Lemma set_ns_ip_writes (self : Self) (value : PyVal) (b : bool) (w w' : World) :
  set self (VStr "ns_ip") value w = (Val (Some b), w') ->
  exists pre fl net,
    journal w' = journal w ++ pre ++ [WSetFreelist (_id self) fl; WSetDoc (_id self) net]
    /\ (pre = [] \/ exists fl0, pre = [WSetFreelist (_id self) fl0]).
Proof.
  rewrite set_ns_ip_eq. unfold bind at 1.
  destruct (_get_json self w) as [[net|e] w0] eqn:Hg; [| discriminate].
  apply _get_json_inv in Hg as [-> (i & Hid & Hd)].
  unfold bind at 1. unfold bind at 1. unfold lift at 1.
  destruct (atorel value (NETWORK net) (PREFIX net)) as [rel|e]; [| discriminate].
  unfold bind at 1.
  assert (Hold : exists old, catch (get self (VStr "ns_ip")) (ret VNone) w = (Val old, w)).
  { unfold catch. pose proof (get_world self (VStr "ns_ip") w) as Hw.
    destruct (get self (VStr "ns_ip") w) as [[v|e] w0]; simpl in Hw; subst w0;
      eexists; reflexivity. }
  destruct Hold as [old ->].
  unfold bind at 1.
  destruct ((if truthy old then release_ip self old VNone;; ret tt else ret tt) w)
    as [[[]|e] w1] eqn:Hrel; [| discriminate].
  assert (Hw1 : exists pre, journal w1 = journal w ++ pre
                /\ (pre = [] \/ exists fl0, pre = [WSetFreelist (_id self) fl0])).
  { revert Hrel. destruct (truthy old).
    - unfold bind at 1.
      destruct (release_ip self old VNone w) as [[r|e] w2] eqn:Hr; [| discriminate].
      apply release_ip_one_write in Hr as (i' & fl0 & Hid' & ->).
      unfold ret. intros H. inversion H. subst w1.
      exists [WSetFreelist (_id self) fl0]. rewrite saved_journal, Hid'. eauto.
    - unfold ret. intros H. inversion H. exists []. rewrite app_nil_r. auto. }
  destruct Hw1 as (pre & Hj1 & Hpre).
  unfold bind at 1.
  destruct (reserve_ip self (VInt rel) VNone true w1) as [[r|e] w2] eqn:Hres;
    [| discriminate].
  apply reserve_ip_one_write in Hres as (i' & fl & Hid' & ->).
  unfold bind at 1.
  destruct (_get_json self (saved i' fl w1)) as [[net2|e] w3] eqn:Hg2; [| discriminate].
  apply _get_json_inv in Hg2 as [-> _].
  unfold ret at 1. unfold bind, ret. rewrite update_doc_eq.
  intros H. inversion H. subst.
  exists pre, fl, (set_ns_ip (Some rel) net2). split; [| exact Hpre].
  cbn [journal written]. rewrite saved_journal, Hj1, Hid'.
  rewrite <- !app_assoc. reflexivity.
Qed.

(** *** Creating a network *)

(** C2: a create with prefix P and no name-server address inserts the
    record with the single free range [1, 2^(32-P)-2], then reserves the
    highest offset of that range for the name server: the record ends
    with ns_ip = 2^(32-P)-2, and get('ns_ip') is its absolute form. *)
Theorem create_default_ns_ip (nm : string) (network prefix hostname : PyVal)
    (P n : Z) (a : string) (e : PyExc) (fl : list Range) (u : Unfreed)
    (w : World) :
  let last := 2 ^ (32 - P) - 2 in
  let flist := [mkRange 1 last] in
  let host := if negb (truthy hostname) then guess_ns_hostname else hostname in
  let oid := next_oid w in
  _check_name nm w = (Val tt, w) ->
  has_cluster w = true ->
  faults w = [] ->
  get_num_subnet network prefix = Val n ->
  py_int prefix = Val P -> P <= 32 ->
  reltoa n (Some last) = Val a ->
  atorel (VStr a) n prefix = Val last ->
  reltoa n None = Raise e ->
  (if last =? 0 then next_free flist else unfree_range flist last None)
    = Val (fl, u) ->
  exists w',
    create nm network prefix hostname VNone w = (Val (mkSelf (Some oid) nm), w')
    /\ journal w' = journal w
         ++ [WInsert (mkNetDoc nm n prefix flist host None None);
             WSetFreelist (Some oid) fl;
             WSetDoc (Some oid) (mkNetDoc nm n prefix fl host (Some last) None)]
    /\ coll w' !! oid = Some (mkNetDoc nm n prefix fl host (Some last) None)
    /\ get (mkSelf (Some oid) nm) (VStr "ns_ip") w' = (Val (VStr a), w').
Proof.
  intros last flist host oid Hname Hcl Hfaults Hn HP HP32 Ha Hrt Hnone Hres.
  set (net0 := mkNetDoc nm n prefix flist host None None).
  set (self := mkSelf (Some oid) nm).
  (* the world once the record is inserted and linked *)
  set (w2 := mkWorld (<[oid := net0]> (coll w)) (S oid) [] (journal w ++ [WInsert net0])
                     (errlog w) (has_cluster w) (linked w ++ [oid])).
  assert (Hstart : create nm network prefix hostname VNone w
                   = (set self (VStr "ns_ip") (VStr a) ;; ret self) w2).
  { unfold create. unfold bind at 1. rewrite Hname.
    unfold bind at 1. unfold Cluster. rewrite Hcl.
    unfold bind at 1. unfold lift at 1. rewrite Hn.
    unfold bind at 1. unfold lift at 1. rewrite HP.
    unfold bind at 1. unfold lift at 1. rewrite py_lshift_1 by lia.
    unfold bind at 1. unfold insert_doc, next_fault. rewrite Hfaults.
    unfold bind at 1. unfold link at 1. cbn [_id].
    unfold bind at 1. unfold bind at 1. unfold lift at 1.
    cbn [r_end coll next_oid faults journal errlog has_cluster linked tail].
    fold last. rewrite Ha. reflexivity. }
  assert (Hd2 : coll w2 !! oid = Some net0) by apply lookup_insert_eq.
  assert (Hf2 : next_fault w2 = false) by reflexivity.
  (* the reservation of the name-server offset *)
  assert (Hreserve : reserve_ip self (VInt last) VNone true w2
                     = (Val (Some u), saved oid fl w2)).
  { rewrite (reserve_ip_conv self oid net0 (VInt last) VNone (Some last) None true w2
               eq_refl Hd2 eq_refl eq_refl).
    cbn [wrong_range truthy_num freelist net0]. simpl (default 0 (Some last)).
    unfold bind at 1.
    replace ((if negb (last =? 0) then lift (unfree_range flist last None)
              else lift (next_free flist)) w2) with (Val (fl, u), w2 : World).
    - cbn [fst snd]. unfold bind.
      rewrite (_save_free_list_eq self oid fl w2 eq_refl). reflexivity.
    - revert Hres. unfold lift. destruct (last =? 0); intros ->; reflexivity. }
  set (w3 := saved oid fl w2) in *.
  assert (Hd3 : coll w3 !! oid = Some (set_freelist fl net0)).
  { unfold w3. rewrite saved_coll. exact (updated_lookup _ oid w2 net0 Hd2 Hf2). }
  assert (Hf3 : next_fault w3 = false) by reflexivity.
  set (net1 := mkNetDoc nm n prefix fl host (Some last) None).
  set (w4 := written (WSetDoc (Some oid) net1) (updated (fun _ => net1) (Some oid) w3) w3).
  assert (Hset : set self (VStr "ns_ip") (VStr a) w2 = (Val (Some true), w4)).
  { rewrite set_ns_ip_eq.
    unfold bind at 1. rewrite (_get_json_found self oid net0 w2 eq_refl Hd2).
    unfold bind at 1. unfold bind at 1. unfold lift at 1.
    cbn [NETWORK PREFIX net0]. rewrite Hrt.
    unfold bind at 1.
    replace (catch (get self (VStr "ns_ip")) (ret VNone) w2) with (Val VNone, w2 : World).
    2:{ unfold catch, get. cbn [truthy is_str negb orb].
        change (negb (String.eqb "ns_ip" EmptyString)) with true. cbn [negb orb].
        unfold bind at 1. rewrite (_get_json_found self oid net0 w2 eq_refl Hd2).
        change (key_is (VStr "ns_ip") "NETWORK") with false.
        change (key_is (VStr "ns_ip") "NETMASK") with false.
        change (key_is (VStr "ns_ip") "PREFIX") with false.
        change (key_is (VStr "ns_ip") "ns_ip") with true.
        cbv iota. unfold bind, lift. cbn [NETWORK ns_ip net0]. rewrite Hnone.
        reflexivity. }
    cbn [truthy]. unfold bind at 1. unfold ret at 1.
    unfold bind at 1. rewrite Hreserve.
    unfold bind at 1. fold w3.
    rewrite (_get_json_found self oid (set_freelist fl net0) w3 eq_refl Hd3).
    unfold ret at 1. unfold bind, ret. rewrite update_doc_eq, Hf3. reflexivity. }
  exists w4. split; [| split; [| split]].
  - rewrite Hstart. unfold bind. rewrite Hset. reflexivity.
  - unfold w4. cbn [journal written]. unfold w3. rewrite saved_journal.
    cbn [journal w2]. rewrite <- !app_assoc. reflexivity.
  - unfold w4. cbn [coll written].
    exact (updated_lookup (fun _ => net1) oid w3 _ Hd3 Hf3).
  - assert (Hd4 : coll w4 !! oid = Some net1).
    { unfold w4. cbn [coll written].
      exact (updated_lookup (fun _ => net1) oid w3 _ Hd3 Hf3). }
    unfold get. cbn [truthy is_str negb orb].
    change (negb (String.eqb "ns_ip" EmptyString)) with true. cbn [negb orb].
    unfold bind at 1. rewrite (_get_json_found self oid net1 w4 eq_refl Hd4).
    change (key_is (VStr "ns_ip") "NETWORK") with false.
    change (key_is (VStr "ns_ip") "NETMASK") with false.
    change (key_is (VStr "ns_ip") "PREFIX") with false.
    change (key_is (VStr "ns_ip") "ns_ip") with true.
    cbv iota. unfold bind, lift, ret. cbn [NETWORK ns_ip net1]. rewrite Ha.
    reflexivity.
Qed.

(** *** First write wins *)

Lemma logs_nil (w : World) : logs [] w = w.
Proof. destruct w. unfold logs. cbn. now rewrite app_nil_r. Qed.

Lemma logs_logs (l1 l2 : list LogMsg) (w : World) :
  logs l2 (logs l1 w) = logs (l1 ++ l2) w.
Proof. unfold logs. cbn. now rewrite app_assoc. Qed.

Lemma first_wins_lookup (ab : option Z -> string) (items : list (PyVal * option Z))
    (out : gmap PyVal string) (nm : PyVal) :
  fst (first_wins ab items out) !! nm
  = match out !! nm with
    | Some a => Some a
    | None => ab <$> first_claim nm items
    end.
Proof.
  revert out. induction items as [| [k r] rest IH]; intros out.
  - cbn. destruct (out !! nm); reflexivity.
  - cbn [first_wins fst snd]. destruct (out !! k) eqn:Hk.
    + cbn [fst]. rewrite IH. destruct (out !! nm) eqn:Hnm; [reflexivity |].
      unfold first_claim. cbn [find fst].
      destruct (bool_decide (k = nm)) eqn:E; [| reflexivity].
      apply bool_decide_eq_true in E. congruence.
    + rewrite IH. unfold first_claim. cbn [find fst].
      destruct (bool_decide (k = nm)) eqn:E.
      * apply bool_decide_eq_true in E. subst k.
        rewrite lookup_insert_eq, Hk. reflexivity.
      * apply bool_decide_eq_false in E.
        rewrite lookup_insert_ne by assumption. reflexivity.
Qed.

Lemma first_wins_reported (ab : option Z -> string) (items : list (PyVal * option Z))
    (out : gmap PyVal string) :
  snd (first_wins ab items out) = later_claims (dom out) items.
Proof.
  revert out. induction items as [| [k r] rest IH]; intros out; [reflexivity |].
  cbn [first_wins later_claims fst snd]. destruct (out !! k) eqn:Hk.
  - rewrite bool_decide_eq_true_2 by (apply elem_of_dom; eauto).
    cbn [snd]. now rewrite IH.
  - rewrite bool_decide_eq_false_2 by (now apply not_elem_of_dom).
    rewrite IH, dom_insert_L. reflexivity.
Qed.

Lemma first_wins_app (ab : option Z -> string) (l1 l2 : list (PyVal * option Z))
    (out : gmap PyVal string) :
  first_wins ab (l1 ++ l2) out
  = (fst (first_wins ab l2 (fst (first_wins ab l1 out))),
     snd (first_wins ab l1 out) ++ snd (first_wins ab l2 (fst (first_wins ab l1 out)))).
Proof.
  revert out. induction l1 as [| it rest IH]; intros out.
  - cbn. now destruct (first_wins ab l2 out).
  - cbn [app first_wins]. destruct (out !! fst it).
    + rewrite IH. reflexivity.
    + apply IH.
Qed.

(** One call: a name that is present is reported and nothing is written;
    a new name is written with the absolute form of its offset. *)
Lemma add_to_out_dict_present (self : Self) (net : NetDoc) (out : gmap PyVal string)
    (nm : PyVal) (r : option Z) (a : string) (w : World) :
  out !! nm = Some a ->
  add_to_out_dict self net out nm r w = (Val out, logs [duplicate_msg self nm] w).
Proof. intros H. unfold add_to_out_dict. rewrite H. reflexivity. Qed.

Lemma add_to_out_dict_new (self : Self) (net : NetDoc) (out : gmap PyVal string)
    (nm : PyVal) (r : option Z) (a : string) (w : World) :
  out !! nm = None -> reltoa (NETWORK net) r = Val a ->
  add_to_out_dict self net out nm r w = (Val (<[nm := a]> out), w).
Proof.
  intros H Ha. unfold add_to_out_dict. rewrite H.
  unfold bind, lift, ret. rewrite Ha. reflexivity.
Qed.

Section Loops.
Variables (self : Self) (net : NetDoc) (ab : option Z -> string).

Local Abbreviation converts := (converts net ab).
Local Abbreviation after := (after self ab).
Local Abbreviation group_claims := (group_claims self).
Local Abbreviation otherdev_claims := (otherdev_claims self).
Local Abbreviation elem_claims := (elem_claims self).

Lemma after_app (l1 l2 : list (PyVal * option Z)) (out : gmap PyVal string)
    (w : World) :
  after (l1 ++ l2) out w
  = after l2 (fst (first_wins ab l1 out))
          (logs (map (duplicate_msg self) (snd (first_wins ab l1 out))) w).
Proof.
  unfold after. rewrite first_wins_app. cbn [fst snd].
  rewrite map_app, logs_logs. reflexivity.
Qed.

Lemma converts_app (l1 l2 : list (PyVal * option Z)) :
  converts (l1 ++ l2) <-> converts l1 /\ converts l2.
Proof.
  unfold converts. split.
  - intros H. split; intros it Hin; apply H, in_or_app; auto.
  - intros [H1 H2] it Hin. apply in_app_or in Hin as [?|?]; auto.
Qed.

(** a run of calls of [add_to_out_dict] *)
Lemma add_items_after (items : list (PyVal * option Z)) (out : gmap PyVal string)
    (w : World) :
  converts items ->
  for_each items (fun o it => add_to_out_dict self net o (fst it) (snd it)) out w
  = after items out w.
Proof.
  revert out w. induction items as [| [k r] rest IH]; intros out w Hc.
  - unfold after. cbn. now rewrite logs_nil.
  - assert (Hrest : converts rest) by (intros it Hin; apply Hc; now right).
    cbn [for_each fst snd]. unfold bind at 1. unfold after.
    cbn [first_wins fst snd]. destruct (out !! k) eqn:Hk.
    + rewrite (add_to_out_dict_present self net out k r _ w Hk).
      rewrite IH by assumption. unfold after. cbn [fst snd map].
      rewrite logs_logs. reflexivity.
    + rewrite (add_to_out_dict_new self net out k r (ab r) w Hk (Hc (k, r) (or_introl eq_refl))).
      rewrite IH by assumption. reflexivity.
Qed.

Lemma add_all_after (items : list (string * option Z)) (out : gmap PyVal string)
    (w : World) :
  converts (map named items) ->
  add_all self net out items w = after (map named items) out w.
Proof.
  intros Hc. rewrite <- add_items_after by assumption.
  unfold add_all. clear Hc. revert out w.
  induction items as [| it rest IH]; intros out w; [reflexivity |].
  cbn [for_each map]. unfold named at 1 2. cbn [fst snd]. unfold bind.
  destruct (add_to_out_dict self net out (VStr (fst it)) (snd it) w) as [[o|e] w1];
    [apply IH | reflexivity].
Qed.

Lemma for_each_collect {A} (f : A -> Result (list (PyVal * option Z)))
    (body : gmap PyVal string -> A -> M (gmap PyVal string))
    (xs : list A) (items : list (PyVal * option Z)) :
  (forall x l o w, f x = Val l -> converts l -> body o x w = after l o w) ->
  collect f xs = Val items -> converts items ->
  forall out w, for_each xs body out w = after items out w.
Proof.
  intros Hbody. revert items.
  induction xs as [| x xs' IH]; intros items Hcol Hc out w.
  - inversion Hcol. unfold after. cbn. now rewrite logs_nil.
  - cbn [collect] in Hcol.
    destruct (f x) as [l|e] eqn:Hx; [| discriminate].
    destruct (collect f xs') as [ls|e] eqn:Hxs; [| discriminate].
    inversion Hcol. subst items. apply converts_app in Hc as [Hl Hls].
    cbn [for_each]. unfold bind. rewrite (Hbody x l out w Hx Hl).
    unfold after at 1. rewrite (IH ls eq_refl Hls).
    now rewrite after_app.
Qed.

Lemma one_after (it : PyVal * option Z) (out : gmap PyVal string) (w : World) :
  converts [it] ->
  add_to_out_dict self net out (fst it) (snd it) w = after [it] out w.
Proof.
  intros Hc. rewrite <- add_items_after by assumption.
  cbn [for_each]. unfold bind.
  destruct (add_to_out_dict self net out (fst it) (snd it) w) as [[o|e] w1];
    reflexivity.
Qed.

Lemma single_after (it : string * option Z) (out : gmap PyVal string) (w : World) :
  converts [named it] ->
  add_to_out_dict self net out (VStr (fst it)) (snd it) w = after [named it] out w.
Proof. intros Hc. exact (one_after (named it) out w Hc). Qed.

Lemma resolve_elem_after (elem : string * list string)
    (items : list (PyVal * option Z)) (out : gmap PyVal string) (w : World) :
  elem_claims elem = Val items -> converts items ->
  resolve_elem self net out elem w = after items out w.
Proof.
  unfold elem_claims, resolve_elem.
  set (G := if String.eqb (fst elem) "group" then collect group_claims (snd elem) else Val []).
  set (S := if String.eqb (fst elem) "switch" then collect switch_claims (snd elem) else Val []).
  set (O := if String.eqb (fst elem) "otherdev" then collect otherdev_claims (snd elem) else Val []).
  destruct G as [g|e] eqn:HG; [| destruct S, O; discriminate].
  destruct S as [s|e] eqn:HS; [| destruct O; discriminate].
  destruct O as [o|e] eqn:HO; [| discriminate].
  intros H Hc. inversion H. subst items.
  apply converts_app in Hc as [Hg Hc]. apply converts_app in Hc as [Hs Ho].
  rewrite !after_app.
  unfold bind at 1.
  assert (E1 : (if String.eqb (fst elem) "group"
                then for_each (snd elem)
                       (fun out0 gid =>
                          tmp_dict <- lift (group_rel_ips gid (_id self)) ;;
                          add_all self net out0 tmp_dict) out
                else ret out) w = after g out w).
  { subst G. destruct (String.eqb (fst elem) "group").
    - apply (for_each_collect group_claims); auto.
      intros x l o0 w0 Hx Hl. unfold group_claims in Hx.
      unfold bind, lift. destruct (group_rel_ips x (_id self)) as [t|e]; [| discriminate].
      inversion Hx. subst l. now apply add_all_after.
    - inversion HG. unfold after, ret. cbn. now rewrite logs_nil. }
  rewrite E1. unfold after at 1.
  unfold bind at 1.
  match goal with
  | |- context [(if String.eqb (fst elem) "switch" then ?a else ?b) ?w1] =>
      assert (E2 : (if String.eqb (fst elem) "switch" then a else b) w1
                   = after s (fst (first_wins ab g out)) w1)
  end.
  { subst S. destruct (String.eqb (fst elem) "switch").
    - apply (for_each_collect switch_claims); auto.
      intros x l o0 w0 Hx Hl. unfold switch_claims in Hx.
      unfold bind, lift. destruct (switch_rel_ip x) as [t|e]; [| discriminate].
      inversion Hx. subst l. now apply single_after.
    - inversion HS. unfold after, ret. cbn. now rewrite logs_nil. }
  rewrite E2. unfold after at 1.
  subst O. destruct (String.eqb (fst elem) "otherdev").
  - apply (for_each_collect otherdev_claims); auto.
    intros x l o0 w0 Hx Hl. unfold otherdev_claims in Hx.
    unfold bind, lift. destruct (otherdev_ip x (_id self)) as [t|e]; [| discriminate].
    inversion Hx. subst l. now apply single_after.
  - inversion HO. unfold after, ret. cbn. now rewrite logs_nil.
Qed.

End Loops.

(** C3: resolve_used_ips makes its entries in the order of the links,
    the name server's last, and the first entry under a name wins: the
    mapping has, for each name, the absolute form of the offset of the
    first entry under that name; every later entry under a name already
    present is not written and is logged as a duplicate, and the
    resolution goes on; every address of the mapping is the absolute form
    of an offset.  Nothing is written to the store. *)
Theorem resolve_used_ips_first_wins (self : Self) (i : nat) (d : NetDoc)
    (rev_links : RevLinks) (items : list (PyVal * option Z))
    (ab : option Z -> string) (w : World) :
  let all := items ++ [(ns_hostname d, ns_ip d)] in
  _id self = Some i -> coll w !! i = Some d ->
  usedby d = Some rev_links ->
  collect (elem_claims self) rev_links = Val items ->
  converts d ab all ->
  exists out,
    resolve_used_ips self w
    = (Val out, logs (map (duplicate_msg self) (later_claims ∅ all)) w)
    /\ (forall nm, out !! nm = ab <$> first_claim nm all)
    /\ (forall nm a, out !! nm = Some a ->
                     exists r, reltoa (NETWORK d) r = Val a)
    /\ (forall o nm r a w0, o !! nm = Some a ->
          add_to_out_dict self d o nm r w0
          = (Val o, logs [duplicate_msg self nm] w0)).
Proof.
  intros all Hid Hd Hu Hcol Hc.
  pose proof Hc as Hc'. apply converts_app in Hc' as [Hitems Hns].
  exists (fst (first_wins ab all ∅)).
  assert (Hlook : forall nm, fst (first_wins ab all ∅) !! nm = ab <$> first_claim nm all).
  { intros nm. rewrite first_wins_lookup, lookup_empty. reflexivity. }
  split; [| split; [exact Hlook | split]].
  - unfold resolve_used_ips.
    unfold bind at 1. rewrite (_get_json_found self i d w Hid Hd), Hu.
    unfold bind.
    rewrite (for_each_collect self d ab (elem_claims self) (resolve_elem self d)
               rev_links items); auto.
    + unfold after at 1.
      rewrite (one_after self d ab (ns_hostname d, ns_ip d)) by exact Hns.
      rewrite <- after_app. unfold after. fold all.
      rewrite first_wins_reported, dom_empty_L. reflexivity.
    + intros x l o w0 Hx Hl. now apply resolve_elem_after.
  - intros nm a Ha. rewrite Hlook in Ha. unfold first_claim in Ha.
    destruct (find (fun it => bool_decide (fst it = nm)) all) as [[k r]|] eqn:Hf;
      [| discriminate].
    cbn in Ha. inversion Ha. exists r.
    apply find_some in Hf as [Hin _]. exact (Hc (k, r) Hin).
  - intros o nm r a w0 Ho. exact (add_to_out_dict_present self d o nm r a w0 Ho).
Qed.

End NetworkProperties.

(** ** Further properties of the methods *)

Section MoreProperties.
Context {IP : IpUtils} {FL : FreelistUtils} {EN : Entities}.

(** *** Keys of [set] and [get] *)

(** X1: a key that [set] does not support (not given, not a string, or not one
    of NETWORK, PREFIX, ns_hostname, ns_ip) gives None and one logged
    error; the store is neither read nor written, so this holds even when
    the record is gone. *)
Theorem set_refuses_key (self : Self) (key value : PyVal) (w : World) :
  in_keylist key = false ->
  exists m, set self key value w = (Val None, logged m w)
            /\ (m = ErrFieldShouldBeSpecified \/ m = ErrCannotChange key).
Proof.
  intros Hk. unfold set.
  destruct (negb (truthy key) || negb (is_str key))%bool.
  - exists ErrFieldShouldBeSpecified. split; [reflexivity | now left].
  - rewrite Hk. exists (ErrCannotChange key). split; [reflexivity | now right].
Qed.

(** X2: with a supported key [set] never gives None: it returns a boolean or
    raises. *)
Theorem set_supported_key_not_None (self : Self) (key value : PyVal) (w : World) :
  in_keylist key = true ->
  fst (set self key value w) <> Val None.
Proof.
  intros Hk. unfold set.
  assert (Hs : (negb (truthy key) || negb (is_str key))%bool = false).
  { destruct key as [| z | k]; try discriminate. cbn [is_str truthy negb orb].
    destruct k; [discriminate | reflexivity]. }
  rewrite Hs, Hk. cbn [negb]. unfold bind at 1.
  destruct (_get_json self w) as [[net|e] w0]; [| discriminate].
  unfold bind at 1.
  match goal with
  | |- context [match ?m w0 with _ => _ end] => destruct (m w0) as [[net'|e] w1]
  end; [| discriminate].
  unfold bind, ret. rewrite update_doc_eq. discriminate.
Qed.

(** X3: [get] changes nothing: no write, no log entry, for every key and every
    world, whether it returns or raises. *)
Theorem get_changes_nothing (self : Self) (key : PyVal) (w : World) :
  snd (get self key w) = w.
Proof. apply get_world. Qed.

(** *** Saving the free list *)

Lemma saved_other (i j : nat) (flist : list Range) (w : World) :
  j <> i -> coll (saved i flist w) !! j = coll w !! j.
Proof.
  intros Hne. rewrite saved_coll. unfold updated.
  destruct (next_fault w); [reflexivity |]. now apply lookup_alter_ne.
Qed.

Lemma saved_but_freelist (i j : nat) (flist : list Range) (w : World) :
  set_freelist [] <$> coll (saved i flist w) !! j = set_freelist [] <$> coll w !! j.
Proof.
  destruct (decide (j = i)) as [-> | Hne]; [| now rewrite saved_other].
  rewrite saved_coll. unfold updated.
  destruct (next_fault w); [reflexivity |].
  rewrite lookup_alter_eq. destruct (coll w !! i); reflexivity.
Qed.

(** X14: with an [_id], [_save_free_list] sends exactly one update, of the free
    list alone: the other records, and the other fields of the record, are
    as before.  It returns whether the store accepted the update; an
    accepted update sets the free list of the record, a rejected one is
    logged and changes nothing. *)
Theorem _save_free_list_effect (self : Self) (i : nat) (flist : list Range) (w : World) :
  _id self = Some i ->
  exists w',
    _save_free_list self flist w = (Val (Some (negb (next_fault w))), w')
    /\ journal w' = journal w ++ [WSetFreelist (Some i) flist]
    /\ (forall j, j <> i -> coll w' !! j = coll w !! j)
    /\ set_freelist [] <$> coll w' !! i = set_freelist [] <$> coll w !! i
    /\ (next_fault w = false ->
        freelist <$> coll w' !! i = (fun _ => flist) <$> coll w !! i
        /\ errlog w' = errlog w)
    /\ (next_fault w = true ->
        coll w' = coll w /\ errlog w' = errlog w ++ [ErrUpdatingFreelist flist]).
Proof.
  intros Hid. exists (saved i flist w).
  split; [now apply _save_free_list_eq |].
  split; [apply saved_journal |].
  split; [intros j Hj; now apply saved_other |].
  split; [apply saved_but_freelist |].
  split; intros Hf.
  - split.
    + rewrite saved_coll. unfold updated. rewrite Hf, lookup_alter_eq.
      destruct (coll w !! i); reflexivity.
    + unfold saved. rewrite Hf. reflexivity.
  - rewrite saved_coll. split; [now apply updated_fault |].
    unfold saved. rewrite Hf. reflexivity.
Qed.

(** *** What [reserve_ip] and [release_ip] do to the world *)

(** The worlds [reserve_ip] can leave: the one it found, that one with the
    range error logged, or that one with one free list saved. *)
Lemma reserve_ip_worlds_of (self : Self) (ip1 ip2 : PyVal) (ie : bool)
    (res : Result (option Unfreed)) (w w' : World) :
  reserve_ip self ip1 ip2 ie w = (res, w') ->
  w' = w \/ (res = Val None /\ w' = logged ErrWrongRange w)
  \/ exists i flist, _id self = Some i /\ (exists u, res = Val (Some u))
                     /\ w' = saved i flist w.
Proof.
  unfold reserve_ip. unfold bind at 1.
  destruct (_get_json self w) as [[net|e] w0] eqn:Hg.
  2:{ pose proof (_get_json_world self w) as Hw. rewrite Hg in Hw. cbn in Hw.
      intros H. inversion H. left. congruence. }
  apply _get_json_inv in Hg as [-> (i & Hid & Hd)].
  unfold bind at 1. unfold lift at 1.
  destruct (rel_of_arg ip1 net) as [r1|e]; [| intros H; inversion H; now left].
  unfold bind at 1. unfold lift at 1.
  destruct (rel_of_arg ip2 net) as [r2|e]; [| intros H; inversion H; now left].
  destruct (wrong_range r1 r2); [intros H; inversion H; right; left; now split |].
  unfold bind at 1.
  destruct ((if truthy_num r1
             then lift (unfree_range (freelist net) (default 0 r1) r2)
             else if ie then lift (next_free (freelist net))
                  else raise (UnboundLocalError "flist")) w)
    as [[p|e] w0] eqn:Hp.
  - assert (w0 = w) as ->.
    { revert Hp. unfold lift, raise.
      destruct (truthy_num r1); [| destruct ie]; intros H; now inversion H. }
    unfold bind. rewrite (_save_free_list_eq self i (fst p) w Hid).
    intros H. inversion H. right; right. eauto 6.
  - assert (w0 = w) as ->.
    { revert Hp. unfold lift, raise.
      destruct (truthy_num r1); [| destruct ie]; intros H; now inversion H. }
    intros H. inversion H. now left.
Qed.

Lemma release_ip_worlds_of (self : Self) (ip1 ip2 : PyVal)
    (res : Result (option bool)) (w w' : World) :
  release_ip self ip1 ip2 w = (res, w') ->
  w' = w \/ (res = Val None /\ w' = logged ErrWrongRange w)
  \/ exists i flist, _id self = Some i /\ res = Val (Some true)
                     /\ w' = saved i flist w.
Proof.
  unfold release_ip. unfold bind at 1.
  destruct (_get_json self w) as [[net|e] w0] eqn:Hg.
  2:{ pose proof (_get_json_world self w) as Hw. rewrite Hg in Hw. cbn in Hw.
      intros H. inversion H. left. congruence. }
  apply _get_json_inv in Hg as [-> (i & Hid & Hd)].
  unfold bind at 1. unfold lift at 1.
  destruct (rel_of_arg ip1 net) as [r1|e]; [| intros H; inversion H; now left].
  unfold bind at 1. unfold lift at 1.
  destruct (rel_of_arg ip2 net) as [r2|e]; [| intros H; inversion H; now left].
  destruct (wrong_range r1 r2); [intros H; inversion H; right; left; now split |].
  unfold bind at 1. unfold lift at 1.
  destruct (free_range (freelist net) r1 r2) as [p|e]; [| intros H; inversion H; now left].
  unfold bind. rewrite (_save_free_list_eq self i (fst p) w Hid).
  intros H. inversion H. right; right. eauto 6.
Qed.

Lemma reserve_ip_worlds (self : Self) (ip1 ip2 : PyVal) (ie : bool) (w : World) :
  snd (reserve_ip self ip1 ip2 ie w) = w
  \/ snd (reserve_ip self ip1 ip2 ie w) = logged ErrWrongRange w
  \/ exists i flist, _id self = Some i
                     /\ snd (reserve_ip self ip1 ip2 ie w) = saved i flist w.
Proof.
  destruct (reserve_ip self ip1 ip2 ie w) as [res w'] eqn:H.
  destruct (reserve_ip_worlds_of self ip1 ip2 ie res w w' H)
    as [E | [[_ E] | (i & fl' & Hid & _ & E)]]; cbn [snd];
    [now left | right; now left | right; right; eauto].
Qed.

Lemma release_ip_worlds (self : Self) (ip1 ip2 : PyVal) (w : World) :
  snd (release_ip self ip1 ip2 w) = w
  \/ snd (release_ip self ip1 ip2 w) = logged ErrWrongRange w
  \/ exists i flist, _id self = Some i
                     /\ snd (release_ip self ip1 ip2 w) = saved i flist w.
Proof.
  destruct (release_ip self ip1 ip2 w) as [res w'] eqn:H.
  destruct (release_ip_worlds_of self ip1 ip2 res w w' H)
    as [E | [[_ E] | (i & fl' & Hid & _ & E)]]; cbn [snd];
    [now left | right; now left | right; right; eauto].
Qed.

(** X20: whatever [reserve_ip] and [release_ip] are called with and however
    they end, every record of the collection keeps all its fields but the
    free list: base, prefix, name-server host name and offset, and links
    are never changed by them. *)
Theorem reserve_release_keep_fields (self : Self) (ip1 ip2 : PyVal) (ie : bool)
    (w : World) (j : nat) :
  set_freelist [] <$> coll (snd (reserve_ip self ip1 ip2 ie w)) !! j
  = set_freelist [] <$> coll w !! j
  /\ set_freelist [] <$> coll (snd (release_ip self ip1 ip2 w)) !! j
     = set_freelist [] <$> coll w !! j.
Proof.
  split.
  - destruct (reserve_ip_worlds self ip1 ip2 ie w) as [E | [E | (i & fl' & _ & E)]];
      rewrite E; [reflexivity | reflexivity | apply saved_but_freelist].
  - destruct (release_ip_worlds self ip1 ip2 w) as [E | [E | (i & fl' & _ & E)]];
      rewrite E; [reflexivity | reflexivity | apply saved_but_freelist].
Qed.

(** X21: [reserve_ip] and [release_ip] send the store at most one write, and
    that write is an update of the free list of the object's own record:
    never an insert, never an update of the whole record. *)
Theorem reserve_release_at_most_one_write (self : Self) (ip1 ip2 : PyVal) (ie : bool)
    (w : World) :
  (journal (snd (reserve_ip self ip1 ip2 ie w)) = journal w
   \/ exists flist, journal (snd (reserve_ip self ip1 ip2 ie w))
                    = journal w ++ [WSetFreelist (_id self) flist])
  /\ (journal (snd (release_ip self ip1 ip2 w)) = journal w
      \/ exists flist, journal (snd (release_ip self ip1 ip2 w))
                       = journal w ++ [WSetFreelist (_id self) flist]).
Proof.
  split.
  - destruct (reserve_ip_worlds self ip1 ip2 ie w) as [E | [E | (i & fl' & Hid & E)]];
      rewrite E; [now left | now left | right].
    exists fl'. rewrite saved_journal, Hid. reflexivity.
  - destruct (release_ip_worlds self ip1 ip2 w) as [E | [E | (i & fl' & Hid & E)]];
      rewrite E; [now left | now left | right].
    exists fl'. rewrite saved_journal, Hid. reflexivity.
Qed.

(** X19: when [reserve_ip] or [release_ip] raises (the record is gone, an
    address does not convert, a helper fails, [flist] is unbound), the
    world is exactly as it was found: nothing written, nothing logged. *)
Theorem reserve_release_raise_untouched (self : Self) (ip1 ip2 : PyVal) (ie : bool)
    (e : PyExc) (w w' : World) :
  reserve_ip self ip1 ip2 ie w = (Raise e, w')
  \/ release_ip self ip1 ip2 w = (Raise e, w') ->
  w' = w.
Proof.
  intros [H | H].
  - destruct (reserve_ip_worlds_of self ip1 ip2 ie _ w w' H)
      as [E | [[E _] | (i & fl' & _ & [u E] & _)]]; [exact E | discriminate | discriminate].
  - destruct (release_ip_worlds_of self ip1 ip2 _ w w' H)
      as [E | [[E _] | (i & fl' & _ & E & _)]]; [exact E | discriminate | discriminate].
Qed.

(** X18: an address that does not convert makes both methods raise what the
    conversion raised, the first address before the second. *)
Theorem reserve_release_conversion_error (self : Self) (i : nat) (d : NetDoc)
    (ip1 ip2 : PyVal) (ie : bool) (e : PyExc) (w : World) :
  _id self = Some i -> coll w !! i = Some d ->
  rel_of_arg ip1 d = Raise e
  \/ (exists r1, rel_of_arg ip1 d = Val r1) /\ rel_of_arg ip2 d = Raise e ->
  reserve_ip self ip1 ip2 ie w = (Raise e, w)
  /\ release_ip self ip1 ip2 w = (Raise e, w).
Proof.
  intros Hid Hd Hconv. split.
  - unfold reserve_ip. unfold bind at 1.
    rewrite (_get_json_found self i d w Hid Hd). unfold bind, lift.
    destruct Hconv as [H1 | [[r1 H1] H2]]; rewrite H1; [| rewrite H2]; reflexivity.
  - unfold release_ip. unfold bind at 1.
    rewrite (_get_json_found self i d w Hid Hd). unfold bind, lift.
    destruct Hconv as [H1 | [[r1 H1] H2]]; rewrite H1; [| rewrite H2]; reflexivity.
Qed.

Lemma wrong_range_true_iff (r1 r2 : option Z) :
  wrong_range r1 r2 = true
  <-> exists z1 z2, r1 = Some z1 /\ r2 = Some z2 /\ z2 <> 0 /\ z2 <= z1.
Proof.
  split.
  - destruct r2 as [z2|]; [| discriminate]. destruct r1 as [z1|].
    + intros H. apply wrong_range_iff in H. exists z1, z2. tauto.
    + unfold wrong_range, py_le. rewrite andb_false_r. discriminate.
  - intros (z1 & z2 & -> & -> & H). now apply wrong_range_iff.
Qed.

Lemma logged_not_same (m : LogMsg) (w : World) : logged m w <> w.
Proof.
  intros H. apply (f_equal errlog) in H. cbn in H.
  apply (f_equal (@length LogMsg)) in H. rewrite length_app in H. cbn in H. lia.
Qed.

Lemma saved_not_logged (i : nat) (flist : list Range) (m : LogMsg) (w : World) :
  saved i flist w <> logged m w.
Proof.
  intros H. apply (f_equal journal) in H. rewrite saved_journal in H. cbn in H.
  apply (f_equal (@length WriteOp)) in H. rewrite length_app in H. cbn in H. lia.
Qed.

(** X16: once the record is loaded and the addresses are converted,
    [reserve_ip] takes its range-error exit (the range error logged and
    nothing else changed) exactly when both offsets are numbers, the
    second is not 0 and is not above the first; on that exit it gives
    None.  On every other path the world it leaves is a different one: as
    found, or with one free list written. *)
Theorem reserve_ip_range_error_iff (self : Self) (i : nat) (d : NetDoc)
    (ip1 ip2 : PyVal) (r1 r2 : option Z) (ie : bool) (w : World) :
  _id self = Some i -> coll w !! i = Some d ->
  rel_of_arg ip1 d = Val r1 -> rel_of_arg ip2 d = Val r2 ->
  (snd (reserve_ip self ip1 ip2 ie w) = logged ErrWrongRange w
   <-> exists z1 z2, r1 = Some z1 /\ r2 = Some z2 /\ z2 <> 0 /\ z2 <= z1)
  /\ ((exists z1 z2, r1 = Some z1 /\ r2 = Some z2 /\ z2 <> 0 /\ z2 <= z1) ->
      fst (reserve_ip self ip1 ip2 ie w) = Val None)
  /\ (~ (exists z1 z2, r1 = Some z1 /\ r2 = Some z2 /\ z2 <> 0 /\ z2 <= z1) ->
      snd (reserve_ip self ip1 ip2 ie w) = w
      \/ exists flist, snd (reserve_ip self ip1 ip2 ie w) = saved i flist w).
Proof.
  intros Hid Hd H1 H2.
  rewrite <- wrong_range_true_iff.
  rewrite (reserve_ip_conv self i d ip1 ip2 r1 r2 ie w Hid Hd H1 H2).
  destruct (wrong_range r1 r2).
  - split; [split; reflexivity |]. split; [reflexivity |].
    intros H. now contradiction H.
  - assert (Hw : snd ((p <- (if truthy_num r1
                               then lift (unfree_range (freelist d) (default 0 r1) r2)
                               else if ie then lift (next_free (freelist d))
                                    else raise (UnboundLocalError "flist")) ;;
                       _save_free_list self (fst p) ;; ret (Some (snd p))) w) = w
                \/ exists flist,
                     snd ((p <- (if truthy_num r1
                                 then lift (unfree_range (freelist d) (default 0 r1) r2)
                                 else if ie then lift (next_free (freelist d))
                                      else raise (UnboundLocalError "flist")) ;;
                           _save_free_list self (fst p) ;; ret (Some (snd p))) w)
                     = saved i flist w).
    { unfold bind at 1. unfold bind at 2.
      destruct ((if truthy_num r1
                 then lift (unfree_range (freelist d) (default 0 r1) r2)
                 else if ie then lift (next_free (freelist d))
                      else raise (UnboundLocalError "flist")) w)
        as [[p|e] w0] eqn:Hp.
      - assert (w0 = w) as ->.
        { revert Hp. unfold lift, raise.
          destruct (truthy_num r1); [| destruct ie]; intros H; now inversion H. }
        right. exists (fst p). unfold bind.
        rewrite (_save_free_list_eq self i (fst p) w Hid). reflexivity.
      - assert (w0 = w) as ->.
        { revert Hp. unfold lift, raise.
          destruct (truthy_num r1); [| destruct ie]; intros H; now inversion H. }
        left. reflexivity. }
    split; [split; [| discriminate] |]. 2: split; [discriminate | intros _; exact Hw].
    intros E. exfalso. destruct Hw as [Hw | [flist Hw]]; rewrite Hw in E.
    + exact (logged_not_same ErrWrongRange w (eq_sym E)).
    + exact (saved_not_logged i flist ErrWrongRange w E).
Qed.

(** X17: once the record is loaded and the addresses are converted,
    [release_ip] gives None exactly when both offsets are numbers, the
    second is not 0 and is not above the first; it then has logged the
    range error and changed nothing else. *)
Theorem release_ip_None_iff (self : Self) (i : nat) (d : NetDoc)
    (ip1 ip2 : PyVal) (r1 r2 : option Z) (w : World) :
  _id self = Some i -> coll w !! i = Some d ->
  rel_of_arg ip1 d = Val r1 -> rel_of_arg ip2 d = Val r2 ->
  (fst (release_ip self ip1 ip2 w) = Val None
   <-> exists z1 z2, r1 = Some z1 /\ r2 = Some z2 /\ z2 <> 0 /\ z2 <= z1)
  /\ (fst (release_ip self ip1 ip2 w) = Val None ->
      snd (release_ip self ip1 ip2 w) = logged ErrWrongRange w).
Proof.
  intros Hid Hd H1 H2.
  rewrite <- wrong_range_true_iff.
  rewrite (release_ip_conv self i d ip1 ip2 r1 r2 w Hid Hd H1 H2).
  destruct (wrong_range r1 r2).
  - split; [split; reflexivity | reflexivity].
  - assert (Hne : fst ((p <- lift (free_range (freelist d) r1 r2) ;;
                        _save_free_list self (fst p) ;; ret (Some true)) w)
                  <> Val None).
    { unfold bind at 1. unfold lift at 1.
      destruct (free_range (freelist d) r1 r2) as [p|e]; [| discriminate].
      unfold bind.
      destruct (_save_free_list self (fst p) w) as [[x|e] w1]; discriminate. }
    split; [split; [intros H; contradiction | discriminate] | intros H; contradiction].
Qed.

(** X15: with a first address that is given (its offset is not 0) and a range
    that passes the test, [reserve_ip] returns what unfree_range reports,
    whatever the store answers to the write of the new free list: a
    rejected write is only logged, and the record keeps the old list. *)
Theorem reserve_ip_returns_report (self : Self) (i : nat) (d : NetDoc)
    (ip1 ip2 : PyVal) (z1 : Z) (r2 : option Z) (flist : list Range) (u : Unfreed)
    (ie : bool) (w : World) :
  _id self = Some i -> coll w !! i = Some d ->
  rel_of_arg ip1 d = Val (Some z1) -> z1 <> 0 ->
  rel_of_arg ip2 d = Val r2 ->
  wrong_range (Some z1) r2 = false ->
  unfree_range (freelist d) z1 r2 = Val (flist, u) ->
  reserve_ip self ip1 ip2 ie w = (Val (Some u), saved i flist w)
  /\ (next_fault w = false -> coll (saved i flist w) !! i = Some (set_freelist flist d))
  /\ (next_fault w = true ->
      coll (saved i flist w) = coll w
      /\ errlog (saved i flist w) = errlog w ++ [ErrUpdatingFreelist flist]).
Proof.
  intros Hid Hd H1 Hz H2 Hr Hun. split; [| split].
  - rewrite (reserve_ip_conv self i d ip1 ip2 (Some z1) r2 ie w Hid Hd H1 H2), Hr.
    cbn [truthy_num]. destruct (z1 =? 0) eqn:E; [lia |]. cbn [negb].
    simpl (default 0 (Some z1)). unfold bind, lift. rewrite Hun. cbn [fst snd].
    rewrite (_save_free_list_eq self i flist w Hid). reflexivity.
  - intros Hf. rewrite saved_coll. exact (updated_lookup _ i w d Hd Hf).
  - intros Hf. rewrite saved_coll. split; [now apply updated_fault |].
    unfold saved. rewrite Hf. reflexivity.
Qed.

(** *** [get], key by key *)

Lemma get_known (self : Self) (i : nat) (d : NetDoc) (w : World) :
  _id self = Some i -> coll w !! i = Some d ->
  get self (VStr "NETWORK") w = (result_map VStr (ntoa (NETWORK d)), w)
  /\ get self (VStr "PREFIX") w = (Val (PREFIX d), w)
  /\ get self (VStr "ns_ip") w = (result_map VStr (reltoa (NETWORK d) (ns_ip d)), w)
  /\ get self (VStr "NETMASK") w
     = (match py_int (PREFIX d) with
        | Val p => match py_lshift 1 (32 - p) with
                   | Val low => result_map VStr (ntoa (Z.lxor (2 ^ 32 - 1) (low - 1)))
                   | Raise e => Raise e
                   end
        | Raise e => Raise e
        end, w).
Proof.
  intros Hid Hd.
  assert (Hget : forall key, truthy key = true -> is_str key = true ->
            get self key w
            = (if key_is key "NETWORK" then
                 a <- lift (ntoa (NETWORK d)) ;; ret (VStr a)
               else if key_is key "NETMASK" then
                 prefix <- lift (py_int (PREFIX d)) ;;
                 full <- lift (py_lshift 1 32) ;;
                 low <- lift (py_lshift 1 (33 - prefix - 1)) ;;
                 a <- lift (ntoa (Z.lxor (full - 1) (low - 1))) ;; ret (VStr a)
               else if key_is key "PREFIX" then ret (PREFIX d)
               else if key_is key "ns_ip" then
                 a <- lift (reltoa (NETWORK d) (ns_ip d)) ;; ret (VStr a)
               else lift (base_get d key)) w).
  { intros key Ht Hs. unfold get. rewrite Ht, Hs. cbn [negb orb].
    unfold bind at 1. now rewrite (_get_json_found self i d w Hid Hd). }
  repeat split; rewrite Hget by reflexivity; clear Hget.
  - cbn. unfold bind, lift, ret.
    destruct (ntoa (NETWORK d)); reflexivity.
  - reflexivity.
  - cbn. unfold bind, lift, ret.
    destruct (reltoa (NETWORK d) (ns_ip d)); reflexivity.
  - cbn -[Z.pow py_lshift]. unfold bind, lift, ret.
    destruct (py_int (PREFIX d)) as [p|e]; [| reflexivity].
    rewrite (py_lshift_1 32) by lia.
    replace (33 - p - 1) with (32 - p) by lia.
    destruct (py_lshift 1 (32 - p)) as [low|e]; [| reflexivity].
    destruct (ntoa _); reflexivity.
Qed.

Lemma lxor_ones_sub (k : Z) :
  0 <= k <= 32 -> Z.lxor (2 ^ 32 - 1) (2 ^ k - 1) = 2 ^ 32 - 2 ^ k.
Proof.
  intros Hk.
  assert (E : 2 ^ 32 - 2 ^ k = Z.shiftl (2 ^ (32 - k) - 1) k).
  { rewrite Z.shiftl_mul_pow2 by lia. rewrite Z.mul_sub_distr_r.
    rewrite <- Z.pow_add_r by lia. replace (32 - k + k) with 32 by lia. lia. }
  rewrite E. apply Z.bits_inj'. intros n Hn.
  rewrite Z.lxor_spec, !ones_testbit by lia.
  rewrite Z.shiftl_spec by lia.
  destruct (n <? k) eqn:E1.
  - rewrite Z.testbit_neg_r by lia.
    destruct (n <? 32) eqn:E2; [reflexivity | lia].
  - rewrite ones_testbit by lia.
    destruct (n <? 32) eqn:E2, (n - k <? 32 - k) eqn:E3; try reflexivity; lia.
Qed.

(** X4: for a stored prefix p in [0, 32], get('NETMASK') converts the number
    2^32 - 2^(32-p): the mask and the size of the subnet add up to 2^32
    (prefix 0 gives the mask 0). *)
Theorem get_NETMASK_closed_form (self : Self) (i : nat) (d : NetDoc) (p : Z) (w : World) :
  _id self = Some i -> coll w !! i = Some d ->
  py_int (PREFIX d) = Val p -> 0 <= p <= 32 ->
  get self (VStr "NETMASK") w = (result_map VStr (ntoa (2 ^ 32 - 2 ^ (32 - p))), w).
Proof.
  intros Hid Hd Hp Hr.
  destruct (get_known self i d w Hid Hd) as (_ & _ & _ & ->).
  rewrite Hp, py_lshift_1 by lia. rewrite lxor_ones_sub by lia. reflexivity.
Qed.

(** X5: a stored prefix above 32 makes get('NETMASK') raise ValueError (the
    shift count is negative); nothing is converted. *)
Theorem get_NETMASK_prefix_above_32 (self : Self) (i : nat) (d : NetDoc) (p : Z)
    (w : World) :
  _id self = Some i -> coll w !! i = Some d ->
  py_int (PREFIX d) = Val p -> 32 < p ->
  get self (VStr "NETMASK") w = (Raise ValueError, w).
Proof.
  intros Hid Hd Hp Hr.
  destruct (get_known self i d w Hid Hd) as (_ & _ & _ & ->).
  rewrite Hp. unfold py_lshift. destruct (32 - p <? 0) eqn:E; [reflexivity | lia].
Qed.

(** *** [set] followed by [get] *)

Lemma set_NETWORK_run (self : Self) (i : nat) (d : NetDoc) (value : PyVal)
    (n : Z) (w : World) :
  _id self = Some i -> coll w !! i = Some d ->
  get_num_subnet value (PREFIX d) = Val n ->
  set self (VStr "NETWORK") value w
  = (Val (Some (negb (next_fault w))),
     written (WSetDoc (Some i) (set_NETWORK n d))
             (updated (fun _ => set_NETWORK n d) (Some i) w) w).
Proof.
  intros Hid Hd Hn. rewrite set_NETWORK_eq.
  unfold bind at 1. rewrite (_get_json_found self i d w Hid Hd).
  unfold bind, lift, ret. rewrite Hn, update_doc_eq, Hid. reflexivity.
Qed.

(** X6: after set('NETWORK', value), get('NETWORK') converts the masked base
    of [value] when the store accepted the update, and the old base when
    it rejected it; [set] returns which of the two happened. *)
Theorem set_get_NETWORK (self : Self) (i : nat) (d : NetDoc) (value : PyVal)
    (n : Z) (w : World) :
  _id self = Some i -> coll w !! i = Some d ->
  get_num_subnet value (PREFIX d) = Val n ->
  exists w',
    set self (VStr "NETWORK") value w = (Val (Some (negb (next_fault w))), w')
    /\ get self (VStr "NETWORK") w'
       = (result_map VStr (ntoa (if next_fault w then NETWORK d else n)), w').
Proof.
  intros Hid Hd Hn. eexists. split; [exact (set_NETWORK_run self i d value n w Hid Hd Hn) |].
  set (w' := written _ _ w).
  assert (Hd' : coll w' !! i
                = Some (if next_fault w then d else set_NETWORK n d)).
  { unfold w'. cbn [coll written]. destruct (next_fault w) eqn:Hf.
    - now rewrite updated_fault.
    - exact (updated_lookup (fun _ => set_NETWORK n d) i w d Hd Hf). }
  destruct (get_known self i _ w' Hid Hd') as (-> & _).
  destruct (next_fault w); reflexivity.
Qed.

Lemma set_PREFIX_run (self : Self) (i : nat) (d : NetDoc) (P n : Z)
    (flist : list Range) (w : World) :
  _id self = Some i -> coll w !! i = Some d ->
  P <= 32 ->
  get_num_subnet (VInt (NETWORK d)) (VInt P) = Val n ->
  set_upper_limit (freelist d) (2 ^ (32 - P) - 1) = Val flist ->
  set self (VStr "PREFIX") (VInt P) w
  = (Val (Some (negb (next_fault w))),
     written (WSetDoc (Some i) (set_PREFIX (VInt P) (set_NETWORK n (set_freelist flist d))))
             (updated (fun _ => set_PREFIX (VInt P) (set_NETWORK n (set_freelist flist d)))
                      (Some i) w) w).
Proof.
  intros Hid Hd HP Hn Hfl. rewrite set_PREFIX_eq.
  unfold bind at 1. rewrite (_get_json_found self i d w Hid Hd).
  unfold bind, lift, ret. rewrite Hn. cbn [py_rsub].
  rewrite py_lshift_1 by lia. rewrite Hfl, update_doc_eq, Hid. reflexivity.
Qed.

(** X7: after an accepted set('PREFIX', P) with 0 <= P <= 32, get('PREFIX')
    is P and get('NETMASK') converts the mask of P. *)
Theorem set_get_PREFIX (self : Self) (i : nat) (d : NetDoc) (P n : Z)
    (flist : list Range) (w : World) :
  _id self = Some i -> coll w !! i = Some d ->
  0 <= P <= 32 ->
  get_num_subnet (VInt (NETWORK d)) (VInt P) = Val n ->
  set_upper_limit (freelist d) (2 ^ (32 - P) - 1) = Val flist ->
  next_fault w = false ->
  exists w',
    set self (VStr "PREFIX") (VInt P) w = (Val (Some true), w')
    /\ get self (VStr "PREFIX") w' = (Val (VInt P), w')
    /\ get self (VStr "NETMASK") w'
       = (result_map VStr (ntoa (2 ^ 32 - 2 ^ (32 - P))), w').
Proof.
  intros Hid Hd HP Hn Hfl Hf. eexists. split.
  { rewrite (set_PREFIX_run self i d P n flist w Hid Hd ltac:(lia) Hn Hfl), Hf.
    reflexivity. }
  set (w' := written _ _ w).
  assert (Hd' : coll w' !! i
                = Some (set_PREFIX (VInt P) (set_NETWORK n (set_freelist flist d)))).
  { unfold w'. cbn [coll written].
    exact (updated_lookup (fun _ => _) i w d Hd Hf). }
  destruct (get_known self i _ w' Hid Hd') as (_ & -> & _ & ->).
  split; [reflexivity |]. cbn [PREFIX set_PREFIX py_int].
  rewrite py_lshift_1 by lia. rewrite lxor_ones_sub by lia. reflexivity.
Qed.

(** X8: set('PREFIX', value) raises and leaves the world as it was whenever
    [value] is not an int or is an int above 32: a string, as the key list
    declares the field, is never accepted. *)
Theorem set_PREFIX_refused (self : Self) (i : nat) (d : NetDoc) (value : PyVal)
    (w : World) :
  _id self = Some i -> coll w !! i = Some d ->
  (forall P, value = VInt P -> 32 < P) ->
  exists e, set self (VStr "PREFIX") value w = (Raise e, w).
Proof.
  intros Hid Hd Hv. rewrite set_PREFIX_eq.
  unfold bind at 1. rewrite (_get_json_found self i d w Hid Hd).
  unfold bind, lift, ret.
  destruct (get_num_subnet (VInt (NETWORK d)) value) as [n|e]; [| eauto].
  destruct value as [| P | v]; cbn [py_rsub]; eauto.
  specialize (Hv P eq_refl). unfold py_lshift.
  destruct (32 - P <? 0) eqn:E; [eauto | lia].
Qed.

(** X9: set('ns_hostname', value) stores [value] as it is, whatever it is,
    with one update of the record; the free list, the base, the prefix,
    the name-server offset and the links of the record stay, and so does
    every other record. *)
Theorem set_ns_hostname_effect (self : Self) (i : nat) (d : NetDoc) (value : PyVal)
    (w : World) :
  _id self = Some i -> coll w !! i = Some d ->
  exists w',
    set self (VStr "ns_hostname") value w = (Val (Some (negb (next_fault w))), w')
    /\ journal w' = journal w ++ [WSetDoc (Some i) (set_ns_hostname value d)]
    /\ (next_fault w = false ->
        coll w' !! i
        = Some (mkNetDoc (name d) (NETWORK d) (PREFIX d) (freelist d) value
                         (ns_ip d) (usedby d)))
    /\ (next_fault w = true -> coll w' = coll w)
    /\ (forall j, j <> i -> coll w' !! j = coll w !! j).
Proof.
  intros Hid Hd. rewrite set_ns_hostname_eq.
  unfold bind at 1. rewrite (_get_json_found self i d w Hid Hd).
  unfold bind, ret. rewrite update_doc_eq, Hid.
  eexists. split; [reflexivity |]. cbn [journal coll written].
  split; [reflexivity |]. split; [| split].
  - intros Hf. exact (updated_lookup (fun _ => set_ns_hostname value d) i w d Hd Hf).
  - intros Hf. now apply updated_fault.
  - intros j Hj. unfold updated. destruct (next_fault w); [reflexivity |].
    now apply lookup_alter_ne.
Qed.

(** *** Setting the name-server address *)

Lemma saved_faults (i : nat) (flist : list Range) (w : World) :
  faults (saved i flist w) = tail (faults w).
Proof. unfold saved. destruct (next_fault w); reflexivity. Qed.

(** X10: an address that does not convert makes set('ns_ip') raise before the
    old address is released: the world is as it was. *)
Theorem set_ns_ip_bad_address (self : Self) (i : nat) (d : NetDoc) (value : PyVal)
    (e : PyExc) (w : World) :
  _id self = Some i -> coll w !! i = Some d ->
  atorel value (NETWORK d) (PREFIX d) = Raise e ->
  set self (VStr "ns_ip") value w = (Raise e, w).
Proof.
  intros Hid Hd Ha. rewrite set_ns_ip_eq.
  unfold bind at 1. rewrite (_get_json_found self i d w Hid Hd).
  unfold bind, lift. rewrite Ha. reflexivity.
Qed.

(** The reservation of offset [rel] by [reserve_ip(rel)] and the record
    read back after it. *)
Lemma reserve_then_reload (self : Self) (i : nat) (d : NetDoc) (rel : Z)
    (flist : list Range) (u : Unfreed) (w : World) :
  _id self = Some i -> coll w !! i = Some d ->
  (if rel =? 0 then next_free (freelist d) else unfree_range (freelist d) rel None)
    = Val (flist, u) ->
  (reserve_ip self (VInt rel) VNone true ;;
   net <- _get_json self ;; ret (set_ns_ip (Some rel) net)) w
  = (Val (set_ns_ip (Some rel) (if next_fault w then d else set_freelist flist d)),
     saved i flist w).
Proof.
  intros Hid Hd Hres. unfold bind at 1.
  rewrite (reserve_ip_conv self i d (VInt rel) VNone (Some rel) None true w
             Hid Hd eq_refl eq_refl).
  cbn [wrong_range truthy_num]. simpl (default 0 (Some rel)).
  unfold bind at 1.
  replace ((if negb (rel =? 0) then lift (unfree_range (freelist d) rel None)
            else lift (next_free (freelist d))) w) with (Val (flist, u), w : World)
    by (revert Hres; unfold lift; destruct (rel =? 0); intros ->; reflexivity).
  cbn [fst snd]. unfold bind at 1.
  rewrite (_save_free_list_eq self i flist w Hid). unfold ret at 1.
  assert (Hd1 : coll (saved i flist w) !! i
                = Some (if next_fault w then d else set_freelist flist d)).
  { rewrite saved_coll. destruct (next_fault w) eqn:Hf.
    - now rewrite updated_fault.
    - exact (updated_lookup _ i w d Hd Hf). }
  unfold bind. rewrite (_get_json_found self i _ _ Hid Hd1). reflexivity.
Qed.

(** set('ns_ip') on a record whose name-server address does not convert
    back (none is stored): no release, one reservation, one update. *)
Lemma set_ns_ip_first (self : Self) (i : nat) (d : NetDoc) (value : PyVal)
    (rel : Z) (e : PyExc) (flist : list Range) (u : Unfreed) (w : World) :
  _id self = Some i -> coll w !! i = Some d ->
  reltoa (NETWORK d) (ns_ip d) = Raise e ->
  atorel value (NETWORK d) (PREFIX d) = Val rel ->
  (if rel =? 0 then next_free (freelist d) else unfree_range (freelist d) rel None)
    = Val (flist, u) ->
  let d1 := set_ns_ip (Some rel) (if next_fault w then d else set_freelist flist d) in
  set self (VStr "ns_ip") value w
  = (Val (Some (negb (next_fault (saved i flist w)))),
     written (WSetDoc (Some i) d1)
             (updated (fun _ => d1) (Some i) (saved i flist w)) (saved i flist w)).
Proof.
  intros Hid Hd Hnone Ha Hres d1. rewrite set_ns_ip_eq.
  unfold bind at 1. rewrite (_get_json_found self i d w Hid Hd).
  unfold bind at 1. unfold bind at 1. unfold lift at 1. rewrite Ha.
  unfold bind at 1.
  replace (catch (get self (VStr "ns_ip")) (ret VNone) w) with (Val VNone, w : World).
  2:{ unfold catch. destruct (get_known self i d w Hid Hd) as (_ & _ & -> & _).
      rewrite Hnone. reflexivity. }
  cbn [truthy]. unfold bind at 1. unfold ret at 1.
  rewrite (reserve_then_reload self i d rel flist u w Hid Hd Hres).
  unfold bind, ret. rewrite update_doc_eq, Hid. reflexivity.
Qed.

(** X12: setting the name server to the network address itself (offset
    0), with no old address stored and the store accepting both writes:
    set returns True, the record gets ns_ip = 0, and its free list becomes
    the one next_free returns on the stored list, written first on its
    own; unfree_range is not asked for offset 0. *)
Theorem set_ns_ip_offset_zero (self : Self) (i : nat) (d : NetDoc) (value : PyVal)
    (e : PyExc) (flist : list Range) (u : Unfreed) (w : World) :
  _id self = Some i -> coll w !! i = Some d ->
  reltoa (NETWORK d) (ns_ip d) = Raise e ->
  atorel value (NETWORK d) (PREFIX d) = Val 0 ->
  next_free (freelist d) = Val (flist, u) ->
  faults w = [] ->
  exists w',
    set self (VStr "ns_ip") value w = (Val (Some true), w')
    /\ coll w' !! i
       = Some (mkNetDoc (name d) (NETWORK d) (PREFIX d) flist (ns_hostname d)
                        (Some 0) (usedby d))
    /\ journal w' = journal w
         ++ [WSetFreelist (Some i) flist;
             WSetDoc (Some i) (mkNetDoc (name d) (NETWORK d) (PREFIX d) flist
                                        (ns_hostname d) (Some 0) (usedby d))].
Proof.
  intros Hid Hd Hnone Ha Hnf Hfaults.
  assert (Hf : next_fault w = false) by (unfold next_fault; now rewrite Hfaults).
  assert (Hf1 : next_fault (saved i flist w) = false).
  { unfold next_fault. rewrite saved_faults, Hfaults. reflexivity. }
  pose proof (set_ns_ip_first self i d value 0 e flist u w Hid Hd Hnone Ha Hnf) as Hset.
  cbv zeta in Hset. rewrite Hf, Hf1 in Hset.
  eexists. split; [exact Hset |]. cbn [coll journal written]. split.
  - assert (Hd1 : coll (saved i flist w) !! i = Some (set_freelist flist d)).
    { rewrite saved_coll. exact (updated_lookup _ i w d Hd Hf). }
    exact (updated_lookup (fun _ => _) i _ _ Hd1 Hf1).
  - rewrite saved_journal, <- app_assoc. reflexivity.
Qed.

(** X13: when the store rejects the write of the reserved free list and then
    accepts the update of the record, set('ns_ip') still returns True:
    the record gets the new name-server offset while its free list is the
    old one, with the offset still free; only the log tells. *)
Theorem set_ns_ip_reservation_lost (self : Self) (i : nat) (d : NetDoc)
    (value : PyVal) (rel : Z) (e : PyExc) (flist : list Range) (u : Unfreed)
    (rest : list bool) (w : World) :
  _id self = Some i -> coll w !! i = Some d ->
  reltoa (NETWORK d) (ns_ip d) = Raise e ->
  atorel value (NETWORK d) (PREFIX d) = Val rel -> rel <> 0 ->
  unfree_range (freelist d) rel None = Val (flist, u) ->
  faults w = true :: false :: rest ->
  exists w',
    set self (VStr "ns_ip") value w = (Val (Some true), w')
    /\ coll w' !! i
       = Some (mkNetDoc (name d) (NETWORK d) (PREFIX d) (freelist d) (ns_hostname d)
                        (Some rel) (usedby d))
    /\ errlog w' = errlog w ++ [ErrUpdatingFreelist flist].
Proof.
  intros Hid Hd Hnone Ha Hrel Hun Hfaults.
  assert (Hf : next_fault w = true) by (unfold next_fault; now rewrite Hfaults).
  assert (Hf1 : next_fault (saved i flist w) = false).
  { unfold next_fault. rewrite saved_faults, Hfaults. reflexivity. }
  assert (Hres : (if rel =? 0 then next_free (freelist d)
                  else unfree_range (freelist d) rel None) = Val (flist, u)).
  { destruct (rel =? 0) eqn:E; [lia | exact Hun]. }
  pose proof (set_ns_ip_first self i d value rel e flist u w Hid Hd Hnone Ha Hres) as Hset.
  cbv zeta in Hset. rewrite Hf, Hf1 in Hset.
  eexists. split; [exact Hset |]. cbn [coll errlog written]. split.
  - assert (Hd1 : coll (saved i flist w) !! i = Some d).
    { rewrite saved_coll, updated_fault by assumption. exact Hd. }
    exact (updated_lookup (fun _ => _) i _ _ Hd1 Hf1).
  - unfold saved. rewrite Hf. reflexivity.
Qed.

(** X11: replacing a stored name-server address: the old address is converted
    back and released, the new offset is reserved in the list the release
    left, and the record is updated; three writes, and afterwards
    get('ns_ip') converts the new offset. *)
Theorem set_ns_ip_replaces (self : Self) (i : nat) (d : NetDoc) (value : PyVal)
    (a_old : string) (old rel : Z) (fl1 fl2 : list Range) (f : Freed) (u : Unfreed)
    (w : World) :
  _id self = Some i -> coll w !! i = Some d ->
  reltoa (NETWORK d) (ns_ip d) = Val a_old -> a_old <> EmptyString ->
  atorel (VStr a_old) (NETWORK d) (PREFIX d) = Val old ->
  free_range (freelist d) (Some old) None = Val (fl1, f) ->
  atorel value (NETWORK d) (PREFIX d) = Val rel ->
  (if rel =? 0 then next_free fl1 else unfree_range fl1 rel None) = Val (fl2, u) ->
  faults w = [] ->
  exists w',
    set self (VStr "ns_ip") value w = (Val (Some true), w')
    /\ coll w' !! i
       = Some (mkNetDoc (name d) (NETWORK d) (PREFIX d) fl2 (ns_hostname d)
                        (Some rel) (usedby d))
    /\ journal w' = journal w
         ++ [WSetFreelist (Some i) fl1; WSetFreelist (Some i) fl2;
             WSetDoc (Some i) (mkNetDoc (name d) (NETWORK d) (PREFIX d) fl2
                                        (ns_hostname d) (Some rel) (usedby d))]
    /\ get self (VStr "ns_ip") w'
       = (result_map VStr (reltoa (NETWORK d) (Some rel)), w').
Proof.
  intros Hid Hd Hold Hne Hback Hfree Ha Hres Hfaults.
  assert (Hf : next_fault w = false) by (unfold next_fault; now rewrite Hfaults).
  set (w1 := saved i fl1 w).
  assert (Hf1 : next_fault w1 = false).
  { unfold w1, next_fault. rewrite saved_faults, Hfaults. reflexivity. }
  assert (Hd1 : coll w1 !! i = Some (set_freelist fl1 d)).
  { unfold w1. rewrite saved_coll. exact (updated_lookup _ i w d Hd Hf). }
  set (w2 := saved i fl2 w1).
  assert (Hf2 : next_fault w2 = false).
  { unfold w2, w1, next_fault. rewrite !saved_faults, Hfaults. reflexivity. }
  set (d2 := mkNetDoc (name d) (NETWORK d) (PREFIX d) fl2 (ns_hostname d)
                      (Some rel) (usedby d)).
  assert (Hrelease : release_ip self (VStr a_old) VNone w = (Val (Some true), w1)).
  { rewrite (release_ip_conv self i d (VStr a_old) VNone (Some old) None w Hid Hd).
    - cbn [wrong_range]. unfold bind, lift. rewrite Hfree. cbn [fst].
      rewrite (_save_free_list_eq self i fl1 w Hid). reflexivity.
    - cbn [rel_of_arg]. rewrite Hback. reflexivity.
    - reflexivity. }
  assert (Hset : set self (VStr "ns_ip") value w
                 = (Val (Some true),
                    written (WSetDoc (Some i) d2) (updated (fun _ => d2) (Some i) w2) w2)).
  { rewrite set_ns_ip_eq.
    unfold bind at 1. rewrite (_get_json_found self i d w Hid Hd).
    unfold bind at 1. unfold bind at 1. unfold lift at 1. rewrite Ha.
    unfold bind at 1.
    replace (catch (get self (VStr "ns_ip")) (ret VNone) w)
      with (Val (VStr a_old), w : World).
    2:{ unfold catch. destruct (get_known self i d w Hid Hd) as (_ & _ & -> & _).
        rewrite Hold. reflexivity. }
    assert (Ht : truthy (VStr a_old) = true).
    { cbn [truthy]. destruct a_old; [contradiction | reflexivity]. }
    rewrite Ht. unfold bind at 1. unfold bind at 1. rewrite Hrelease.
    unfold ret at 1.
    rewrite (reserve_then_reload self i (set_freelist fl1 d) rel fl2 u w1 Hid Hd1 Hres).
    rewrite Hf1. unfold bind, ret. rewrite update_doc_eq, Hid. fold w2.
    rewrite Hf2. reflexivity. }
  assert (Hd2 : coll w2 !! i = Some (set_freelist fl2 (set_freelist fl1 d))).
  { unfold w2. rewrite saved_coll. exact (updated_lookup _ i w1 _ Hd1 Hf1). }
  eexists. split; [exact Hset |]. cbn [coll journal written].
  assert (Hfinal : updated (fun _ => d2) (Some i) w2 !! i = Some d2)
    by exact (updated_lookup (fun _ => d2) i w2 _ Hd2 Hf2).
  split; [exact Hfinal |]. split.
  - unfold w2, w1. rewrite !saved_journal, <- !app_assoc. reflexivity.
  - set (w3 := written _ _ w2).
    destruct (get_known self i d2 w3 Hid Hfinal) as (_ & _ & -> & _). reflexivity.
Qed.

(** *** More on creating a network *)

(** [create] up to the call of set('ns_ip'): the record is inserted with
    the full free range and no name-server offset, and linked. *)
Lemma create_start (nm : string) (network prefix hostname ip : PyVal)
    (P n : Z) (w : World) :
  let net0 := mkNetDoc nm n prefix [mkRange 1 (2 ^ (32 - P) - 2)]
                       (if negb (truthy hostname) then guess_ns_hostname else hostname)
                       None None in
  let self := mkSelf (Some (next_oid w)) nm in
  let w2 := mkWorld (<[next_oid w := net0]> (coll w)) (S (next_oid w)) (tail (faults w))
                    (journal w ++ [WInsert net0]) (errlog w) (has_cluster w)
                    (linked w ++ [next_oid w]) in
  _check_name nm w = (Val tt, w) ->
  has_cluster w = true ->
  next_fault w = false ->
  get_num_subnet network prefix = Val n ->
  py_int prefix = Val P -> P <= 32 ->
  create nm network prefix hostname ip w
  = (ipv <- (match ip with
             | VNone => a <- lift (reltoa n (Some (2 ^ (32 - P) - 2))) ;; ret (VStr a)
             | _ => ret ip
             end) ;;
     set self (VStr "ns_ip") ipv ;; ret self) w2.
Proof.
  intros net0 self w2 Hname Hcl Hf Hn HP HP32.
  unfold create. unfold bind at 1. rewrite Hname.
  unfold bind at 1. unfold Cluster. rewrite Hcl.
  unfold bind at 1. unfold lift at 1. rewrite Hn.
  unfold bind at 1. unfold lift at 1. rewrite HP.
  unfold bind at 1. unfold lift at 1. rewrite py_lshift_1 by lia.
  unfold bind at 1. unfold insert_doc. rewrite Hf.
  unfold bind at 1. unfold link at 1. cbn [_id r_end].
  cbn [coll next_oid faults journal errlog has_cluster linked].
  reflexivity.
Qed.

(** X22: a create with an explicit name-server address reserves the offset of
    that address, not the highest one of the range. *)
Theorem create_explicit_ns_ip (nm : string) (network prefix hostname ip : PyVal)
    (P n rel : Z) (e : PyExc) (flist : list Range) (u : Unfreed) (w : World) :
  let full := [mkRange 1 (2 ^ (32 - P) - 2)] in
  let host := if negb (truthy hostname) then guess_ns_hostname else hostname in
  _check_name nm w = (Val tt, w) ->
  has_cluster w = true ->
  faults w = [] ->
  get_num_subnet network prefix = Val n ->
  py_int prefix = Val P -> P <= 32 ->
  ip <> VNone ->
  atorel ip n prefix = Val rel ->
  reltoa n None = Raise e ->
  (if rel =? 0 then next_free full else unfree_range full rel None) = Val (flist, u) ->
  exists w',
    create nm network prefix hostname ip w = (Val (mkSelf (Some (next_oid w)) nm), w')
    /\ coll w' !! next_oid w = Some (mkNetDoc nm n prefix flist host (Some rel) None)
    /\ journal w' = journal w
         ++ [WInsert (mkNetDoc nm n prefix full host None None);
             WSetFreelist (Some (next_oid w)) flist;
             WSetDoc (Some (next_oid w)) (mkNetDoc nm n prefix flist host (Some rel) None)].
Proof.
  intros full host Hname Hcl Hfaults Hn HP HP32 Hip Ha Hnone Hres.
  assert (Hf : next_fault w = false) by (unfold next_fault; now rewrite Hfaults).
  rewrite (create_start nm network prefix hostname ip P n w Hname Hcl Hf Hn HP HP32).
  fold host. fold full.
  set (net0 := mkNetDoc nm n prefix full host None None).
  set (self := mkSelf (Some (next_oid w)) nm).
  set (w2 := mkWorld _ _ _ _ _ _ _).
  assert (Hd2 : coll w2 !! next_oid w = Some net0) by apply lookup_insert_eq.
  assert (Hf2 : next_fault w2 = false).
  { unfold w2, next_fault. cbn. rewrite Hfaults. reflexivity. }
  assert (Hf3 : next_fault (saved (next_oid w) flist w2) = false).
  { unfold next_fault. rewrite saved_faults. unfold w2. cbn. rewrite Hfaults. reflexivity. }
  unfold bind at 1.
  replace ((match ip with
            | VNone => a <- lift (reltoa n (Some (2 ^ (32 - P) - 2))) ;; ret (VStr a)
            | _ => ret ip
            end) w2) with (Val ip, w2 : World) by (destruct ip; [contradiction | | ]; reflexivity).
  pose proof (set_ns_ip_first self (next_oid w) net0 ip rel e flist u w2
                eq_refl Hd2 Hnone Ha Hres) as Hset.
  cbv zeta in Hset. rewrite Hf2, Hf3 in Hset.
  unfold bind. rewrite Hset. eexists. split; [reflexivity |].
  cbn [coll journal written]. split.
  - assert (Hd3 : coll (saved (next_oid w) flist w2) !! next_oid w
                  = Some (set_freelist flist net0)).
    { rewrite saved_coll. exact (updated_lookup _ _ w2 net0 Hd2 Hf2). }
    exact (updated_lookup (fun _ => _) _ _ _ Hd3 Hf3).
  - rewrite saved_journal. unfold w2. cbn [journal]. rewrite <- !app_assoc. reflexivity.
Qed.

(** X23: when the explicit name-server address does not convert (it is outside
    the network, say), create raises after the record is inserted and
    linked: the record stays in the store with the full free range and no
    name-server offset. *)
Theorem create_bad_ns_ip_leaves_record (nm : string)
    (network prefix hostname ip : PyVal) (P n : Z) (e : PyExc) (w : World) :
  let full := [mkRange 1 (2 ^ (32 - P) - 2)] in
  let host := if negb (truthy hostname) then guess_ns_hostname else hostname in
  _check_name nm w = (Val tt, w) ->
  has_cluster w = true ->
  next_fault w = false ->
  get_num_subnet network prefix = Val n ->
  py_int prefix = Val P -> P <= 32 ->
  ip <> VNone ->
  atorel ip n prefix = Raise e ->
  exists w',
    create nm network prefix hostname ip w = (Raise e, w')
    /\ coll w' !! next_oid w = Some (mkNetDoc nm n prefix full host None None)
    /\ journal w' = journal w ++ [WInsert (mkNetDoc nm n prefix full host None None)]
    /\ linked w' = linked w ++ [next_oid w].
Proof.
  intros full host Hname Hcl Hf Hn HP HP32 Hip Ha.
  rewrite (create_start nm network prefix hostname ip P n w Hname Hcl Hf Hn HP HP32).
  fold host. fold full.
  set (net0 := mkNetDoc nm n prefix full host None None).
  set (self := mkSelf (Some (next_oid w)) nm).
  set (w2 := mkWorld _ _ _ _ _ _ _).
  assert (Hd2 : coll w2 !! next_oid w = Some net0) by apply lookup_insert_eq.
  unfold bind at 1.
  replace ((match ip with
            | VNone => a <- lift (reltoa n (Some (2 ^ (32 - P) - 2))) ;; ret (VStr a)
            | _ => ret ip
            end) w2) with (Val ip, w2 : World) by (destruct ip; [contradiction | | ]; reflexivity).
  unfold bind at 1. rewrite set_ns_ip_eq.
  unfold bind at 1. rewrite (_get_json_found self (next_oid w) net0 w2 eq_refl Hd2).
  unfold bind, lift. cbn [NETWORK PREFIX net0]. rewrite Ha.
  exists w2. repeat split. exact Hd2.
Qed.

(** X24: [create] does not look at what set('ns_ip') returns: when the store
    accepts the insert and the write of the reserved free list but rejects
    the last update, create returns the object as if nothing had happened,
    and the record has the highest offset taken from its free list and no
    name-server offset. *)
Theorem create_ignores_rejected_update (nm : string)
    (network prefix hostname : PyVal) (P n : Z) (a : string) (e : PyExc)
    (flist : list Range) (u : Unfreed) (rest : list bool) (w : World) :
  let last := 2 ^ (32 - P) - 2 in
  let host := if negb (truthy hostname) then guess_ns_hostname else hostname in
  _check_name nm w = (Val tt, w) ->
  has_cluster w = true ->
  faults w = false :: false :: true :: rest ->
  get_num_subnet network prefix = Val n ->
  py_int prefix = Val P -> P <= 32 ->
  reltoa n (Some last) = Val a ->
  atorel (VStr a) n prefix = Val last ->
  reltoa n None = Raise e ->
  (if last =? 0 then next_free [mkRange 1 last] else unfree_range [mkRange 1 last] last None)
    = Val (flist, u) ->
  exists w',
    create nm network prefix hostname VNone w = (Val (mkSelf (Some (next_oid w)) nm), w')
    /\ coll w' !! next_oid w = Some (mkNetDoc nm n prefix flist host None None).
Proof.
  intros last host Hname Hcl Hfaults Hn HP HP32 Ha Hrt Hnone Hres.
  assert (Hf : next_fault w = false) by (unfold next_fault; now rewrite Hfaults).
  rewrite (create_start nm network prefix hostname VNone P n w Hname Hcl Hf Hn HP HP32).
  fold host. fold last.
  set (net0 := mkNetDoc nm n prefix [mkRange 1 last] host None None).
  set (self := mkSelf (Some (next_oid w)) nm).
  set (w2 := mkWorld _ _ _ _ _ _ _).
  assert (Hd2 : coll w2 !! next_oid w = Some net0) by apply lookup_insert_eq.
  assert (Hf2 : next_fault w2 = false).
  { unfold w2, next_fault. cbn. rewrite Hfaults. reflexivity. }
  assert (Hf3 : next_fault (saved (next_oid w) flist w2) = true).
  { unfold next_fault. rewrite saved_faults. unfold w2. cbn. rewrite Hfaults. reflexivity. }
  unfold bind at 1. unfold bind at 1. unfold lift at 1. rewrite Ha. unfold ret at 1.
  pose proof (set_ns_ip_first self (next_oid w) net0 (VStr a) last e flist u w2
                eq_refl Hd2 Hnone Hrt Hres) as Hset.
  cbv zeta in Hset. rewrite Hf2, Hf3 in Hset.
  unfold bind. rewrite Hset. eexists. split; [reflexivity |].
  cbn [coll written]. rewrite updated_fault by exact Hf3.
  rewrite saved_coll. exact (updated_lookup _ _ w2 net0 Hd2 Hf2).
Qed.

(** *** More on resolving the used addresses *)

Lemma only_logs_ret {A} (a : A) : only_logs (ret a).
Proof. intros w. exists []. cbn. now rewrite logs_nil. Qed.

Lemma only_logs_lift {A} (r : Result A) : only_logs (lift r).
Proof. intros w. exists []. cbn. now rewrite logs_nil. Qed.

Lemma only_logs_log_error (m : LogMsg) : only_logs (log_error m).
Proof. intros w. exists [m]. reflexivity. Qed.

Lemma only_logs_bind {A B} (m : M A) (k : A -> M B) :
  only_logs m -> (forall a, only_logs (k a)) -> only_logs (bind m k).
Proof.
  intros Hm Hk w. destruct (Hm w) as [l1 H1]. unfold bind.
  destruct (m w) as [[a|e] w1]; cbn [snd] in H1; subst w1.
  - destruct (Hk a (logs l1 w)) as [l2 H2]. exists (l1 ++ l2).
    now rewrite H2, logs_logs.
  - now exists l1.
Qed.

Lemma only_logs_for_each {A B} (xs : list A) (body : B -> A -> M B) (acc : B) :
  (forall b x, only_logs (body b x)) -> only_logs (for_each xs body acc).
Proof.
  intros Hbody. revert acc. induction xs as [| x xs' IH]; intros acc.
  - apply only_logs_ret.
  - cbn [for_each]. apply only_logs_bind; [apply Hbody | intros a; apply IH].
Qed.

Lemma only_logs__get_json (self : Self) : only_logs (_get_json self).
Proof.
  intros w. exists []. rewrite logs_nil. apply _get_json_world.
Qed.

Lemma only_logs_add_to_out_dict (self : Self) (net : NetDoc)
    (out : gmap PyVal string) (nm : PyVal) (r : option Z) :
  only_logs (add_to_out_dict self net out nm r).
Proof.
  unfold add_to_out_dict. destruct (out !! nm).
  - apply only_logs_bind; [apply only_logs_log_error | intros; apply only_logs_ret].
  - apply only_logs_bind; [apply only_logs_lift | intros; apply only_logs_ret].
Qed.

(** X25: resolve_used_ips only reads: however it ends, and whatever the
    lookups return, the collection, the journal of writes and the rest of
    the world are as before, but for the duplicates and the missing links
    it adds to the error log. *)
Theorem resolve_used_ips_only_logs (self : Self) (w : World) :
  exists ms, snd (resolve_used_ips self w) = logs ms w.
Proof.
  revert w. change (only_logs (resolve_used_ips self)).
  unfold resolve_used_ips.
  apply only_logs_bind; [apply only_logs__get_json | intros net].
  destruct (usedby net) as [rev_links|].
  - apply only_logs_bind; [| intros; apply only_logs_add_to_out_dict].
    apply only_logs_for_each. intros out elem. unfold resolve_elem.
    apply only_logs_bind; [| intros out1; apply only_logs_bind; [| intros out2]].
    + destruct (String.eqb (fst elem) "group"); [| apply only_logs_ret].
      apply only_logs_for_each. intros o gid.
      apply only_logs_bind; [apply only_logs_lift | intros tmp].
      unfold add_all. apply only_logs_for_each. intros o' it.
      apply only_logs_add_to_out_dict.
    + destruct (String.eqb (fst elem) "switch"); [| apply only_logs_ret].
      apply only_logs_for_each. intros o sid.
      apply only_logs_bind; [apply only_logs_lift | intros sw].
      apply only_logs_add_to_out_dict.
    + destruct (String.eqb (fst elem) "otherdev"); [| apply only_logs_ret].
      apply only_logs_for_each. intros o oid.
      apply only_logs_bind; [apply only_logs_lift | intros od].
      apply only_logs_add_to_out_dict.
  - apply only_logs_bind; [apply only_logs_log_error | intros; apply only_logs_ret].
Qed.

(** X26: links of kinds other than group, switch and otherdev contribute
    nothing: their ids are not looked up, and with only such links the
    mapping has the name-server entry alone. *)
Theorem resolve_used_ips_other_kinds (self : Self) (i : nat) (d : NetDoc)
    (rev_links : RevLinks) (a : string) (w : World) :
  _id self = Some i -> coll w !! i = Some d ->
  usedby d = Some rev_links ->
  Forall (fun elem => fst elem <> "group" /\ fst elem <> "switch"
                      /\ fst elem <> "otherdev") rev_links ->
  reltoa (NETWORK d) (ns_ip d) = Val a ->
  resolve_used_ips self w = (Val {[ ns_hostname d := a ]}, w).
Proof.
  intros Hid Hd Hu Hall Ha. unfold resolve_used_ips.
  unfold bind at 1. rewrite (_get_json_found self i d w Hid Hd), Hu.
  unfold bind at 1. clear Hu.
  assert (Hloop : forall out, for_each rev_links (resolve_elem self d) out w = (Val out, w)).
  { induction Hall as [| [kind ids] rest (Hg & Hs & Ho) _ IH]; intros out; [reflexivity |].
    cbn [fst] in Hg, Hs, Ho. cbn [for_each]. unfold bind at 1.
    replace (resolve_elem self d out (kind, ids) w) with (Val out, w : World); [apply IH |].
    symmetry. unfold resolve_elem. cbn [fst snd].
    apply String.eqb_neq in Hg, Hs, Ho. rewrite Hg, Hs, Ho. reflexivity. }
  rewrite Hloop. unfold add_to_out_dict. rewrite lookup_empty.
  unfold bind, lift, ret. rewrite Ha. reflexivity.
Qed.

(** resolve_used_ips when every lookup and conversion succeeds. *)
Lemma resolve_used_ips_run (self : Self) (i : nat) (d : NetDoc)
    (rev_links : RevLinks) (items : list (PyVal * option Z))
    (ab : option Z -> string) (w : World) :
  _id self = Some i -> coll w !! i = Some d ->
  usedby d = Some rev_links ->
  collect (elem_claims self) rev_links = Val items ->
  converts d ab (items ++ [(ns_hostname d, ns_ip d)]) ->
  resolve_used_ips self w
  = (Val (fst (first_wins ab (items ++ [(ns_hostname d, ns_ip d)]) ∅)),
     logs (map (duplicate_msg self)
               (snd (first_wins ab (items ++ [(ns_hostname d, ns_ip d)]) ∅))) w).
Proof.
  intros Hid Hd Hu Hcol Hc.
  apply converts_app in Hc as [Hitems Hns].
  unfold resolve_used_ips.
  unfold bind at 1. rewrite (_get_json_found self i d w Hid Hd), Hu.
  unfold bind.
  rewrite (for_each_collect self d ab (elem_claims self) (resolve_elem self d)
             rev_links items); auto.
  - unfold after at 1.
    rewrite (one_after self d ab (ns_hostname d, ns_ip d)) by exact Hns.
    rewrite <- after_app. reflexivity.
  - intros x l o w0 Hx Hl. now apply resolve_elem_after.
Qed.

Lemma first_wins_count (ab : option Z -> string) (items : list (PyVal * option Z))
    (out : gmap PyVal string) :
  (size (fst (first_wins ab items out)) + length (snd (first_wins ab items out))
   = size out + length items)%nat.
Proof.
  revert out. induction items as [| [k r] rest IH]; intros out.
  - cbn. lia.
  - cbn [first_wins fst snd]. destruct (out !! k) eqn:Hk.
    + cbn [fst snd length]. specialize (IH out). lia.
    + rewrite IH, map_size_insert_None by assumption. cbn [length]. lia.
Qed.

(** X27: no entry is lost silently: every name that is looked up, and the
    name-server host name, is a key of the mapping, and the entries of
    the mapping and the duplicates logged together are as many as the
    entries made. *)
Theorem resolve_used_ips_accounts (self : Self) (i : nat) (d : NetDoc)
    (rev_links : RevLinks) (items : list (PyVal * option Z))
    (ab : option Z -> string) (w : World) :
  _id self = Some i -> coll w !! i = Some d ->
  usedby d = Some rev_links ->
  collect (elem_claims self) rev_links = Val items ->
  converts d ab (items ++ [(ns_hostname d, ns_ip d)]) ->
  exists out dups,
    resolve_used_ips self w = (Val out, logs (map (duplicate_msg self) dups) w)
    /\ (size out + length dups = S (length items))%nat
    /\ (forall it, In it (items ++ [(ns_hostname d, ns_ip d)]) -> is_Some (out !! fst it)).
Proof.
  intros Hid Hd Hu Hcol Hc.
  do 2 eexists. split; [exact (resolve_used_ips_run self i d rev_links items ab w
                                 Hid Hd Hu Hcol Hc) |].
  split.
  - rewrite first_wins_count, map_size_empty, length_app. cbn. lia.
  - intros [k r] Hin. rewrite first_wins_lookup, lookup_empty. cbn [fst].
    unfold first_claim.
    destruct (find (fun it => bool_decide (fst it = k))
                   (items ++ [(ns_hostname d, ns_ip d)])) eqn:Hf; [cbn; eauto |].
    exfalso. apply (find_none _ _ Hf) in Hin. cbn in Hin.
    now rewrite bool_decide_eq_true_2 in Hin.
Qed.

(** X28: when an entity already goes by the host name of the name server, the
    name server itself is not in the mapping: the name maps to the
    entity's address, and the name server's entry is the last duplicate
    logged. *)
Theorem resolve_used_ips_name_server_shadowed (self : Self) (i : nat) (d : NetDoc)
    (rev_links : RevLinks) (items : list (PyVal * option Z))
    (ab : option Z -> string) (r : option Z) (w : World) :
  _id self = Some i -> coll w !! i = Some d ->
  usedby d = Some rev_links ->
  collect (elem_claims self) rev_links = Val items ->
  converts d ab (items ++ [(ns_hostname d, ns_ip d)]) ->
  first_claim (ns_hostname d) items = Some r ->
  exists out dups,
    resolve_used_ips self w
    = (Val out, logs (map (duplicate_msg self) (dups ++ [ns_hostname d])) w)
    /\ out !! ns_hostname d = Some (ab r).
Proof.
  intros Hid Hd Hu Hcol Hc Hfirst.
  rewrite (resolve_used_ips_run self i d rev_links items ab w Hid Hd Hu Hcol Hc).
  rewrite first_wins_app. cbn [fst snd].
  assert (Hk : fst (first_wins ab items ∅) !! ns_hostname d = Some (ab r)).
  { rewrite first_wins_lookup, lookup_empty, Hfirst. reflexivity. }
  cbn [first_wins fst snd]. rewrite Hk. cbn [fst snd].
  do 2 eexists. split; [reflexivity | exact Hk].
Qed.

(** *** The writes of [set], one by one *)

Lemma next_fault_nth (w : World) : next_fault w = nth 0 (faults w) false.
Proof. unfold next_fault. destruct (faults w); reflexivity. Qed.

Lemma nth_tail (k : nat) (l : list bool) : nth k (tail l) false = nth (S k) l false.
Proof. destruct l; [destruct k |]; reflexivity. Qed.

Lemma saved_doc (i : nat) (flist : list Range) (d : NetDoc) (w : World) :
  coll w !! i = Some d ->
  coll (saved i flist w) !! i
  = Some (if nth 0 (faults w) false then d
          else mkNetDoc (name d) (NETWORK d) (PREFIX d) flist (ns_hostname d)
                        (ns_ip d) (usedby d)).
Proof.
  intros Hd. rewrite saved_coll, <- next_fault_nth.
  destruct (next_fault w) eqn:Hf.
  - now rewrite updated_fault.
  - exact (updated_lookup (set_freelist flist) i w d Hd Hf).
Qed.

(** What a [release_ip] of one string address that returns has done. *)
Lemma release_ip_returned (self : Self) (i : nat) (d : NetDoc) (a : string)
    (r : option bool) (w w1 : World) :
  _id self = Some i -> coll w !! i = Some d ->
  release_ip self (VStr a) VNone w = (Val r, w1) ->
  exists old fl0 f,
    atorel (VStr a) (NETWORK d) (PREFIX d) = Val old
    /\ free_range (freelist d) (Some old) None = Val (fl0, f)
    /\ w1 = saved i fl0 w.
Proof.
  intros Hid Hd. unfold release_ip.
  unfold bind at 1. rewrite (_get_json_found self i d w Hid Hd).
  unfold bind at 1. unfold lift at 1. cbn [rel_of_arg].
  destruct (atorel (VStr a) (NETWORK d) (PREFIX d)) as [old|e]; [| discriminate].
  cbn [result_map]. unfold bind at 1. unfold lift at 1. cbn [wrong_range].
  unfold bind at 1. unfold lift at 1.
  destruct (free_range (freelist d) (Some old) None) as [[fl0 f]|e] eqn:Hfree;
    [| discriminate].
  cbn [fst]. unfold bind. rewrite (_save_free_list_eq self i fl0 w Hid).
  intros H. inversion H. exists old, fl0, f. auto.
Qed.

(** What a [reserve_ip] of one offset that returns has done. *)
Lemma reserve_ip_returned (self : Self) (i : nat) (d : NetDoc) (rel : Z)
    (r : option Unfreed) (w w1 : World) :
  _id self = Some i -> coll w !! i = Some d ->
  reserve_ip self (VInt rel) VNone true w = (Val r, w1) ->
  exists flist u,
    (if rel =? 0 then next_free (freelist d) else unfree_range (freelist d) rel None)
      = Val (flist, u)
    /\ w1 = saved i flist w.
Proof.
  intros Hid Hd.
  rewrite (reserve_ip_conv self i d (VInt rel) VNone (Some rel) None true w
             Hid Hd eq_refl eq_refl).
  cbn [wrong_range truthy_num]. simpl (default 0 (Some rel)).
  unfold bind at 1. unfold lift. destruct (rel =? 0); cbn [negb].
  - destruct (next_free (freelist d)) as [[flist u]|e]; [| discriminate].
    cbn [fst snd]. unfold bind. rewrite (_save_free_list_eq self i flist w Hid).
    intros H. inversion H. exists flist, u. auto.
  - destruct (unfree_range (freelist d) rel None) as [[flist u]|e]; [| discriminate].
    cbn [fst snd]. unfold bind. rewrite (_save_free_list_eq self i flist w Hid).
    intros H. inversion H. exists flist, u. auto.
Qed.

(** C1 (as amended): a set of NETWORK, PREFIX or ns_hostname that reaches
    the store issues exactly one update, of the whole record, and when
    the store rejects it the collection is left as it was.  A set of
    ns_ip issues separate writes, each with the store's own verdict:
    first, exactly when the stored name-server offset converts back to a
    (non-empty) address, the write of the free list that free_range gives
    for that address; then the write of the free list that the
    reservation of the new offset gives on the list then stored; then the
    update of the whole record, read back after these writes, with the new
    offset.  What set returns is the verdict on that last update alone;
    when it is rejected the record keeps what the free-list writes
    stored.  No other record changes. *)
Theorem set_write_count (self : Self) (key value : PyVal) (b : bool) (w w' : World) :
  set self key value w = (Val (Some b), w') ->
  (key_is key "ns_ip" = false ->
     exists net,
       journal w' = journal w ++ [WSetDoc (_id self) net]
       /\ (b = true -> forall i d, _id self = Some i -> coll w !! i = Some d ->
                       coll w' !! i = Some net)
       /\ (b = false -> coll w' = coll w))
  /\ (key_is key "ns_ip" = true ->
     exists i d rel pre d1 flist u d2,
       _id self = Some i /\ coll w !! i = Some d
       /\ atorel value (NETWORK d) (PREFIX d) = Val rel
       (* the release of the stored address *)
       /\ (forall a, reltoa (NETWORK d) (ns_ip d) = Val a -> a <> EmptyString ->
           exists old fl0 f,
             atorel (VStr a) (NETWORK d) (PREFIX d) = Val old
             /\ free_range (freelist d) (Some old) None = Val (fl0, f)
             /\ pre = [WSetFreelist (Some i) fl0]
             /\ d1 = if nth 0 (faults w) false then d
                     else mkNetDoc (name d) (NETWORK d) (PREFIX d) fl0 (ns_hostname d)
                                   (ns_ip d) (usedby d))
       /\ ((forall a, reltoa (NETWORK d) (ns_ip d) = Val a -> a = EmptyString) ->
           pre = [] /\ d1 = d)
       (* the reservation of the new offset *)
       /\ (if rel =? 0 then next_free (freelist d1) else unfree_range (freelist d1) rel None)
          = Val (flist, u)
       /\ d2 = (if nth (length pre) (faults w) false then d1
                else mkNetDoc (name d1) (NETWORK d1) (PREFIX d1) flist (ns_hostname d1)
                              (ns_ip d1) (usedby d1))
       (* the update of the record *)
       /\ journal w' = journal w ++ pre
            ++ [WSetFreelist (Some i) flist;
                WSetDoc (Some i) (mkNetDoc (name d2) (NETWORK d2) (PREFIX d2) (freelist d2)
                                           (ns_hostname d2) (Some rel) (usedby d2))]
       /\ b = negb (nth (S (length pre)) (faults w) false)
       /\ coll w' !! i
          = Some (if nth (S (length pre)) (faults w) false then d2
                  else mkNetDoc (name d2) (NETWORK d2) (PREFIX d2) (freelist d2)
                                (ns_hostname d2) (Some rel) (usedby d2))
       /\ (forall j, j <> i -> coll w' !! j = coll w !! j)).
Proof.
  intros Hset. split; intros Hk.
  - destruct (set_other_one_write self key value b w w' Hk Hset)
      as (net & Hj & Hb & Hc).
    exists net. split; [exact Hj |]. split.
    + intros -> i d Hid Hd. rewrite Hc, Hid.
      apply (updated_lookup (fun _ => net) i w d Hd).
      now destruct (next_fault w).
    + intros ->. rewrite Hc. apply updated_fault. now destruct (next_fault w).
  - destruct key as [| z | k]; try discriminate.
    cbn [key_is] in Hk. apply String.eqb_eq in Hk. subst k.
    revert Hset. rewrite set_ns_ip_eq. unfold bind at 1.
    destruct (_get_json self w) as [[d|e] w0] eqn:Hg; [| discriminate].
    apply _get_json_inv in Hg as [-> (i & Hid & Hd)].
    unfold bind at 1. unfold bind at 1. unfold lift at 1.
    destruct (atorel value (NETWORK d) (PREFIX d)) as [rel|e] eqn:Ha; [| discriminate].
    unfold bind at 1. unfold catch.
    destruct (get_known self i d w Hid Hd) as (_ & _ & -> & _).
    (* the world and the record after the release step *)
    assert (Hstep : forall old_ip : PyVal,
              (truthy old_ip = true ->
               exists a, old_ip = VStr a /\ reltoa (NETWORK d) (ns_ip d) = Val a
                         /\ a <> EmptyString) ->
              (truthy old_ip = false ->
               forall a, reltoa (NETWORK d) (ns_ip d) = Val a -> a = EmptyString) ->
              forall w1,
                (if truthy old_ip then release_ip self old_ip VNone;; ret tt else ret tt) w
                = (Val tt, w1) ->
                exists pre d1,
                  journal w1 = journal w ++ pre
                  /\ faults w1 = drop (length pre) (faults w)
                  /\ coll w1 !! i = Some d1
                  /\ (forall j, j <> i -> coll w1 !! j = coll w !! j)
                  /\ (forall a, reltoa (NETWORK d) (ns_ip d) = Val a -> a <> EmptyString ->
                      exists old fl0 f,
                        atorel (VStr a) (NETWORK d) (PREFIX d) = Val old
                        /\ free_range (freelist d) (Some old) None = Val (fl0, f)
                        /\ pre = [WSetFreelist (Some i) fl0]
                        /\ d1 = if nth 0 (faults w) false then d
                                else mkNetDoc (name d) (NETWORK d) (PREFIX d) fl0
                                              (ns_hostname d) (ns_ip d) (usedby d))
                  /\ ((forall a, reltoa (NETWORK d) (ns_ip d) = Val a -> a = EmptyString) ->
                      pre = [] /\ d1 = d)).
    { intros old_ip Ht Hfalse w1. destruct (truthy old_ip) eqn:Htr.
      - destruct (Ht eq_refl) as (a & -> & Hold & Hne).
        unfold bind at 1.
        destruct (release_ip self (VStr a) VNone w) as [[r|e] w2] eqn:Hr; [| discriminate].
        destruct (release_ip_returned self i d a r w w2 Hid Hd Hr)
          as (old & fl0 & f & Hback & Hfree & ->).
        unfold ret. intros H. inversion H. subst w1.
        exists [WSetFreelist (Some i) fl0], (if nth 0 (faults w) false then d
                else mkNetDoc (name d) (NETWORK d) (PREFIX d) fl0 (ns_hostname d)
                              (ns_ip d) (usedby d)).
        split; [apply saved_journal |].
        split; [rewrite saved_faults; now destruct (faults w) |].
        split; [now apply saved_doc |].
        split; [intros j Hj; now apply saved_other |].
        split.
        + intros a' Ha' _. rewrite Hold in Ha'. inversion Ha'. subst a'.
          exists old, fl0, f. auto.
        + intros Hall. exfalso. apply Hne. now apply Hall.
      - unfold ret. intros H. inversion H. subst w1.
        exists [], d. rewrite app_nil_r.
        split; [reflexivity |]. split; [reflexivity |]. split; [exact Hd |].
        split; [reflexivity |]. split.
        + intros a' Ha' Hne'. exfalso. apply Hne'. now apply (Hfalse eq_refl).
        + auto. }
    destruct (reltoa (NETWORK d) (ns_ip d)) as [a|e] eqn:Hold; cbn [result_map].
    + unfold bind at 1.
      destruct ((if truthy (VStr a) then release_ip self (VStr a) VNone;; ret tt else ret tt) w)
        as [[[]|e] w1] eqn:Hrel; [| discriminate].
      destruct (Hstep (VStr a)) with (w1 := w1) as (pre & d1 & Hj1 & Hfa1 & Hd1 & Hoth1 & Hyes & Hno).
      * intros Ht. exists a. split; [reflexivity |]. split; [reflexivity |].
        intros ->. discriminate Ht.
      * intros Ht a' Ha'. inversion Ha'. subst a'.
        cbn [truthy] in Ht. destruct a; [reflexivity | discriminate Ht].
      * exact Hrel.
      * clear Hstep Hrel.
        unfold bind at 1.
        destruct (reserve_ip self (VInt rel) VNone true w1) as [[r|e] w2] eqn:Hres;
          [| discriminate].
        destruct (reserve_ip_returned self i d1 rel r w1 w2 Hid Hd1 Hres)
          as (flist & u & Hhelp & ->).
        pose proof (saved_doc i flist d1 w1 Hd1) as Hd2.
        unfold bind at 1.
        rewrite (_get_json_found self i _ _ Hid Hd2).
        unfold ret at 1. unfold bind, ret. rewrite update_doc_eq, Hid.
        intros H. inversion H. subst b w'. clear H.
        exists i, d, rel, pre, d1, flist, u,
          (if nth 0 (faults w1) false then d1
           else mkNetDoc (name d1) (NETWORK d1) (PREFIX d1) flist (ns_hostname d1)
                         (ns_ip d1) (usedby d1)).
        assert (Hn0 : nth 0 (faults w1) false = nth (length pre) (faults w) false).
        { rewrite Hfa1, nth_skipn. now rewrite Nat.add_0_r. }
        assert (Hn1 : next_fault (saved i flist w1) = nth (S (length pre)) (faults w) false).
        { rewrite next_fault_nth, saved_faults, nth_tail, Hfa1, nth_skipn.
          now rewrite Nat.add_1_r. }
        rewrite Hn1. rewrite Hn0 in *. rewrite ?Hold.
        split; [first [exact Hid | reflexivity] |]. split; [exact Hd |].
        split; [first [exact Ha | reflexivity] |].
        split; [exact Hyes |]. split; [exact Hno |]. split; [exact Hhelp |].
        split; [reflexivity |].
        cbn [journal coll written].
        split; [rewrite saved_journal, Hj1, <- !app_assoc; reflexivity |].
        split; [reflexivity |]. split.
        -- unfold updated. rewrite Hn1.
           destruct (nth (S (length pre)) (faults w) false); [exact Hd2 |].
           rewrite lookup_alter_eq, Hd2. reflexivity.
        -- intros j Hj. unfold updated. rewrite Hn1.
           destruct (nth (S (length pre)) (faults w) false).
           ++ rewrite saved_other by assumption. now apply Hoth1.
           ++ rewrite lookup_alter_ne by congruence.
              rewrite saved_other by assumption. now apply Hoth1.
    + unfold ret at 1. cbn [truthy]. unfold bind at 1. unfold ret at 1.
      clear Hstep.
      unfold bind at 1.
      destruct (reserve_ip self (VInt rel) VNone true w) as [[r|e'] w2] eqn:Hres;
        [| discriminate].
      destruct (reserve_ip_returned self i d rel r w w2 Hid Hd Hres)
        as (flist & u & Hhelp & ->).
      pose proof (saved_doc i flist d w Hd) as Hd2.
      unfold bind at 1.
      rewrite (_get_json_found self i _ _ Hid Hd2).
      unfold ret at 1. unfold bind, ret. rewrite update_doc_eq, Hid.
      intros H. inversion H. subst b w'. clear H.
      exists i, d, rel, [], d, flist, u,
        (if nth 0 (faults w) false then d
         else mkNetDoc (name d) (NETWORK d) (PREFIX d) flist (ns_hostname d)
                       (ns_ip d) (usedby d)).
      assert (Hn1 : next_fault (saved i flist w) = nth 1 (faults w) false).
      { now rewrite next_fault_nth, saved_faults, nth_tail. }
      rewrite Hn1. cbn [length]. rewrite ?Hold.
      split; [first [exact Hid | reflexivity] |]. split; [exact Hd |].
      split; [first [exact Ha | reflexivity] |].
      split; [intros a' Ha'; discriminate Ha' |].
      split; [auto |]. split; [exact Hhelp |]. split; [reflexivity |].
      cbn [journal coll written].
      split; [rewrite saved_journal, <- !app_assoc; reflexivity |].
      split; [reflexivity |]. split.
      * unfold updated. rewrite Hn1.
        destruct (nth 1 (faults w) false); [exact Hd2 |].
        rewrite lookup_alter_eq, Hd2. reflexivity.
      * intros j Hj. unfold updated. rewrite Hn1.
        destruct (nth 1 (faults w) false).
        -- now apply saved_other.
        -- rewrite lookup_alter_ne by congruence. now apply saved_other.
Qed.

End MoreProperties.

(** ** The scenarios of the specification, run on the helpers above *)

Module Scenarios.
Import SpecModel Scenario.

(** *** create *)

(** C2 at create("cluster0", "10.0.0.0", 24): the record is inserted with
    the free range [1, 254]; the name server gets offset 254, which is
    10.0.0.254. *)
Lemma create_cluster0 :
  exists w',
    create (IP:=ip) (FL:=fl) (EN:=en)
           "cluster0" (VStr "10.0.0.0") (VInt 24) VNone VNone (world0 [])
    = (Val cluster0, w')
    /\ journal w'
       = [WInsert (mkNetDoc "cluster0" base (VInt 24) [mkRange 1 254]
                                  (VStr "controller") None None);
                WSetFreelist (Some 0%nat) [mkRange 1 253];
                WSetDoc (Some 0%nat) (doc [mkRange 1 253] None)]
    /\ coll w' !! 0%nat = Some (doc [mkRange 1 253] None)
    /\ get (IP:=ip) (EN:=en) cluster0 (VStr "ns_ip") w'
       = (Val (VStr "10.0.0.254"), w').
Proof.
  apply (create_default_ns_ip (IP:=ip) (FL:=fl) (EN:=en)
           "cluster0" (VStr "10.0.0.0") (VInt 24) VNone 24 base "10.0.0.254"
           TypeError [mkRange 1 253] (FullyReserved true) (world0 []));
    first [reflexivity | lia].
Defined.

(** The scenario of the specification continued: reserving 10.0.0.10 to
    10.0.0.20 leaves [1, 9] and [21, 253], and releasing the same range
    restores [1, 253]. *)
Example reserve_release_cluster0 :
  exists w1 w2,
    reserve_ip (IP:=ip) (FL:=fl) cluster0 (VStr "10.0.0.10") (VStr "10.0.0.20") true
               (world1 [] None)
    = (Val (Some (FullyReserved true)), w1)
    /\ coll w1 !! 0%nat = Some (doc [mkRange 1 9; mkRange 21 253] None)
    /\ release_ip (IP:=ip) (FL:=fl) cluster0 (VStr "10.0.0.10") (VStr "10.0.0.20") w1
       = (Val (Some true), w2)
    /\ coll w2 !! 0%nat = Some (doc [mkRange 1 253] None).
Proof. do 2 eexists. repeat split; vm_compute; reflexivity. Qed.

(** *** set *)

(** C4 at set('PREFIX', 25) on 10.0.0.0/24 with the free range [1, 253]:
    the limit is 127 and the free list becomes [1, 127]. *)
Lemma set_PREFIX_25 :
  exists w',
    set (IP:=ip) (FL:=fl) (EN:=en) cluster0 (VStr "PREFIX") (VInt 25) (world1 [] None)
    = (Val (Some true), w')
    /\ coll w' !! 0%nat
       = Some (mkNetDoc "cluster0" base (VInt 25) [mkRange 1 127]
                        (VStr "controller") (Some 254) None)
    /\ journal w'
       = [WSetDoc (Some 0%nat)
                  (mkNetDoc "cluster0" base (VInt 25) [mkRange 1 127]
                            (VStr "controller") (Some 254) None)].
Proof.
  apply (set_PREFIX_spec (IP:=ip) (FL:=fl) (EN:=en) cluster0 0%nat
           (doc [mkRange 1 253] None) 25 base [mkRange 1 127] (world1 [] None));
    first [reflexivity | lia].
Defined.

(** C8 at set('NETWORK', "10.1.0.77") on 10.0.0.0/24: the base becomes
    10.1.0.0 (167837696) and the free list stays [1, 253]. *)
Lemma set_NETWORK_10_1 :
  exists w',
    set (IP:=ip) (FL:=fl) (EN:=en) cluster0 (VStr "NETWORK") (VStr "10.1.0.77")
        (world1 [] None)
    = (Val (Some (negb (next_fault (world1 [] None)))), w')
    /\ journal w'
       = [WSetDoc (Some 0%nat)
            (mkNetDoc "cluster0" 167837696 (VInt 24) [mkRange 1 253]
                      (VStr "controller") (Some 254) None)]
    /\ (next_fault (world1 [] None) = false ->
        coll w' !! 0%nat
        = Some (mkNetDoc "cluster0" 167837696 (VInt 24) [mkRange 1 253]
                         (VStr "controller") (Some 254) None))
    /\ (next_fault (world1 [] None) = true -> coll w' = coll (world1 [] None))
    /\ (forall j, freelist <$> (coll w' !! j)
                  = freelist <$> (coll (world1 [] None) !! j)).
Proof.
  apply (set_NETWORK_spec (IP:=ip) (FL:=fl) (EN:=en) cluster0 0%nat
           (doc [mkRange 1 253] None) (VStr "10.1.0.77") 167837696 (world1 [] None));
    reflexivity.
Defined.

(** *** get *)

(** C6 at prefix 24: the netmask is 255.255.255.0. *)
Lemma get_NETMASK_24 :
  get (IP:=ip) (EN:=en) cluster0 (VStr "NETMASK") (world1 [] None)
  = (Val (VStr "255.255.255.0"), world1 [] None).
Proof.
  destruct (get_NETMASK_spec (IP:=ip) (EN:=en) cluster0 0%nat
              (doc [mkRange 1 253] None) (world1 [] None) 24
              eq_refl eq_refl eq_refl ltac:(lia)) as [H _].
  exact H.
Defined.

(** *** reserve_ip, release_ip *)

(** At reserve_ip("10.0.0.0"): the network address converts to offset 0;
    with ignore_errors the lowest free offset, 1, is allocated, and
    without it the unbound [flist] is reached. *)
Lemma reserve_ip_network_address :
  reserve_ip (IP:=ip) (FL:=fl) cluster0 (VStr "10.0.0.0") VNone true (world1 [] None)
  = (Val (Some (Offset (Some 1))), saved 0%nat [mkRange 2 253] (world1 [] None))
  /\ reserve_ip (IP:=ip) (FL:=fl) cluster0 (VStr "10.0.0.0") VNone false (world1 [] None)
     = (Raise (UnboundLocalError "flist"), world1 [] None).
Proof.
  destruct (reserve_ip_offset_zero (IP:=ip) (FL:=fl) cluster0 0%nat
              (doc [mkRange 1 253] None) (VStr "10.0.0.0") VNone None (world1 [] None)
              eq_refl eq_refl eq_refl eq_refl ltac:(discriminate))
    as (_ & Hfalse & _ & Htrue).
  split; [| exact Hfalse].
  apply (Htrue [mkRange 2 253] (Offset (Some 1))). reflexivity.
Defined.

(** C9 (as amended): when the first address is, or converts to, offset 0
    (and the second, if given, is an offset), the truthiness test treats
    it as absent and reserve_ip does what it does without a first
    address.  Without ignore_errors the unbound [flist] is reached and
    nothing is saved.  With ignore_errors, the free-list helpers being
    those of the specification and the free list being in order, the
    lowest free offset is allocated: it is returned, it is free before and
    not after, no free offset is below it; it is offset 0 exactly when
    offset 0 is itself free, so never while the free list lies above
    offset 0; with nothing free, nothing is allocated. *)
Theorem reserve_ip_first_offset_zero (IP : IpUtils) (self : Self) (i : nat)
    (d : NetDoc) (ip1 ip2 : PyVal) (r2 : option Z) (lo : Z) (w : World) :
  _id self = Some i -> coll w !! i = Some d ->
  rel_of_arg ip1 d = Val (Some 0) ->
  rel_of_arg ip2 d = Val r2 -> (forall z, r2 = Some z -> 0 <= z) ->
  ascending lo (freelist d) ->
  (forall ie, reserve_ip (FL:=fl) self ip1 ip2 ie w
              = reserve_ip (FL:=fl) self VNone ip2 ie w)
  /\ reserve_ip (FL:=fl) self ip1 ip2 false w = (Raise (UnboundLocalError "flist"), w)
  /\ exists o free,
       reserve_ip (FL:=fl) self ip1 ip2 true w = (Val (Some (Offset o)), saved i free w)
       /\ match o with
          | Some z =>
              is_free z (freelist d)
              /\ (forall z', is_free z' (freelist d) -> z <= z')
              /\ ~ is_free z free
              /\ (0 <= lo -> (z = 0 <-> is_free 0 (freelist d)))
              /\ (1 <= lo -> z <> 0)
          | None => freelist d = [] /\ free = []
          end.
Proof.
  intros Hid Hd H1 H2 Hpos Hasc.
  pose proof (wrong_range_first_zero r2 Hpos) as Hr0.
  pose proof (wrong_range_first_None r2) as HrN.
  assert (Hgen : forall ie, reserve_ip (FL:=fl) self ip1 ip2 ie w
            = (p <- (if ie then lift (next_free (freelist d))
                     else raise (UnboundLocalError "flist")) ;;
               _save_free_list self (fst p) ;;
               ret (Some (snd p))) w).
  { intros ie.
    rewrite (reserve_ip_conv self i d ip1 ip2 (Some 0) r2 ie w Hid Hd H1 H2), Hr0.
    reflexivity. }
  split; [| split].
  - intros ie. rewrite Hgen.
    rewrite (reserve_ip_conv self i d VNone ip2 None r2 ie w Hid Hd eq_refl H2), HrN.
    reflexivity.
  - rewrite Hgen. reflexivity.
  - exists (snd (reserveNext (freelist d))), (fst (reserveNext (freelist d))).
    split.
    + rewrite Hgen. unfold bind at 1. unfold lift at 1.
      unfold next_free. cbn [fst snd]. unfold bind.
      rewrite (_save_free_list_eq self i _ w Hid). reflexivity.
    + pose proof (SpecModelFacts.reserveNext_lowest lo (freelist d) Hasc) as Hlow.
      pose proof (SpecModelFacts.reserveNext_removes lo) as Hrem.
      specialize (fun z => Hrem z (freelist d) Hasc).
      destruct (snd (reserveNext (freelist d))) as [z|].
      * destruct Hlow as [Hfree Hmin].
        pose proof (SpecModelFacts.ascending_lower_bound lo z (freelist d) Hasc Hfree) as Hlo.
        split; [exact Hfree |]. split; [exact Hmin |]. split; [exact (Hrem z eq_refl) |].
        split.
        -- intros Hlo0. split; [intros ->; exact Hfree |].
           intros H0. specialize (Hmin 0 H0). lia.
        -- intros Hlo1. lia.
      * split; [exact Hlow |]. rewrite Hlow. reflexivity.
Qed.

(** C9 as stated fails where offset 0 is free: after release_ip("10.0.0.0")
    the free list of the scenario network is [0, 253], and
    reserve_ip("10.0.0.0") then allocates offset 0 itself. *)
Lemma offset_zero_reserved_after_release :
  exists w1 w2,
    release_ip (IP:=ip) (FL:=fl) cluster0 (VStr "10.0.0.0") VNone (world1 [] None)
    = (Val (Some true), w1)
    /\ freelist <$> coll w1 !! 0%nat = Some [mkRange 0 253]
    /\ reserve_ip (IP:=ip) (FL:=fl) cluster0 (VStr "10.0.0.0") VNone true w1
       = (Val (Some (Offset (Some 0))), w2)
    /\ freelist <$> coll w2 !! 0%nat = Some [mkRange 1 253].
Proof. do 2 eexists. repeat split; vm_compute; reflexivity. Qed.

(** C9 as amended, at reserve_ip("10.0.0.0") on the free list [1, 253]:
    offset 1 is allocated. *)
Lemma reserve_ip_network_address_lowest :
  (forall ie, reserve_ip (IP:=ip) (FL:=fl) cluster0 (VStr "10.0.0.0") VNone ie (world1 [] None)
              = reserve_ip (IP:=ip) (FL:=fl) cluster0 VNone VNone ie (world1 [] None))
  /\ reserve_ip (IP:=ip) (FL:=fl) cluster0 (VStr "10.0.0.0") VNone false (world1 [] None)
     = (Raise (UnboundLocalError "flist"), world1 [] None)
  /\ exists o free,
       reserve_ip (IP:=ip) (FL:=fl) cluster0 (VStr "10.0.0.0") VNone true (world1 [] None)
       = (Val (Some (Offset o)), saved 0%nat free (world1 [] None))
       /\ match o with
          | Some z =>
              is_free z [mkRange 1 253]
              /\ (forall z', is_free z' [mkRange 1 253] -> z <= z')
              /\ ~ is_free z free
              /\ (0 <= 1 -> (z = 0 <-> is_free 0 [mkRange 1 253]))
              /\ (1 <= 1 -> z <> 0)
          | None => [mkRange 1 253] = [] /\ free = []
          end.
Proof.
  apply (reserve_ip_first_offset_zero ip cluster0 0%nat (doc [mkRange 1 253] None)
           (VStr "10.0.0.0") VNone None 1 (world1 [] None)
           eq_refl eq_refl eq_refl eq_refl).
  - discriminate.
  - cbn. lia.
Defined.

(** C10 at release_ip("10.0.0.254") with a store that rejects the write:
    the result is True, the error is logged, the record is as before. *)
Lemma release_ip_rejected_write :
  release_ip (IP:=ip) (FL:=fl) cluster0 (VStr "10.0.0.254") VNone (world1 [true] None)
  = (Val (Some true), saved 0%nat [mkRange 1 254] (world1 [true] None))
  /\ (next_fault (world1 [true] None) = true ->
      coll (saved 0%nat [mkRange 1 254] (world1 [true] None)) = coll (world1 [true] None)
      /\ errlog (saved 0%nat [mkRange 1 254] (world1 [true] None))
         = errlog (world1 [true] None) ++ [ErrUpdatingFreelist [mkRange 1 254]]).
Proof.
  apply (release_ip_returns_True (IP:=ip) (FL:=fl) cluster0 0%nat
           (doc [mkRange 1 253] None) (VStr "10.0.0.254") VNone (Some 254) None
           [mkRange 1 254] 1 (world1 [true] None));
    reflexivity.
Defined.

(** C5, where the code departs from it: the second address 10.0.0.0
    converts to offset 0, which is no greater than the first offset 5;
    the range test does not fire (no error is logged), offset 5 is taken
    from the free list and the list is saved.  Likewise release_ip frees
    offset 5 of [1, 4], [6, 253]; and with both addresses 10.0.0.0 the
    lowest free offset is allocated. *)
Theorem reserve_ip_second_offset_zero :
  reserve_ip (IP:=ip) (FL:=fl) cluster0 (VStr "10.0.0.5") (VStr "10.0.0.0") true
             (world1 [] None)
  = (Val (Some (FullyReserved true)),
     mkWorld {[ 0%nat := doc [mkRange 1 4; mkRange 6 253] None ]} 1%nat []
             [WSetFreelist (Some 0%nat) [mkRange 1 4; mkRange 6 253]] [] true [0%nat])
  /\ release_ip (IP:=ip) (FL:=fl) cluster0 (VStr "10.0.0.5") (VStr "10.0.0.0")
                (mkWorld {[ 0%nat := doc [mkRange 1 4; mkRange 6 253] None ]} 1%nat []
                         [] [] true [0%nat])
     = (Val (Some true),
        mkWorld {[ 0%nat := doc [mkRange 1 253] None ]} 1%nat []
                [WSetFreelist (Some 0%nat) [mkRange 1 253]] [] true [0%nat])
  /\ reserve_ip (IP:=ip) (FL:=fl) cluster0 (VStr "10.0.0.0") (VStr "10.0.0.0") true
                (world1 [] None)
     = (Val (Some (Offset (Some 1))),
        mkWorld {[ 0%nat := doc [mkRange 2 253] None ]} 1%nat []
                [WSetFreelist (Some 0%nat) [mkRange 2 253]] [] true [0%nat]).
Proof. repeat split; vm_compute; reflexivity. Qed.

(** For comparison, the same call with the second address 10.0.0.3
    (offset 3, not above 5) is refused and nothing is written. *)
Example reserve_ip_reversed_range :
  reserve_ip (IP:=ip) (FL:=fl) cluster0 (VStr "10.0.0.5") (VStr "10.0.0.3") true
             (world1 [] None)
  = (Val None, logged ErrWrongRange (world1 [] None)).
Proof. vm_compute. reflexivity. Qed.

(** *** How set('ns_ip') writes *)

(** On 10.0.0.0/24 with the name server at offset 254, set('ns_ip',
    "10.0.0.9") writes three times: the free list after the release of
    254, the free list after the reservation of 9, the whole record. *)
Example set_ns_ip_journal :
  set (IP:=ip) (FL:=fl) (EN:=en) cluster0 (VStr "ns_ip") (VStr "10.0.0.9") (world1 [] None)
  = (Val (Some true),
     mkWorld {[ 0%nat := mkNetDoc "cluster0" base (VInt 24) [mkRange 1 8; mkRange 10 254]
                                  (VStr "controller") (Some 9) None ]}
             1%nat []
             [WSetFreelist (Some 0%nat) [mkRange 1 254];
              WSetFreelist (Some 0%nat) [mkRange 1 8; mkRange 10 254];
              WSetDoc (Some 0%nat)
                (mkNetDoc "cluster0" base (VInt 24) [mkRange 1 8; mkRange 10 254]
                          (VStr "controller") (Some 9) None)]
             [] true [0%nat]).
Proof. vm_compute. reflexivity. Qed.

(** When the store accepts the two free-list writes and rejects the last
    update, set reports the failure and the record keeps the old
    name-server offset with the new free list. *)
Example set_ns_ip_rejected :
  set (IP:=ip) (FL:=fl) (EN:=en) cluster0 (VStr "ns_ip") (VStr "10.0.0.9")
      (world1 [false; false; true] None)
  = (Val (Some false),
     mkWorld {[ 0%nat := doc [mkRange 1 8; mkRange 10 254] None ]}
             1%nat []
             [WSetFreelist (Some 0%nat) [mkRange 1 254];
              WSetFreelist (Some 0%nat) [mkRange 1 8; mkRange 10 254];
              WSetDoc (Some 0%nat)
                (mkNetDoc "cluster0" base (VInt 24) [mkRange 1 8; mkRange 10 254]
                          (VStr "controller") (Some 9) None)]
             [] true [0%nat]).
Proof. vm_compute. reflexivity. Qed.

(** C1 as stated fails for the key ns_ip: the successful set above has
    issued three writes, not one, and the set whose last update is
    rejected has changed the record. *)
Lemma set_ns_ip_not_one_update :
  ~ one_update_per_set (IP:=ip) (FL:=fl) (EN:=en)
      cluster0 (VStr "ns_ip") (VStr "10.0.0.9") (world1 [] None)
  /\ ~ one_update_per_set (IP:=ip) (FL:=fl) (EN:=en)
      cluster0 (VStr "ns_ip") (VStr "10.0.0.9") (world1 [false; false; true] None).
Proof.
  split; intros H.
  - destruct (H _ _ set_ns_ip_journal) as [Hone _].
    destruct (Hone eq_refl) as [op Hj].
    apply (f_equal length) in Hj. cbn in Hj. discriminate.
  - destruct (H _ _ set_ns_ip_rejected) as [_ Hsame].
    specialize (Hsame eq_refl).
    apply (f_equal (fun c => freelist <$> (c !! 0%nat))) in Hsame.
    vm_compute in Hsame. discriminate.
Qed.

(** C1 as amended, at the same call: the stored offset 254 converts back
    to 10.0.0.254, so the free list of its release is written, then the
    free list of the reservation of offset 9, then the record. *)
Lemma set_ns_ip_three_writes :
  exists i d rel pre d1 flist u d2,
    _id cluster0 = Some i /\ coll (world1 [] None) !! i = Some d
    /\ atorel (VStr "10.0.0.9") (NETWORK d) (PREFIX d) = Val rel
    /\ (forall a, reltoa (NETWORK d) (ns_ip d) = Val a -> a <> EmptyString ->
        exists old fl0 f,
          atorel (VStr a) (NETWORK d) (PREFIX d) = Val old
          /\ free_range (freelist d) (Some old) None = Val (fl0, f)
          /\ pre = [WSetFreelist (Some i) fl0]
          /\ d1 = if nth 0 (faults (world1 [] None)) false then d
                  else mkNetDoc (name d) (NETWORK d) (PREFIX d) fl0 (ns_hostname d)
                                (ns_ip d) (usedby d))
    /\ ((forall a, reltoa (NETWORK d) (ns_ip d) = Val a -> a = EmptyString) ->
        pre = [] /\ d1 = d)
    /\ (if rel =? 0 then next_free (freelist d1)
        else unfree_range (freelist d1) rel None)
       = Val (flist, u)
    /\ d2 = (if nth (length pre) (faults (world1 [] None)) false then d1
             else mkNetDoc (name d1) (NETWORK d1) (PREFIX d1) flist (ns_hostname d1)
                           (ns_ip d1) (usedby d1))
    /\ journal (snd (set (IP:=ip) (FL:=fl) (EN:=en)
              cluster0 (VStr "ns_ip") (VStr "10.0.0.9") (world1 [] None))) = journal (world1 [] None) ++ pre
         ++ [WSetFreelist (Some i) flist;
             WSetDoc (Some i) (mkNetDoc (name d2) (NETWORK d2) (PREFIX d2) (freelist d2)
                                        (ns_hostname d2) (Some rel) (usedby d2))]
    /\ true = negb (nth (S (length pre)) (faults (world1 [] None)) false)
    /\ coll (snd (set (IP:=ip) (FL:=fl) (EN:=en)
              cluster0 (VStr "ns_ip") (VStr "10.0.0.9") (world1 [] None))) !! i
       = Some (if nth (S (length pre)) (faults (world1 [] None)) false then d2
               else mkNetDoc (name d2) (NETWORK d2) (PREFIX d2) (freelist d2)
                             (ns_hostname d2) (Some rel) (usedby d2))
    /\ (forall j, j <> i -> coll (snd (set (IP:=ip) (FL:=fl) (EN:=en)
              cluster0 (VStr "ns_ip") (VStr "10.0.0.9") (world1 [] None))) !! j = coll (world1 [] None) !! j).
Proof.
  apply (proj2 (set_write_count (IP:=ip) (FL:=fl) (EN:=en)
                  cluster0 (VStr "ns_ip") (VStr "10.0.0.9") true (world1 [] None) (snd (set (IP:=ip) (FL:=fl) (EN:=en)
              cluster0 (VStr "ns_ip") (VStr "10.0.0.9") (world1 [] None)))
                  ltac:(vm_compute; reflexivity))).
  reflexivity.
Defined.

(** *** resolve_used_ips *)

(** C7 on two records: one without the links field, one whose links
    have two kinds and no id. *)
Lemma resolve_without_usage :
  resolve_used_ips (IP:=ip) (EN:=en) cluster0 (world1 [] None)
  = (Val ∅, logged (ErrNoIPsConfigured "cluster0") (world1 [] None))
  /\ resolve_used_ips (IP:=ip) (EN:=en) cluster0
       (world1 [] (Some [("group", []); ("switch", [])]))
     = (Val {[ VStr "controller" := "10.0.0.254" ]},
        world1 [] (Some [("group", []); ("switch", [])])).
Proof.
  split.
  - apply (proj1 (resolve_used_ips_no_usage (IP:=ip) (EN:=en) cluster0 0%nat
                    (doc [mkRange 1 253] None) (world1 [] None) eq_refl eq_refl)).
    reflexivity.
  - apply (proj2 (resolve_used_ips_no_usage (IP:=ip) (EN:=en) cluster0 0%nat
                    (doc [mkRange 1 253] (Some [("group", []); ("switch", [])]))
                    (world1 [] (Some [("group", []); ("switch", [])]))
                    eq_refl eq_refl)
             [("group", []); ("switch", [])] "10.0.0.254" eq_refl).
    + repeat constructor.
    + reflexivity.
Defined.

(** C3 on the scenario of the specification: a group and a switch both
    resolve to the name node1.  The mapping has one entry for node1, the
    group's (met first), and one conflict is logged. *)
Lemma resolve_duplicate_node1 :
  exists out,
    resolve_used_ips (IP:=ip) (EN:=en) cluster0 (world1 [] (Some links1))
    = (Val out,
       logs [ErrDuplicateName (VStr "node1") "cluster0"] (world1 [] (Some links1)))
    /\ out !! VStr "node1" = Some "10.0.0.10"
    /\ out !! VStr "node2" = Some "10.0.0.11"
    /\ out !! VStr "pdu1" = Some "10.0.0.30"
    /\ out !! VStr "controller" = Some "10.0.0.254"
    /\ size out = 4%nat.
Proof.
  destruct (resolve_used_ips_first_wins (IP:=ip) (EN:=en) cluster0 0%nat
              (doc [mkRange 1 253] (Some links1)) links1
              [(VStr "node1", Some 10); (VStr "node2", Some 11);
               (VStr "node1", Some 20); (VStr "pdu1", Some 30)]
              absolute (world1 [] (Some links1)) eq_refl eq_refl eq_refl eq_refl)
    as (out & Hrun & Hlook & _).
  { intros it Hin. cbn in Hin.
    repeat (destruct Hin as [<- | Hin]; [reflexivity |]). contradiction. }
  exists out. split; [exact Hrun |].
  rewrite !Hlook. repeat split.
  assert (Hout : out = fst (first_wins absolute
                  [(VStr "node1", Some 10); (VStr "node2", Some 11);
                   (VStr "node1", Some 20); (VStr "pdu1", Some 30);
                   (VStr "controller", Some 254)] ∅)).
  { apply map_eq. intros k. rewrite Hlook, first_wins_lookup, lookup_empty.
    reflexivity. }
  rewrite Hout. vm_compute. reflexivity.
Defined.

End Scenarios.

(** ** Further scenarios *)

Module MoreScenarios.
Import SpecModel Scenario.

(** X1 on the network of the scenarios *)
Lemma set_refuses_freelist_key :
  exists m,
    set (IP:=ip) (FL:=fl) (EN:=en) cluster0 (VStr "freelist") VNone (world1 [] None)
    = (Val None, logged m (world1 [] None))
    /\ (m = ErrFieldShouldBeSpecified \/ m = ErrCannotChange (VStr "freelist")).
Proof.
  apply (set_refuses_key (IP:=ip) (FL:=fl) (EN:=en)
           cluster0 (VStr "freelist") VNone (world1 [] None)).
  reflexivity.
Defined.

(** X2 on the network of the scenarios *)
Lemma set_ns_hostname_not_None :
  fst (set (IP:=ip) (FL:=fl) (EN:=en) cluster0 (VStr "ns_hostname") (VStr "master")
           (world1 [] None)) <> Val None.
Proof.
  apply (set_supported_key_not_None (IP:=ip) (FL:=fl) (EN:=en)
           cluster0 (VStr "ns_hostname") (VStr "master") (world1 [] None)).
  reflexivity.
Defined.

(** X14 on the network of the scenarios *)
Lemma _save_free_list_rejected :
  exists w',
    _save_free_list cluster0 [mkRange 1 9] (world1 [true] None)
    = (Val (Some (negb (next_fault (world1 [true] None)))), w')
    /\ journal w' = journal (world1 [true] None) ++ [WSetFreelist (Some 0%nat) [mkRange 1 9]]
    /\ (forall j, j <> 0%nat -> coll w' !! j = coll (world1 [true] None) !! j)
    /\ set_freelist [] <$> coll w' !! 0%nat
       = set_freelist [] <$> coll (world1 [true] None) !! 0%nat
    /\ (next_fault (world1 [true] None) = false ->
        freelist <$> coll w' !! 0%nat
        = (fun _ => [mkRange 1 9]) <$> coll (world1 [true] None) !! 0%nat
        /\ errlog w' = errlog (world1 [true] None))
    /\ (next_fault (world1 [true] None) = true ->
        coll w' = coll (world1 [true] None)
        /\ errlog w' = errlog (world1 [true] None) ++ [ErrUpdatingFreelist [mkRange 1 9]]).
Proof.
  apply (_save_free_list_effect cluster0 0%nat [mkRange 1 9] (world1 [true] None)).
  reflexivity.
Defined.

(** X19 at: 10.9.0.1 is not in 10.0.0.0/24 *)
Lemma reserve_ip_outside_untouched :
  snd (reserve_ip (IP:=ip) (FL:=fl) cluster0 (VStr "10.9.0.1") VNone true (world1 [] None))
  = world1 [] None.
Proof.
  apply (reserve_release_raise_untouched (IP:=ip) (FL:=fl) cluster0
           (VStr "10.9.0.1") VNone true (RuntimeError "OutOfRange") (world1 [] None)).
  left. vm_compute. reflexivity.
Defined.

(** X18 on the network of the scenarios *)
Lemma reserve_release_outside_raise :
  reserve_ip (IP:=ip) (FL:=fl) cluster0 (VStr "10.0.0.5") (VStr "10.9.0.1") true
             (world1 [] None)
  = (Raise (RuntimeError "OutOfRange"), world1 [] None)
  /\ release_ip (IP:=ip) (FL:=fl) cluster0 (VStr "10.0.0.5") (VStr "10.9.0.1")
                (world1 [] None)
     = (Raise (RuntimeError "OutOfRange"), world1 [] None).
Proof.
  apply (reserve_release_conversion_error (IP:=ip) (FL:=fl) cluster0 0%nat
           (doc [mkRange 1 253] None) (VStr "10.0.0.5") (VStr "10.9.0.1") true
           (RuntimeError "OutOfRange") (world1 [] None) eq_refl eq_refl).
  right. split; [exists (Some 5) |]; reflexivity.
Defined.

(** X16 on the network of the scenarios *)
Lemma reserve_ip_5_3_range_error :
  (snd (reserve_ip (IP:=ip) (FL:=fl) cluster0 (VStr "10.0.0.5") (VStr "10.0.0.3") true
                   (world1 [] None)) = logged ErrWrongRange (world1 [] None)
   <-> exists z1 z2, Some 5 = Some z1 /\ Some 3 = Some z2 /\ z2 <> 0 /\ z2 <= z1)
  /\ ((exists z1 z2, Some 5 = Some z1 /\ Some 3 = Some z2 /\ z2 <> 0 /\ z2 <= z1) ->
      fst (reserve_ip (IP:=ip) (FL:=fl) cluster0 (VStr "10.0.0.5") (VStr "10.0.0.3") true
                      (world1 [] None)) = Val None)
  /\ (~ (exists z1 z2, Some 5 = Some z1 /\ Some 3 = Some z2 /\ z2 <> 0 /\ z2 <= z1) ->
      snd (reserve_ip (IP:=ip) (FL:=fl) cluster0 (VStr "10.0.0.5") (VStr "10.0.0.3") true
                      (world1 [] None)) = world1 [] None
      \/ exists flist,
           snd (reserve_ip (IP:=ip) (FL:=fl) cluster0 (VStr "10.0.0.5") (VStr "10.0.0.3")
                           true (world1 [] None))
           = saved 0%nat flist (world1 [] None)).
Proof.
  apply (reserve_ip_range_error_iff (IP:=ip) (FL:=fl) cluster0 0%nat
           (doc [mkRange 1 253] None)
           (VStr "10.0.0.5") (VStr "10.0.0.3") (Some 5) (Some 3) true (world1 [] None));
    reflexivity.
Defined.

(** X17 on the network of the scenarios *)
Lemma release_ip_5_3_None :
  (fst (release_ip (IP:=ip) (FL:=fl) cluster0 (VStr "10.0.0.5") (VStr "10.0.0.3")
                   (world1 [] None)) = Val None
   <-> exists z1 z2, Some 5 = Some z1 /\ Some 3 = Some z2 /\ z2 <> 0 /\ z2 <= z1)
  /\ (fst (release_ip (IP:=ip) (FL:=fl) cluster0 (VStr "10.0.0.5") (VStr "10.0.0.3")
                      (world1 [] None)) = Val None ->
      snd (release_ip (IP:=ip) (FL:=fl) cluster0 (VStr "10.0.0.5") (VStr "10.0.0.3")
                      (world1 [] None)) = logged ErrWrongRange (world1 [] None)).
Proof.
  apply (release_ip_None_iff (IP:=ip) (FL:=fl) cluster0 0%nat (doc [mkRange 1 253] None)
           (VStr "10.0.0.5") (VStr "10.0.0.3") (Some 5) (Some 3) (world1 [] None));
    reflexivity.
Defined.

(** X15 on the network of the scenarios *)
Lemma reserve_ip_7_rejected_write :
  reserve_ip (IP:=ip) (FL:=fl) cluster0 (VStr "10.0.0.7") VNone true (world1 [true] None)
  = (Val (Some (FullyReserved true)),
     saved 0%nat [mkRange 1 6; mkRange 8 253] (world1 [true] None))
  /\ (next_fault (world1 [true] None) = false ->
      coll (saved 0%nat [mkRange 1 6; mkRange 8 253] (world1 [true] None)) !! 0%nat
      = Some (set_freelist [mkRange 1 6; mkRange 8 253] (doc [mkRange 1 253] None)))
  /\ (next_fault (world1 [true] None) = true ->
      coll (saved 0%nat [mkRange 1 6; mkRange 8 253] (world1 [true] None))
      = coll (world1 [true] None)
      /\ errlog (saved 0%nat [mkRange 1 6; mkRange 8 253] (world1 [true] None))
         = errlog (world1 [true] None)
             ++ [ErrUpdatingFreelist [mkRange 1 6; mkRange 8 253]]).
Proof.
  apply (reserve_ip_returns_report (IP:=ip) (FL:=fl) cluster0 0%nat
           (doc [mkRange 1 253] None) (VStr "10.0.0.7") VNone 7 None
           [mkRange 1 6; mkRange 8 253] (FullyReserved true) true (world1 [true] None));
    first [reflexivity | lia].
Defined.

(** X4 on the network of the scenarios *)
Lemma get_NETMASK_prefix_0 :
  get (IP:=ip) (EN:=en) cluster0 (VStr "NETMASK") (world_prefix (VInt 0))
  = (Val (VStr "0.0.0.0"), world_prefix (VInt 0)).
Proof.
  apply (get_NETMASK_closed_form (IP:=ip) (EN:=en) cluster0 0%nat _ 0
           (world_prefix (VInt 0)) eq_refl eq_refl eq_refl).
  lia.
Defined.

(** X5 on the network of the scenarios *)
Lemma get_NETMASK_prefix_33 :
  get (IP:=ip) (EN:=en) cluster0 (VStr "NETMASK") (world_prefix (VInt 33))
  = (Raise ValueError, world_prefix (VInt 33)).
Proof.
  apply (get_NETMASK_prefix_above_32 (IP:=ip) (EN:=en) cluster0 0%nat _ 33
           (world_prefix (VInt 33)) eq_refl eq_refl eq_refl).
  lia.
Defined.

(** X6 on the network of the scenarios *)
Lemma set_get_NETWORK_10_1 :
  exists w',
    set (IP:=ip) (FL:=fl) (EN:=en) cluster0 (VStr "NETWORK") (VStr "10.1.0.77")
        (world1 [] None)
    = (Val (Some true), w')
    /\ get (IP:=ip) (EN:=en) cluster0 (VStr "NETWORK") w' = (Val (VStr "10.1.0.0"), w').
Proof.
  apply (set_get_NETWORK (IP:=ip) (FL:=fl) (EN:=en) cluster0 0%nat
           (doc [mkRange 1 253] None) (VStr "10.1.0.77") 167837696 (world1 [] None));
    reflexivity.
Defined.

(** X7 on the network of the scenarios *)
Lemma set_get_PREFIX_25 :
  exists w',
    set (IP:=ip) (FL:=fl) (EN:=en) cluster0 (VStr "PREFIX") (VInt 25) (world1 [] None)
    = (Val (Some true), w')
    /\ get (IP:=ip) (EN:=en) cluster0 (VStr "PREFIX") w' = (Val (VInt 25), w')
    /\ get (IP:=ip) (EN:=en) cluster0 (VStr "NETMASK") w'
       = (Val (VStr "255.255.255.128"), w').
Proof.
  apply (set_get_PREFIX (IP:=ip) (FL:=fl) (EN:=en) cluster0 0%nat
           (doc [mkRange 1 253] None) 25 base [mkRange 1 127] (world1 [] None));
    first [reflexivity | lia].
Defined.

(** X8 on the network of the scenarios *)
Lemma set_PREFIX_string_refused :
  exists e,
    set (IP:=ip) (FL:=fl) (EN:=en) cluster0 (VStr "PREFIX") (VStr "25") (world1 [] None)
    = (Raise e, world1 [] None).
Proof.
  apply (set_PREFIX_refused (IP:=ip) (FL:=fl) (EN:=en) cluster0 0%nat
           (doc [mkRange 1 253] None) (VStr "25") (world1 [] None) eq_refl eq_refl).
  intros P HP. discriminate HP.
Defined.

(** X9 on the network of the scenarios *)
Lemma set_ns_hostname_master :
  exists w',
    set (IP:=ip) (FL:=fl) (EN:=en) cluster0 (VStr "ns_hostname") (VStr "master")
        (world1 [] None)
    = (Val (Some (negb (next_fault (world1 [] None)))), w')
    /\ journal w' = journal (world1 [] None)
         ++ [WSetDoc (Some 0%nat) (set_ns_hostname (VStr "master") (doc [mkRange 1 253] None))]
    /\ (next_fault (world1 [] None) = false ->
        coll w' !! 0%nat
        = Some (mkNetDoc "cluster0" base (VInt 24) [mkRange 1 253] (VStr "master")
                         (Some 254) None))
    /\ (next_fault (world1 [] None) = true -> coll w' = coll (world1 [] None))
    /\ (forall j, j <> 0%nat -> coll w' !! j = coll (world1 [] None) !! j).
Proof.
  apply (set_ns_hostname_effect (IP:=ip) (FL:=fl) (EN:=en) cluster0 0%nat
           (doc [mkRange 1 253] None) (VStr "master") (world1 [] None));
    reflexivity.
Defined.

(** X10 on the network of the scenarios *)
Lemma set_ns_ip_outside :
  set (IP:=ip) (FL:=fl) (EN:=en) cluster0 (VStr "ns_ip") (VStr "10.9.0.1") (world1 [] None)
  = (Raise (RuntimeError "OutOfRange"), world1 [] None).
Proof.
  apply (set_ns_ip_bad_address (IP:=ip) (FL:=fl) (EN:=en) cluster0 0%nat
           (doc [mkRange 1 253] None) (VStr "10.9.0.1") (RuntimeError "OutOfRange")
           (world1 [] None));
    reflexivity.
Defined.

(** X12 with the name server put at the network address of a network
    whose free list is [1, 254]: offset 0 is recorded and the free list
    becomes [2, 254], the one next_free returns *)
Lemma set_ns_ip_network_address :
  exists w',
    set (IP:=ip) (FL:=fl) (EN:=en) cluster0 (VStr "ns_ip") (VStr "10.0.0.0") (world_new [])
    = (Val (Some true), w')
    /\ coll w' !! 0%nat
       = Some (mkNetDoc "cluster0" base (VInt 24) [mkRange 2 254] (VStr "controller")
                        (Some 0) None)
    /\ journal w' = journal (world_new [])
         ++ [WSetFreelist (Some 0%nat) [mkRange 2 254];
             WSetDoc (Some 0%nat)
               (mkNetDoc "cluster0" base (VInt 24) [mkRange 2 254] (VStr "controller")
                         (Some 0) None)].
Proof.
  apply (set_ns_ip_offset_zero (IP:=ip) (FL:=fl) (EN:=en) cluster0 0%nat doc_new
           (VStr "10.0.0.0") TypeError [mkRange 2 254] (Offset (Some 1)) (world_new []));
    reflexivity.
Defined.

(** X13 on the network of the scenarios *)
Lemma set_ns_ip_lost_reservation :
  exists w',
    set (IP:=ip) (FL:=fl) (EN:=en) cluster0 (VStr "ns_ip") (VStr "10.0.0.9")
        (world_new [true; false])
    = (Val (Some true), w')
    /\ coll w' !! 0%nat
       = Some (mkNetDoc "cluster0" base (VInt 24) [mkRange 1 254] (VStr "controller")
                        (Some 9) None)
    /\ errlog w' = errlog (world_new [true; false])
         ++ [ErrUpdatingFreelist [mkRange 1 8; mkRange 10 254]].
Proof.
  apply (set_ns_ip_reservation_lost (IP:=ip) (FL:=fl) (EN:=en) cluster0 0%nat doc_new
           (VStr "10.0.0.9") 9 TypeError [mkRange 1 8; mkRange 10 254]
           (FullyReserved true) [] (world_new [true; false]));
    first [reflexivity | lia].
Defined.

(** X11 on the network of the scenarios *)
Lemma set_ns_ip_254_to_9 :
  exists w',
    set (IP:=ip) (FL:=fl) (EN:=en) cluster0 (VStr "ns_ip") (VStr "10.0.0.9") (world1 [] None)
    = (Val (Some true), w')
    /\ coll w' !! 0%nat
       = Some (mkNetDoc "cluster0" base (VInt 24) [mkRange 1 8; mkRange 10 254]
                        (VStr "controller") (Some 9) None)
    /\ journal w' = journal (world1 [] None)
         ++ [WSetFreelist (Some 0%nat) [mkRange 1 254];
             WSetFreelist (Some 0%nat) [mkRange 1 8; mkRange 10 254];
             WSetDoc (Some 0%nat)
               (mkNetDoc "cluster0" base (VInt 24) [mkRange 1 8; mkRange 10 254]
                         (VStr "controller") (Some 9) None)]
    /\ get (IP:=ip) (EN:=en) cluster0 (VStr "ns_ip") w' = (Val (VStr "10.0.0.9"), w').
Proof.
  apply (set_ns_ip_replaces (IP:=ip) (FL:=fl) (EN:=en) cluster0 0%nat
           (doc [mkRange 1 253] None) (VStr "10.0.0.9") "10.0.0.254" 254 9
           [mkRange 1 254] [mkRange 1 8; mkRange 10 254] 1 (FullyReserved true)
           (world1 [] None));
    first [reflexivity | discriminate].
Defined.

(** X22 on the network of the scenarios *)
Lemma create_with_ns_ip_1 :
  exists w',
    create (IP:=ip) (FL:=fl) (EN:=en)
           "cluster0" (VStr "10.0.0.0") (VInt 24) VNone (VStr "10.0.0.1") (world0 [])
    = (Val cluster0, w')
    /\ coll w' !! 0%nat
       = Some (mkNetDoc "cluster0" base (VInt 24) [mkRange 2 254] (VStr "controller")
                        (Some 1) None)
    /\ journal w'
       = [WInsert doc_new;
          WSetFreelist (Some 0%nat) [mkRange 2 254];
          WSetDoc (Some 0%nat)
            (mkNetDoc "cluster0" base (VInt 24) [mkRange 2 254] (VStr "controller")
                      (Some 1) None)].
Proof.
  apply (create_explicit_ns_ip (IP:=ip) (FL:=fl) (EN:=en)
           "cluster0" (VStr "10.0.0.0") (VInt 24) VNone (VStr "10.0.0.1") 24 base 1
           TypeError [mkRange 2 254] (FullyReserved true) (world0 []));
    first [reflexivity | lia | discriminate].
Defined.

(** X23 on the network of the scenarios *)
Lemma create_with_ns_ip_outside :
  exists w',
    create (IP:=ip) (FL:=fl) (EN:=en)
           "cluster0" (VStr "10.0.0.0") (VInt 24) VNone (VStr "10.9.0.1") (world0 [])
    = (Raise (RuntimeError "OutOfRange"), w')
    /\ coll w' !! 0%nat = Some doc_new
    /\ journal w' = [WInsert doc_new]
    /\ linked w' = [0%nat].
Proof.
  apply (create_bad_ns_ip_leaves_record (IP:=ip) (FL:=fl) (EN:=en)
           "cluster0" (VStr "10.0.0.0") (VInt 24) VNone (VStr "10.9.0.1") 24 base
           (RuntimeError "OutOfRange") (world0 []));
    first [reflexivity | lia | discriminate].
Defined.

(** X24 on the network of the scenarios *)
Lemma create_last_update_rejected :
  exists w',
    create (IP:=ip) (FL:=fl) (EN:=en)
           "cluster0" (VStr "10.0.0.0") (VInt 24) VNone VNone (world0 [false; false; true])
    = (Val cluster0, w')
    /\ coll w' !! 0%nat
       = Some (mkNetDoc "cluster0" base (VInt 24) [mkRange 1 253] (VStr "controller")
                        None None).
Proof.
  apply (create_ignores_rejected_update (IP:=ip) (FL:=fl) (EN:=en)
           "cluster0" (VStr "10.0.0.0") (VInt 24) VNone 24 base "10.0.0.254" TypeError
           [mkRange 1 253] (FullyReserved true) [] (world0 [false; false; true]));
    first [reflexivity | lia].
Defined.

(** X26 on the network of the scenarios *)
Lemma resolve_node_links_ignored :
  resolve_used_ips (IP:=ip) (EN:=en) cluster0
    (world1 [] (Some [("node", ["n1"]); ("cluster", ["c1"])]))
  = (Val {[ VStr "controller" := "10.0.0.254" ]},
     world1 [] (Some [("node", ["n1"]); ("cluster", ["c1"])])).
Proof.
  apply (resolve_used_ips_other_kinds (IP:=ip) (EN:=en) cluster0 0%nat
           (doc [mkRange 1 253] (Some [("node", ["n1"]); ("cluster", ["c1"])]))
           [("node", ["n1"]); ("cluster", ["c1"])] "10.0.0.254"
           (world1 [] (Some [("node", ["n1"]); ("cluster", ["c1"])]))
           eq_refl eq_refl eq_refl).
  - repeat constructor; discriminate.
  - reflexivity.
Defined.

(** X27 on the network of the scenarios *)
Lemma resolve_links1_accounts :
  exists out dups,
    resolve_used_ips (IP:=ip) (EN:=en) cluster0 (world1 [] (Some links1))
    = (Val out, logs (map (duplicate_msg cluster0) dups) (world1 [] (Some links1)))
    /\ (size out + length dups = 5)%nat
    /\ (forall it,
          In it ([(VStr "node1", Some 10); (VStr "node2", Some 11);
                  (VStr "node1", Some 20); (VStr "pdu1", Some 30)]
                 ++ [(VStr "controller", Some 254)]) ->
          is_Some (out !! fst it)).
Proof.
  apply (resolve_used_ips_accounts (IP:=ip) (EN:=en) cluster0 0%nat
           (doc [mkRange 1 253] (Some links1)) links1
           [(VStr "node1", Some 10); (VStr "node2", Some 11);
            (VStr "node1", Some 20); (VStr "pdu1", Some 30)]
           absolute (world1 [] (Some links1)) eq_refl eq_refl eq_refl eq_refl).
  intros it Hin. cbn in Hin.
  repeat (destruct Hin as [<- | Hin]; [reflexivity |]). contradiction.
Defined.

(** X28 on the network of the scenarios *)
Lemma resolve_switch_named_controller :
  exists out dups,
    resolve_used_ips (IP:=ip) (EN:=en_shadow) cluster0 (world1 [] (Some links_shadow))
    = (Val out,
       logs (map (duplicate_msg cluster0) (dups ++ [VStr "controller"]))
            (world1 [] (Some links_shadow)))
    /\ out !! VStr "controller" = Some "10.0.0.20".
Proof.
  apply (resolve_used_ips_name_server_shadowed (IP:=ip) (EN:=en_shadow) cluster0 0%nat
           (doc [mkRange 1 253] (Some links_shadow)) links_shadow
           [(VStr "controller", Some 20)] absolute (Some 20)
           (world1 [] (Some links_shadow)) eq_refl eq_refl eq_refl eq_refl).
  - intros it Hin. cbn in Hin.
    repeat (destruct Hin as [<- | Hin]; [reflexivity |]). contradiction.
  - reflexivity.
Defined.

End MoreScenarios.
